(** * The database-access layer, the auth manager and the domain services
      of the FastAPI example backend, embedded in Rocq.

    Sources embedded here:
    - [src/db/async_mysql.py]      (class [AsyncMySQLHandler])
    - [src/common/auth.py]         (class [AuthManager], [require_role])
    - [src/service/user_handler/user.py]       (class [UserService])
    - [src/service/article_handler/article.py] (class [ArticleService])
    - [src/models/user_models/user.py], [src/models/article_models/article.py]

    Coroutines are functions in a state-and-exception monad over a [world]
    that holds what the Python objects and the MySQL server hold.  The
    libraries the code calls (aiomysql, python-jose, passlib) are outside the
    repository; each is modelled by what it does to the values the code hands
    it, and every such place says so. *)

From stdpp Require Import gmap strings list fin_maps.
From Stdlib Require Import ZArith Lia DecimalString.

(** ** Python values, rows and exceptions *)

(** The values that travel between the services and the database.  Two text
    columns hold serialised data and are kept structured: a bcrypt hash is its
    settings prefix (identifier, cost, salt) and its checksum, and the JSON
    text of a tag list is the list. *)
Inductive value :=
  | VNone
  | VBool (b : bool)
  | VInt (n : Z)
  | VStr (s : string)
  | VDatetime (t : Z)
  | VHash (settings checksum : string)
  | VJson (tags : list string)
  | VList (tags : list string).

#[global] Instance value_eq_dec : EqDecision value.
Proof. solve_decision. Defined.

(** A row as [aiomysql.DictCursor] returns it: column name to value. *)
Abbreviation row := (gmap string value).

(** Python's truth value of an object ([if x:], [not x]). *)
Definition truthy (v : value) : bool :=
  match v with
  | VNone => false
  | VBool b => b
  | VInt n => negb (n =? 0)%Z
  | VStr s => negb (String.eqb s "")
  | VDatetime _ => true
  | VHash _ _ => true
  | VJson _ => true
  | VList l => match l with [] => false | _ => true end
  end.

(** A Python [dict] with string keys, in insertion order. *)
Abbreviation dict := (list (string * value)).

Fixpoint dict_set (k : string) (v : value) (d : dict) : dict :=
  match d with
  | [] => [(k, v)]
  | (k', v') :: d' =>
      if String.eqb k k' then (k, v) :: d' else (k', v') :: dict_set k v d'
  end.

Definition dict_keys (d : dict) : list string := map fst d.
Definition dict_values (d : dict) : list value := map snd d.

Inductive exn :=
  | HTTPException (status_code : Z) (detail : string)
  | JWTError
  | OperationalError          (* aiomysql: no connection, or a rejected statement *)
  | ZeroDivisionError
  | TypeError
  | KeyError (key : string)
  | UnknownHashError          (* passlib: the stored hash is not a bcrypt hash *)
  | PasswordSizeError         (* passlib: a secret of more than 4096 bytes *)
  | PasswordValueError        (* passlib: a secret with a NUL byte *)
  | ValueError
  | JSONDecodeError.

#[global] Instance exn_eq_dec : EqDecision exn.
Proof. solve_decision. Defined.

Definition HTTP_400_BAD_REQUEST : Z := 400.
Definition HTTP_401_UNAUTHORIZED : Z := 401.
Definition HTTP_403_FORBIDDEN : Z := 403.
Definition HTTP_404_NOT_FOUND : Z := 404.

Inductive outcome (A : Type) :=
  | Return (a : A)
  | Raise (e : exn).
Arguments Return {A} a.
Arguments Raise {A} e.

(** ** The MySQL server as the handler sees it *)

(** A bound Python value as the server stores it and returns it: [True] is
    1, [False] is 0. *)
Definition stored_value (v : value) : value :=
  match v with
  | VBool true => VInt 1
  | VBool false => VInt 0
  | _ => v
  end.

(** A table: its rows, the key its counter gives next, and for each column
    with a default the value the server gives it in a row whose [INSERT]
    leaves the column out. *)
Record table := {
  t_rows : list row;
  t_auto_increment : Z;
  t_defaults : row
}.

(** The row an [INSERT] of the columns [named] adds to a table: the named
    columns hold the bound values as the server stores them, every other
    column of the table its default, and [id] the key drawn from the table's
    counter when the columns give none. *)
Definition inserted_row (t : table) (named : dict) : row :=
  let r : row := list_to_map (prod_map id stored_value <$> named) ∪ t_defaults t in
  match (list_to_map named : row) !! "id" with
  | Some _ => r
  | None => <["id" := VInt (t_auto_increment t)]> r
  end.

(** A table with one more row, the counter moved on. *)
Definition with_row (t : table) (r : row) : table :=
  {| t_rows := t_rows t ++ [r];
     t_auto_increment := (t_auto_increment t + 1)%Z;
     t_defaults := t_defaults t |}.

(** Table name to table. *)
Abbreviation database := (gmap string table).

(** What the server answers to one statement. *)
Record reply := {
  rowcount : Z;
  fetched : list row;
  lastrowid : Z;
  after : database
}.

(** A statement is the text the code sends and the reading the server gives
    it: [None] when the server rejects it. *)
Record statement := {
  text : string;
  meaning : list value -> database -> option reply
}.

(** CPU-bound calls whose place of execution matters. *)
Inductive cpu_call :=
  | HashPassword (password : string)
  | VerifyPassword (password : string) (hashed : value).

Inductive event :=
  | Executed (sql : string) (params : list value)
  | OnEventLoop (c : cpu_call)
  | InThreadPool (c : cpu_call).

Record world := {
  pool : option nat;             (* [self.pool] *)
  pools_created : nat;           (* pools [aiomysql.create_pool] has opened *)
  server_up : bool;              (* whether [create_pool] can connect *)
  store : database;              (* committed data *)
  session : option database;     (* the checked-out connection's view *)
  clock : Z;                     (* seconds; [datetime.now()] *)
  entropy : string;              (* the salt the next hash draws *)
  trace : list event
}.

Definition set_pool (p : option nat) (n : nat) (w : world) : world :=
  {| pool := p; pools_created := n; server_up := server_up w;
     store := store w; session := session w; clock := clock w;
     entropy := entropy w; trace := trace w |}.

Definition set_store (d : database) (w : world) : world :=
  {| pool := pool w; pools_created := pools_created w; server_up := server_up w;
     store := d; session := session w; clock := clock w;
     entropy := entropy w; trace := trace w |}.

Definition set_session (s : option database) (w : world) : world :=
  {| pool := pool w; pools_created := pools_created w; server_up := server_up w;
     store := store w; session := s; clock := clock w;
     entropy := entropy w; trace := trace w |}.

Definition log (e : event) (w : world) : world :=
  {| pool := pool w; pools_created := pools_created w; server_up := server_up w;
     store := store w; session := session w; clock := clock w;
     entropy := entropy w; trace := trace w ++ [e] |}.

(** ** Coroutines *)

Definition M (A : Type) : Type := world -> outcome A * world.

Definition ret {A} (a : A) : M A := fun w => (Return a, w).
Definition raise {A} (e : exn) : M A := fun w => (Raise e, w).

Definition bind {A B} (m : M A) (k : A -> M B) : M B :=
  fun w =>
    match m w with
    | (Return a, w1) => k a w1
    | (Raise e, w1) => (Raise e, w1)
    end.

(** [try: m  except Exception as e: h e] *)
Definition try_except {A} (m : M A) (h : exn -> M A) : M A :=
  fun w =>
    match m w with
    | (Return a, w1) => (Return a, w1)
    | (Raise e, w1) => h e w1
    end.

(** The exit of an [async with] block: [cleanup] runs on every path. *)
Definition on_exit {A} (m : M A) (cleanup : world -> world) : M A :=
  fun w => let (r, w1) := m w in (r, cleanup w1).

Notation "'let*' x ':=' m 'in' k" := (bind m (fun x => k))
  (at level 10, x name, m at level 100, k at level 200).
Notation "m ';;' k" := (bind m (fun _ => k))
  (at level 100, k at level 200, right associativity).

Definition modify (f : world -> world) : M unit := fun w => (Return tt, f w).
Definition get {A} (f : world -> A) : M A := fun w => (Return (f w), w).

(** ** [AsyncMySQLHandler] *)

Module AsyncMySQLHandler.

(** [aiomysql.create_pool(...)]: opens a pool when the server is reachable. *)
Definition create_pool : M nat :=
  fun w =>
    if server_up w
    then (Return (S (pools_created w)), set_pool (pool w) (S (pools_created w)) w)
    else (Raise OperationalError, w).

(** [_ensure_pool]: one check of [self.pool], then the awaited creation and
    the assignment; an exception is logged and raised again. *)
Definition _ensure_pool : M unit :=
  let* p := get pool in
  match p with
  | None =>
      try_except
        (let* fresh := create_pool in
         modify (fun w => set_pool (Some fresh) (pools_created w) w))
        (fun e => raise e)
  | Some _ => ret tt
  end.

Definition init_pool : M unit := _ensure_pool.

(** The connection's three calls.  The session is the connection's view of
    the data: statements change the view, [commit] publishes it, [rollback]
    discards it. *)
Definition conn_view (w : world) : database := default (store w) (session w).

Definition conn_commit : M unit :=
  modify (fun w => set_store (conn_view w) w).

Definition conn_rollback : M unit :=
  modify (fun w => set_session (Some (store w)) w).

(** [BEGIN] ends the transaction that is open, committing it. *)
Definition conn_begin : M unit := conn_commit.

Definition acquire : M unit := modify (fun w => set_session (Some (store w)) w).
Definition release (w : world) : world := set_session None w.

(** [get_connection]: and the pool's context manager around it. *)
Definition get_connection {A} (body : M A) : M A :=
  _ensure_pool ;;
  on_exit
    (acquire ;;
     try_except body (fun e => conn_rollback ;; raise e))
    release.

Definition transaction {A} (body : M A) : M A :=
  get_connection
    (try_except
       (conn_begin ;;
        let* a := body in
        conn_commit ;;
        ret a)
       (fun e => conn_rollback ;; raise e)).

(** [cursor.execute(sql, params)]: the statement is sent as text with its
    parameters bound; the server answers on the connection's view. *)
Definition cursor_execute (q : statement) (params : list value) : M reply :=
  fun w =>
    let w1 := log (Executed (text q) params) w in
    match meaning q params (conn_view w1) with
    | Some r => (Return r, set_session (Some (after r)) w1)
    | None => (Raise OperationalError, w1)
    end.

(** [cursor.executemany(sql, params_list)]: [None] for an empty list, else
    one execution per parameter set, the row counts added up.  (For an
    [INSERT ... VALUES] aiomysql sends the sets as one statement; either way
    the first rejected set raises.) *)
Fixpoint executemany_from (q : statement) (params_list : list (list value))
    (rows : Z) : M Z :=
  match params_list with
  | [] => ret rows
  | params :: rest =>
      let* r := cursor_execute q params in
      executemany_from q rest (rows + rowcount r)%Z
  end.

Definition cursor_executemany (q : statement) (params_list : list (list value))
    : M (option Z) :=
  match params_list with
  | [] => ret None
  | _ => let* rows := executemany_from q params_list 0%Z in ret (Some rows)
  end.

Definition execute (q : statement) (params : list value) (use_transaction : bool)
    : M Z :=
  if use_transaction
  then transaction (let* r := cursor_execute q params in ret (rowcount r))
  else get_connection
         (let* r := cursor_execute q params in
          conn_commit ;;
          ret (rowcount r)).

Definition execute_many (q : statement) (params_list : list (list value))
    (use_transaction : bool) : M (option Z) :=
  if use_transaction
  then transaction (cursor_executemany q params_list)
  else get_connection
         (let* result := cursor_executemany q params_list in
          conn_commit ;;
          ret result).

Definition fetch_one (q : statement) (params : list value) : M (option row) :=
  get_connection
    (let* r := cursor_execute q params in
     ret (head (fetched r))).

Definition fetch_all (q : statement) (params : list value) : M (list row) :=
  get_connection
    (let* r := cursor_execute q params in
     ret (fetched r)).

(** *** Pagination *)

(** [f"{n}"] for an [int]. *)
Definition str_of_int (n : Z) : string := NilZero.string_of_int (Z.to_int n).

(** A result set cut to a [LIMIT count OFFSET skip] window; the server
    rejects a negative bound. *)
Definition window (count skip : Z) (rs : list row) : option (list row) :=
  if ((count <? 0) || (skip <? 0))%Z then None
  else Some (take (Z.to_nat count) (drop (Z.to_nat skip) rs)).

(** [f"{sql} LIMIT {page_size} OFFSET {offset}"] *)
Definition paginated_sql (q : statement) (page_size offset : Z) : statement :=
  {| text := text q ++ " LIMIT " ++ str_of_int page_size
               ++ " OFFSET " ++ str_of_int offset;
     meaning := fun params db =>
       match meaning q params db with
       | Some r =>
           match window page_size offset (fetched r) with
           | Some rs =>
               Some {| rowcount := Z.of_nat (length rs); fetched := rs;
                       lastrowid := lastrowid r; after := after r |}
           | None => None
           end
       | None => None
       end |}.

(** [f"SELECT COUNT(*) as total FROM ({sql}) as count_table"] *)
Definition count_sql (q : statement) : statement :=
  {| text := "SELECT COUNT(*) as total FROM (" ++ text q ++ ") as count_table";
     meaning := fun params db =>
       match meaning q params db with
       | Some r =>
           Some {| rowcount := 1;
                   fetched := [ {[ "total" := VInt (Z.of_nat (length (fetched r))) ]} ];
                   lastrowid := lastrowid r; after := after r |}
       | None => None
       end |}.

(** The pagination envelope. *)
Record envelope := {
  items : list row;
  total : Z;
  page : Z;
  page_size : Z;
  total_pages : Z
}.

(** Python's [a // b] on integers. *)
Definition floordiv (a b : Z) : M Z :=
  if (b =? 0)%Z then raise ZeroDivisionError else ret (a / b)%Z.

(** [total_result['total'] if total_result else 0] *)
Definition total_of (total_result : option row) : M Z :=
  match total_result with
  | Some r =>
      if decide (r = ∅) then ret 0%Z
      else match r !! "total" with
           | Some (VInt n) => ret n
           | Some _ => raise TypeError
           | None => raise (KeyError "total")
           end
  | None => ret 0%Z
  end.

Definition fetch_paginated (q : statement) (page page_size : Z)
    (params : list value) : M envelope :=
  let offset := ((page - 1) * page_size)%Z in
  get_connection
    (let* c := cursor_execute (count_sql q) params in
     let* total := total_of (head (fetched c)) in
     let* d := cursor_execute (paginated_sql q page_size offset) params in
     let data := fetched d in
     let* pages := floordiv (total + page_size - 1) page_size in
     ret {| items := data; total := total; page := page;
            page_size := page_size; total_pages := pages |}).

(** *** [insert], [update], [delete] *)

(** A raw [WHERE] predicate as the caller supplies it: its text, and the
    server's reading of it on a row under the bound parameters. *)
Record predicate := {
  where_text : string;
  holds : list value -> row -> bool
}.

(** The server's reading of [INSERT INTO tbl (columns) VALUES (%s, ...)].
    (Constraints of the schema, which is not part of the repository, are not
    modelled.) *)
Definition insert_meaning (tbl : string) (columns : list string)
    : list value -> database -> option reply :=
  fun params db =>
    match db !! tbl with
    | Some t =>
        if decide (length columns = length params) then
          Some {| rowcount := 1; fetched := []; lastrowid := t_auto_increment t;
                  after := <[tbl := with_row t (inserted_row t (zip columns params))]> db |}
        else None
    | None => None
    end.

(** One row under [SET c1 = %s, ..., cn = %s]: the named columns take the
    bound values, every other column stays. *)
Definition set_columns (columns : list string) (vals : list value) (r : row)
    : row :=
  list_to_map (zip columns vals) ∪ r.

(** A table under [UPDATE ... SET fields WHERE where]. *)
Definition updated_rows (fields : dict) (where_ : predicate) (wparams : list value)
    (t : table) : table :=
  {| t_rows := map (fun r => if holds where_ wparams r
                             then set_columns (dict_keys fields) (dict_values fields) r
                             else r) (t_rows t);
     t_auto_increment := t_auto_increment t;
     t_defaults := t_defaults t |}.

(** The server's reading of [UPDATE tbl SET ... WHERE where]: the first
    parameters are the new values, the rest belong to the predicate. *)
Definition update_meaning (tbl : string) (columns : list string)
    (where_ : predicate) : list value -> database -> option reply :=
  fun params db =>
    match db !! tbl with
    | Some t =>
        if decide (length columns <= length params)%nat then
          let vals := take (length columns) params in
          let wparams := drop (length columns) params in
          let hit := holds where_ wparams in
          Some {| rowcount := Z.of_nat (length (List.filter hit (t_rows t)));
                  fetched := []; lastrowid := 0;
                  after := <[tbl := {| t_rows :=
                                         map (fun r => if hit r
                                                       then set_columns columns vals r
                                                       else r) (t_rows t);
                                       t_auto_increment := t_auto_increment t;
                                       t_defaults := t_defaults t |}]> db |}
        else None
    | None => None
    end.

(** The server's reading of [DELETE FROM tbl WHERE where]. *)
Definition delete_meaning (tbl : string) (where_ : predicate)
    : list value -> database -> option reply :=
  fun params db =>
    match db !! tbl with
    | Some t =>
        let hit := holds where_ params in
        Some {| rowcount := Z.of_nat (length (List.filter hit (t_rows t)));
                fetched := []; lastrowid := 0;
                after := <[tbl := {| t_rows := List.filter (fun r => negb (hit r)) (t_rows t);
                                     t_auto_increment := t_auto_increment t;
                                     t_defaults := t_defaults t |}]> db |}
    | None => None
    end.

(** [f"INSERT INTO {table} ({columns}) VALUES ({placeholders})"] *)
Definition insert_sql (tbl : string) (data : dict) : string :=
  let columns := String.concat ", " (dict_keys data) in
  let placeholders := String.concat ", " (replicate (length data) "%s") in
  "INSERT INTO " ++ tbl ++ " (" ++ columns ++ ") VALUES (" ++ placeholders ++ ")".

Definition insert (tbl : string) (data : dict) (return_id : bool)
    : M (option Z) :=
  let sql := insert_sql tbl data in
  get_connection
    (let* r := cursor_execute
                 {| text := sql; meaning := insert_meaning tbl (dict_keys data) |}
                 (dict_values data) in
     conn_commit ;;
     if return_id then ret (Some (lastrowid r)) else ret None).

(** [f"UPDATE {table} SET {set_clause} WHERE {where}"] *)
Definition update_sql (tbl : string) (data : dict) (where_ : string) : string :=
  let set_clause :=
    String.concat ", " (map (fun k : string => (k ++ " = %s")%string) (dict_keys data)) in
  "UPDATE " ++ tbl ++ " SET " ++ set_clause ++ " WHERE " ++ where_.

(** [params = list(data.values()); if where_params: params.extend(where_params)] *)
Definition update_params (data : dict) (where_params : option (list value))
    : list value :=
  dict_values data ++ default [] where_params.

Definition update (tbl : string) (data : dict) (where_ : predicate)
    (where_params : option (list value)) : M Z :=
  let sql := update_sql tbl data (where_text where_) in
  let params := update_params data where_params in
  execute {| text := sql; meaning := update_meaning tbl (dict_keys data) where_ |}
          params false.

(** [f"DELETE FROM {table} WHERE {where}"] *)
Definition delete_sql (tbl : string) (where_ : string) : string :=
  "DELETE FROM " ++ tbl ++ " WHERE " ++ where_.

Definition delete (tbl : string) (where_ : predicate)
    (where_params : option (list value)) : M Z :=
  let sql := delete_sql tbl (where_text where_) in
  execute {| text := sql; meaning := delete_meaning tbl where_ |}
          (default [] where_params) false.

(** *** Where a CPU-bound call runs *)

(** A plain call inside a coroutine runs on the event-loop thread. *)
Definition on_event_loop {A} (c : cpu_call) (result : outcome A) : M A :=
  fun w => (result, log (OnEventLoop c) w).

(** [run_in_thread]: [loop.run_in_executor(self.thread_pool, func, ...)]. *)
Definition run_in_thread {A} (c : cpu_call) (result : outcome A) : M A :=
  fun w => (result, log (InThreadPool c) w).

(** *** [_ensure_pool] on the event loop *)

(** Where a coroutine running [_ensure_pool] can stand: before the check of
    [self.pool], suspended at [await aiomysql.create_pool(...)] (the check is
    behind it, the assignment ahead), or finished. *)
Inductive ensure_pc :=
  | AtCheck
  | AtAwait
  | Finished (r : outcome unit).

(** One uninterrupted run of the coroutine, up to its next suspension. *)
Definition ensure_step (pc : ensure_pc) (w : world) : ensure_pc * world :=
  match pc with
  | AtCheck =>
      match pool w with
      | None => (AtAwait, w)
      | Some _ => (Finished (Return tt), w)
      end
  | AtAwait =>
      match create_pool w with
      | (Return fresh, w1) =>
          (Finished (Return tt), set_pool (Some fresh) (pools_created w1) w1)
      | (Raise e, w1) => (Finished (Raise e), w1)
      end
  | Finished r => (Finished r, w)
  end.

(** The event loop resumes the coroutines in the order of [schedule], each
    entry the index of the coroutine that runs next. *)
Fixpoint run_schedule (schedule : list nat) (pcs : list ensure_pc) (w : world)
    : list ensure_pc * world :=
  match schedule with
  | [] => (pcs, w)
  | i :: rest =>
      match pcs !! i with
      | Some pc =>
          let (pc', w') := ensure_step pc w in
          run_schedule rest (<[i := pc']> pcs) w'
      | None => run_schedule rest pcs w
      end
  end.

(** *** The singleton: [__new__] *)

(** The class attributes: [_instance], [_cleanup_registered], and the
    [atexit] hooks registered so far. *)
Record class_state := {
  _instance : option nat;
  _cleanup_registered : bool;
  atexit_hooks : nat;
  allocated : nat
}.

(** [__new__]: a check of [cls._instance], and under [cls._lock] the check
    again before the instance is made and the exit hook registered. *)
Definition __new__ (cls : class_state) : nat * class_state :=
  match _instance cls with
  | Some i => (i, cls)
  | None =>
      (* with cls._lock: *)
      match _instance cls with
      | Some i => (i, cls)
      | None =>
          let i := S (allocated cls) in
          let hooks := if _cleanup_registered cls then atexit_hooks cls
                       else S (atexit_hooks cls) in
          (i, {| _instance := Some i; _cleanup_registered := true;
                 atexit_hooks := hooks; allocated := i |})
      end
  end.

(** *** Closing *)

(** The handler with the one resource the world does not hold: whether its
    [ThreadPoolExecutor] has been shut down. *)
Record handler := {
  the_world : world;
  thread_pool_shutdown : bool
}.

(** [close_pool]: the pool, when set, is closed and [self.pool] unset; the
    thread pool is shut down in every case. *)
Definition close_pool (h : handler) : handler :=
  {| the_world :=
       match pool (the_world h) with
       | Some _ => set_pool None (pools_created (the_world h)) (the_world h)
       | None => the_world h
       end;
     thread_pool_shutdown := true |}.

(** [__aenter__] and [__aexit__] of [async with db:]. *)
Definition __aenter__ (h : handler) : outcome unit * handler :=
  let (r, w) := _ensure_pool (the_world h) in
  (r, {| the_world := w; thread_pool_shutdown := thread_pool_shutdown h |}).

Definition __aexit__ (h : handler) : handler := close_pool h.

End AsyncMySQLHandler.

(** The pool can be had: it is set, or the server is reachable. *)
Definition reachable (w : world) : Prop :=
  is_Some (pool w) \/ server_up w = true.

(** The world once [_ensure_pool] has succeeded. *)
Definition ensured (w : world) : world :=
  match pool w with
  | Some _ => w
  | None => set_pool (Some (S (pools_created w))) (S (pools_created w)) w
  end.

(** The world a body inside [get_connection] starts in: the pool ensured, a
    connection checked out. *)
Definition entered (w : world) : world :=
  set_session (Some (store w)) (ensured w).

(** What a finished call of the handler leaves of the world, besides the
    data and the trace: the pool set, no connection checked out. *)
Record settled (w w' : world) : Prop := {
  settled_pool : is_Some (pool w');
  settled_session : session w' = None;
  settled_clock : clock w' = clock w;
  settled_entropy : entropy w' = entropy w;
  settled_server : server_up w' = server_up w
}.

(** ** The statements the services send *)

Definition lift {A} (r : outcome A) : M A := fun w => (r, w).

(** [d.get(k)] and [d[k]] *)
Fixpoint dict_get (k : string) (d : dict) : option value :=
  match d with
  | [] => None
  | (k', v) :: d' => if String.eqb k k' then Some v else dict_get k d'
  end.

Definition subscript (r : row) (k : string) : M value :=
  match r !! k with
  | Some v => ret v
  | None => raise (KeyError k)
  end.

(** Python's [==] on the values compared in the code (strings and ints). *)
Definition py_eq (a b : value) : bool := bool_decide (a = b).

Definition newline : string := String (Ascii.ascii_of_nat 10) "".

Module SQL.

Definition stored (v : value) : value := stored_value v.

(** [column = value] in a [WHERE]: never true of a NULL; text compared
    exactly (a binary collation). *)
Definition sql_eq (column : option value) (v : value) : bool :=
  match column, v with
  | None, _ | Some VNone, _ | _, VNone => false
  | Some c, _ => bool_decide (stored c = stored v)
  end.

Definition select_where (tbl : string) (cond : list value -> row -> bool)
    : list value -> database -> option reply :=
  fun params db =>
    match db !! tbl with
    | Some t =>
        let rs := List.filter (cond params) (t_rows t) in
        Some {| rowcount := Z.of_nat (length rs); fetched := rs;
                lastrowid := 0; after := db |}
    | None => None
    end.

Definition param (i : nat) (params : list value) : value :=
  default VNone (params !! i).

Definition active_user_by_username : statement :=
  {| text := "SELECT * FROM users WHERE username = %s AND is_active = 1";
     meaning := select_where "users" (fun params r =>
       sql_eq (r !! "username") (param 0 params)
       && sql_eq (r !! "is_active") (VInt 1)) |}.

Definition user_id_by_username_or_email : statement :=
  {| text := "SELECT id FROM users WHERE username = %s OR email = %s";
     meaning := fun params db =>
       match select_where "users" (fun params r =>
               sql_eq (r !! "username") (param 0 params)
               || sql_eq (r !! "email") (param 1 params)) params db with
       | Some r =>
           Some {| rowcount := rowcount r;
                   fetched := map (fun u : row =>
                                     match u !! "id" with
                                     | Some i => {[ "id" := i ]}
                                     | None => ∅
                                     end) (fetched r);
                   lastrowid := 0; after := db |}
       | None => None
       end |}.

Definition user_by_id : statement :=
  {| text := "SELECT * FROM users WHERE id = %s";
     meaning := select_where "users" (fun params r =>
       sql_eq (r !! "id") (param 0 params)) |}.

Definition article_by_id : statement :=
  {| text := "SELECT * FROM articles WHERE id = %s";
     meaning := select_where "articles" (fun params r =>
       sql_eq (r !! "id") (param 0 params)) |}.

Definition role_by_user_id : statement :=
  {| text := "SELECT role FROM users WHERE id = %s";
     meaning := fun params db =>
       match select_where "users" (fun params r =>
               sql_eq (r !! "id") (param 0 params)) params db with
       | Some r =>
           Some {| rowcount := rowcount r;
                   fetched := map (fun u : row =>
                                     match u !! "role" with
                                     | Some i => {[ "role" := i ]}
                                     | None => ∅
                                     end) (fetched r);
                   lastrowid := 0; after := db |}
       | None => None
       end |}.

(** The article with its author's name: the [LEFT JOIN] on the author's id
    gives NULL when no user has it. *)
Definition author_name (users : list row) (article : row) : value :=
  match article !! "author_id" with
  | Some a =>
      match List.find (fun u : row => sql_eq (u !! "id") a) users with
      | Some u => default VNone (u !! "username")
      | None => VNone
      end
  | None => VNone
  end.

Definition article_with_author_by_id : statement :=
  {| text := newline ++ "            SELECT a.*, u.username as author_name"
             ++ newline ++ "            FROM articles a"
             ++ newline ++ "            LEFT JOIN users u ON a.author_id = u.id"
             ++ newline ++ "            WHERE a.id = %s"
             ++ newline ++ "            ";
     meaning := fun params db =>
       match db !! "articles", db !! "users" with
       | Some ta, Some tu =>
           let rs := List.filter (fun r : row => sql_eq (r !! "id") (param 0 params))
                                 (t_rows ta) in
           Some {| rowcount := Z.of_nat (length rs);
                   fetched := map (fun r : row =>
                                     <["author_name" := author_name (t_rows tu) r]> r) rs;
                   lastrowid := 0; after := db |}
       | _, _ => None
       end |}.

(** The predicate both services pass to [update]: ["id = %s"]. *)
Definition id_equals : AsyncMySQLHandler.predicate :=
  {| AsyncMySQLHandler.where_text := "id = %s";
     AsyncMySQLHandler.holds := fun params r => sql_eq (r !! "id") (param 0 params) |}.

Definition author_id_by_article_id : statement :=
  {| text := "SELECT author_id FROM articles WHERE id = %s";
     meaning := fun params db =>
       match select_where "articles" (fun params r =>
               sql_eq (r !! "id") (param 0 params)) params db with
       | Some r =>
           Some {| rowcount := rowcount r;
                   fetched := map (fun a : row =>
                                     match a !! "author_id" with
                                     | Some i => {[ "author_id" := i ]}
                                     | None => ∅
                                     end) (fetched r);
                   lastrowid := 0; after := db |}
       | None => None
       end |}.

(** The predicate [delete_user] passes to [delete]: ["id=%s"]. *)
Definition id_equals_compact : AsyncMySQLHandler.predicate :=
  {| AsyncMySQLHandler.where_text := "id=%s";
     AsyncMySQLHandler.holds := fun params r => sql_eq (r !! "id") (param 0 params) |}.

End SQL.

(** ** The request models *)

Module UserRole.
Inductive t := ADMIN | USER | MODERATOR.
Definition value (r : t) : string :=
  match r with
  | ADMIN => "admin"
  | USER => "user"
  | MODERATOR => "moderator"
  end.
End UserRole.

Module UserStatus.
Inductive t := ACTIVE | INACTIVE | BANNED.
Definition value (s : t) : string :=
  match s with
  | ACTIVE => "active"
  | INACTIVE => "inactive"
  | BANNED => "banned"
  end.
End UserStatus.

Module UserCreate.
Record t := {
  username : string;
  email : string;
  full_name : option string;
  role : UserRole.t;
  status : UserStatus.t;
  password : string
}.
End UserCreate.

Module UserUpdate.
Record t := {
  username : option string;
  email : option string;
  full_name : option string;
  role : option UserRole.t;
  status : option UserStatus.t
}.
End UserUpdate.

Module ArticleUpdate.
Record t := {
  title : option string;
  content : option string;
  summary : option string;
  tags : option (list string);
  is_published : option bool
}.

(** The model pydantic builds from a request body: a field the body leaves
    out takes the default of its declaration, [None] for all but [tags],
    whose default is the empty list.  (The checks of types and lengths are
    pydantic's and are not modelled: a value of another type reads as null.) *)
Definition of_body (body : row) : t :=
  {| title := match body !! "title" with Some (VStr s) => Some s | _ => None end;
     content := match body !! "content" with Some (VStr s) => Some s | _ => None end;
     summary := match body !! "summary" with Some (VStr s) => Some s | _ => None end;
     tags := match body !! "tags" with
             | None => Some []
             | Some (VList l) => Some l
             | Some _ => None
             end;
     is_published := match body !! "is_published" with
                     | Some (VBool b) => Some b
                     | _ => None
                     end |}.
End ArticleUpdate.

Module ArticleCreate.
Record t := {
  title : string;
  content : string;
  summary : option string;
  tags : option (list string);
  is_published : bool
}.
End ArticleCreate.

Module StandardResponse.
Record t := {
  success : bool;
  message : string;
  data : option dict
}.
End StandardResponse.

Module TokenData.
Record t := { username : value }.
End TokenData.

(** ** The primitives

    bcrypt, the JWS signature and Python's reading of a numeral are functions
    the libraries and the language compute; the development is parametric in
    them. *)
Class Primitives := {
  (** bcrypt: the settings (identifier, cost, salt) and the secret to the
      checksum. *)
  bcrypt_checksum : string -> string -> string;
  (** The signature of a payload under an algorithm and a key. *)
  jws_sign : string -> string -> dict -> string;
  (** [int(s)] for a [str]: the integer the text denotes, [None] where
      [int] raises [ValueError]. *)
  int_of_text : string -> option Z
}.

(** ** [AuthManager] *)

Module AuthManager.

Record t := {
  secret_key : string;
  algorithm : string;
  access_token_expire_minutes : Z
}.

(** A token as [jwt.decode] reads it: a signed payload under an algorithm, or
    a string that does not parse as one. *)
Inductive token :=
  | Garbled (raw : string)
  | Jws (alg : string) (payload : dict) (signature : string).

Section WithPrimitives.
Context `{Primitives}.

(** bcrypt reads at most 72 bytes of the secret; passlib's [bcrypt] handler
    cuts a longer one to them ([truncate_error] is off by default). *)
Definition bcrypt_secret (password : string) : string :=
  String.substring 0 72 password.

(** What passlib's bcrypt handler makes of a secret before bcrypt sees it: a
    secret of more than 4096 bytes is a [PasswordSizeError], one with a NUL
    byte a [PasswordValueError]; of any other, bcrypt reads the first 72
    bytes. *)
Definition MAX_PASSWORD_SIZE : nat := 4096.

Fixpoint has_nul (s : string) : bool :=
  match s with
  | EmptyString => false
  | String c rest => Ascii.eqb c Ascii.zero || has_nul rest
  end.

Definition digest_secret (secret : string) : outcome string :=
  if (MAX_PASSWORD_SIZE <? String.length secret)%nat then Raise PasswordSizeError
  else if has_nul secret then Raise PasswordValueError
  else Return (bcrypt_secret secret).

(** [pwd_context.hash(password)], the salt drawn made explicit. *)
Definition pwd_context_hash (settings password : string) : outcome value :=
  match digest_secret password with
  | Return secret => Return (VHash settings (bcrypt_checksum settings secret))
  | Raise e => Raise e
  end.

(** [pwd_context.verify(plain, hashed)]: [None] verifies nothing, and a
    string that is no bcrypt hash is not identified, whatever the secret; for
    a bcrypt hash the checksum of the secret is computed again under the
    hash's own settings and compared. *)
Definition pwd_context_verify (plain : string) (hashed : value) : outcome bool :=
  match hashed with
  | VHash settings checksum =>
      match digest_secret plain with
      | Return secret =>
          Return (String.eqb (bcrypt_checksum settings secret) checksum)
      | Raise e => Raise e
      end
  | VNone => Return false
  | VStr _ | VJson _ => Raise UnknownHashError
  | _ => Raise TypeError
  end.

Definition verify_password (plain_password : string) (hashed_password : value)
    : outcome bool :=
  pwd_context_verify plain_password hashed_password.

Definition get_password_hash (settings password : string) : outcome value :=
  pwd_context_hash settings password.

(** A password passlib hands on to bcrypt: at most 4096 bytes, none of them
    NUL. *)
Definition acceptable (password : string) : bool :=
  negb (MAX_PASSWORD_SIZE <? String.length password)%nat && negb (has_nul password).

(** [verify_password(p, get_password_hash(p2))], the hash under the salt
    [settings]. *)
Definition verify_hashed (settings p p2 : string) : outcome bool :=
  match get_password_hash settings p2 with
  | Return hashed => verify_password p hashed
  | Raise e => Raise e
  end.

(** [jwt.encode]: a [datetime] under a time claim becomes its timestamp, and
    the payload is signed.  (The payload is written as JSON, which has no
    form for a [datetime] under another claim; the claims maps of the code
    hold none.) *)
Definition timestamp (v : value) : value :=
  match v with
  | VDatetime t => VInt t
  | _ => v
  end.

Definition jwt_claims (claims : dict) : dict :=
  map (fun kv : string * value =>
         if bool_decide (kv.1 ∈ ["exp"; "iat"; "nbf"])
         then (kv.1, timestamp kv.2) else kv) claims.

Definition jwt_encode (claims : dict) (key alg : string) : token :=
  Jws alg (jwt_claims claims) (jws_sign alg key (jwt_claims claims)).

(** [isinstance(v, str)]: the text values. *)
Definition is_str (v : value) : bool :=
  match v with
  | VStr _ | VHash _ _ | VJson _ => true
  | _ => false
  end.

(** [int(v)] for a claim: a text that is no numeral is a [ValueError], a
    value that is neither number nor text a [TypeError]. *)
Definition py_int (v : value) : outcome Z :=
  match v with
  | VInt n => Return n
  | VBool b => Return (if b then 1 else 0)%Z
  | VStr s =>
      match int_of_text s with
      | Some n => Return n
      | None => Raise ValueError
      end
  | VHash _ _ | VJson _ => Raise ValueError
  | VNone | VDatetime _ | VList _ => Raise TypeError
  end.

(** A time claim as python-jose reads it: [int(claims[name])] when the claim
    is there, its [ValueError] turned into a [JWTClaimsError] (a [JWTError]),
    its [TypeError] let through. *)
Definition time_claim (name : string) (claims : dict) : outcome (option Z) :=
  match dict_get name claims with
  | Some v =>
      match py_int v with
      | Return n => Return (Some n)
      | Raise ValueError => Raise JWTError
      | Raise e => Raise e
      end
  | None => Return None
  end.

Definition _validate_iat (claims : dict) : outcome unit :=
  match time_claim "iat" claims with
  | Return _ => Return tt
  | Raise e => Raise e
  end.

Definition _validate_nbf (claims : dict) (utcnow : Z) : outcome unit :=
  match time_claim "nbf" claims with
  | Return (Some nbf) => if (utcnow <? nbf)%Z then Raise JWTError else Return tt
  | Return None => Return tt
  | Raise e => Raise e
  end.

Definition _validate_exp (claims : dict) (utcnow : Z) : outcome unit :=
  match time_claim "exp" claims with
  | Return (Some exp) => if (exp <? utcnow)%Z then Raise JWTError else Return tt
  | Return None => Return tt
  | Raise e => Raise e
  end.

(** No audience is expected: no list of audiences holds it. *)
Definition _validate_aud (claims : dict) : outcome unit :=
  match dict_get "aud" claims with
  | Some _ => Raise JWTError
  | None => Return tt
  end.

Definition _validate_sub (claims : dict) : outcome unit :=
  match dict_get "sub" claims with
  | Some v => if is_str v then Return tt else Raise JWTError
  | None => Return tt
  end.

Definition _validate_jti (claims : dict) : outcome unit :=
  match dict_get "jti" claims with
  | Some v => if is_str v then Return tt else Raise JWTError
  | None => Return tt
  end.

(** No access token is given to compare the hash against. *)
Definition _validate_at_hash (claims : dict) : outcome unit :=
  match dict_get "at_hash" claims with
  | Some _ => Raise JWTError
  | None => Return tt
  end.

Definition and_then {A B} (r : outcome A) (k : A -> outcome B) : outcome B :=
  match r with
  | Return a => k a
  | Raise e => Raise e
  end.

(** python-jose's [_validate_claims] as [jwt.decode] calls it here, with no
    audience, issuer, subject or access token to compare against: the checks
    of the registered claims in the library's order, the first failure
    raised.  (No issuer is expected, so [iss] is not looked at.) *)
Definition _validate_claims (claims : dict) (utcnow : Z) : outcome unit :=
  and_then (_validate_iat claims) (fun _ =>
  and_then (_validate_nbf claims utcnow) (fun _ =>
  and_then (_validate_exp claims utcnow) (fun _ =>
  and_then (_validate_aud claims) (fun _ =>
  and_then (_validate_sub claims) (fun _ =>
  and_then (_validate_jti claims) (fun _ =>
  _validate_at_hash claims)))))).

(** [jwt.decode(token, key, algorithms)] at the time [utcnow]: the token
    parses, its algorithm is allowed, the signature is the payload's under
    the key, and the registered claims pass [_validate_claims].  A failure of
    the library's own is a [JWTError]. *)
Definition jwt_decode (tok : token) (key : string) (algorithms : list string)
    (utcnow : Z) : outcome dict :=
  match tok with
  | Garbled _ => Raise JWTError
  | Jws alg payload signature =>
      if negb (bool_decide (alg ∈ algorithms)) then Raise JWTError
      else if negb (String.eqb signature (jws_sign alg key payload))
      then Raise JWTError
      else and_then (_validate_claims payload utcnow) (fun _ => Return payload)
  end.

(** [timedelta(minutes=m)] in seconds. *)
Definition minutes (m : Z) : Z := (60 * m)%Z.

(** [create_access_token]: [expires_delta] counts when it is given and not
    zero ([if expires_delta:]). *)
Definition expire_at (self : t) (expires_delta : option Z) (utcnow : Z) : Z :=
  match expires_delta with
  | Some d =>
      if (d =? 0)%Z
      then (utcnow + minutes (access_token_expire_minutes self))%Z
      else (utcnow + d)%Z
  | None => (utcnow + minutes (access_token_expire_minutes self))%Z
  end.

Definition create_access_token (self : t) (data : dict)
    (expires_delta : option Z) (utcnow : Z) : token :=
  let to_encode := data in
  let expire := expire_at self expires_delta utcnow in
  let to_encode := dict_set "exp" (VDatetime expire) to_encode in
  jwt_encode to_encode (secret_key self) (algorithm self).

Definition unauthorized : exn :=
  HTTPException HTTP_401_UNAUTHORIZED "无效的认证凭据".

(** [verify_token]: a [JWTError] from the decoding and a payload whose
    [get("sub")] is [None] both end in the 401; any other exception of the
    decoding is not caught. *)
Definition verify_token (self : t) (tok : token) (utcnow : Z)
    : outcome TokenData.t :=
  match jwt_decode tok (secret_key self) [algorithm self] utcnow with
  | Return payload =>
      match dict_get "sub" payload with
      | None | Some VNone => Raise unauthorized
      | Some username => Return {| TokenData.username := username |}
      end
  | Raise JWTError => Raise unauthorized
  | Raise e => Raise e
  end.

(** What the contract of [verify_token] speaks of: a token carries a valid
    signature when it parses, names the configured algorithm and its
    signature is its payload's under the server's key; it is in time when
    its [exp] claim is absent or reads as a time the clock has not passed;
    its subject is what [get("sub")] gives. *)
Definition signature_valid (self : t) (tok : token) : bool :=
  match tok with
  | Garbled _ => false
  | Jws alg payload signature =>
      bool_decide (alg = algorithm self)
      && String.eqb signature (jws_sign alg (secret_key self) payload)
  end.

Definition in_time (tok : token) (utcnow : Z) : bool :=
  match tok with
  | Garbled _ => true
  | Jws _ payload _ =>
      match dict_get "exp" payload with
      | Some v =>
          match py_int v with
          | Return exp => (utcnow <=? exp)%Z
          | Raise _ => false
          end
      | None => true
      end
  end.

(** The claims of a token. *)
Definition claims_of (tok : token) : dict :=
  match tok with
  | Garbled _ => []
  | Jws _ payload _ => payload
  end.

(** A time claim that is neither number nor text: [int] raises a
    [TypeError] on it. *)
Definition ill_typed (name : string) (claims : dict) : bool :=
  match dict_get name claims with
  | Some v =>
      match py_int v with
      | Raise TypeError => true
      | _ => false
      end
  | None => false
  end.

(** A time claim that is text but no numeral. *)
Definition no_numeral (name : string) (claims : dict) : bool :=
  match dict_get name claims with
  | Some v =>
      match py_int v with
      | Raise ValueError => true
      | _ => false
      end
  | None => false
  end.

(** The token is not yet valid: its [nbf] reads as a time ahead of the
    clock. *)
Definition too_early (claims : dict) (utcnow : Z) : bool :=
  match dict_get "nbf" claims with
  | Some v =>
      match py_int v with
      | Return nbf => (utcnow <? nbf)%Z
      | Raise _ => false
      end
  | None => false
  end.

Definition present (name : string) (claims : dict) : bool :=
  bool_decide (is_Some (dict_get name claims)).

(** A claim that is there and is no text. *)
Definition no_text (name : string) (claims : dict) : bool :=
  match dict_get name claims with
  | Some v => negb (is_str v)
  | None => false
  end.

(** The registered claims python-jose refuses, besides a signature that is
    not valid, in no order: a time claim that is no numeral, a token not yet
    valid or expired, an audience or an access-token hash (none is expected),
    a subject or a token id that is no text. *)
Definition refused (tok : token) (utcnow : Z) : bool :=
  let claims := claims_of tok in
  no_numeral "iat" claims || no_numeral "nbf" claims || no_numeral "exp" claims
  || too_early claims utcnow || negb (in_time tok utcnow)
  || present "aud" claims || present "at_hash" claims
  || no_text "sub" claims || no_text "jti" claims.

(** A claims map that carries no registered claim but the subject and the
    expiry. *)
Definition unregistered (data : dict) : Prop :=
  Forall (fun name => dict_get name data = None)
         ["iat"; "nbf"; "aud"; "jti"; "at_hash"].


Definition subject (tok : token) : option value :=
  match tok with
  | Garbled _ => None
  | Jws _ payload _ =>
      match dict_get "sub" payload with
      | Some VNone => None
      | sub => sub
      end
  end.

End WithPrimitives.
End AuthManager.

(** Python's decimal numerals, for texts in ASCII: blanks around, a sign,
    then digits, single underscores allowed between them. *)
Definition is_blank (c : Ascii.ascii) : bool :=
  let n := Ascii.nat_of_ascii c in
  (n =? 32)%nat || ((9 <=? n)%nat && (n <=? 13)%nat).

Fixpoint lstrip (s : string) : string :=
  match s with
  | String c rest => if is_blank c then lstrip rest else s
  | EmptyString => s
  end.

Fixpoint rstrip (s : string) : string :=
  match s with
  | String c rest =>
      match rstrip rest with
      | EmptyString => if is_blank c then EmptyString else String c EmptyString
      | rest' => String c rest'
      end
  | EmptyString => s
  end.

Definition digit (c : Ascii.ascii) : option Z :=
  let n := Ascii.nat_of_ascii c in
  if ((48 <=? n)%nat && (n <=? 57)%nat) then Some (Z.of_nat (n - 48)) else None.

Fixpoint digits_from (s : string) (acc : Z) (after_digit : bool) : option Z :=
  match s with
  | EmptyString => if after_digit then Some acc else None
  | String c rest =>
      match digit c with
      | Some d => digits_from rest (10 * acc + d)%Z true
      | None =>
          if (Ascii.nat_of_ascii c =? 95)%nat && after_digit
          then digits_from rest acc false
          else None
      end
  end.

Definition demo_int_of_text (s : string) : option Z :=
  match lstrip (rstrip s) with
  | String c rest =>
      if (Ascii.nat_of_ascii c =? 45)%nat then Z.opp <$> digits_from rest 0 false
      else if (Ascii.nat_of_ascii c =? 43)%nat then digits_from rest 0 false
      else digits_from (String c rest) 0 false
  | EmptyString => None
  end.

(** Primitives to run the definitions on: the checksum keeps settings and
    secret, the signature keeps algorithm, key and the claims' names, and a
    numeral is read as above. *)
Definition demo_primitives : Primitives :=
  {| bcrypt_checksum := fun settings secret => (settings ++ "$" ++ secret)%string;
     jws_sign := fun alg key payload =>
       (alg ++ "." ++ key ++ "." ++ String.concat "," (dict_keys payload))%string;
     int_of_text := demo_int_of_text |}.

(** [conf/config.py]: the settings of both environments are the same. *)
Definition auth_manager : AuthManager.t :=
  {| AuthManager.secret_key := "your-secret-key-here";
     AuthManager.algorithm := "HS256";
     AuthManager.access_token_expire_minutes := 30 |}.

(** The response model of the token endpoints. *)
Module Token.
Record t := {
  access_token : AuthManager.token;
  token_type : string
}.
End Token.

(** ** The dependencies of [common/auth.py] *)

Module Auth.
Section WithPrimitives.
Context `{Primitives}.
Import AsyncMySQLHandler.

Definition get_current_user (tok : AuthManager.token) : M row :=
  let* utcnow := get clock in
  let* token_data := lift (AuthManager.verify_token auth_manager tok utcnow) in
  let* user := fetch_one SQL.active_user_by_username
                 [TokenData.username token_data] in
  match user with
  | None => raise (HTTPException HTTP_401_UNAUTHORIZED "用户不存在或已停用")
  | Some u => ret u
  end.

(** [get_current_active_user], given what [get_current_user] returned. *)
Definition get_current_active_user (current_user : row) : M row :=
  let* status := subscript current_user "status" in
  if negb (py_eq status (VStr "active"))
  then raise (HTTPException 400 "用户账户已被停用")
  else ret current_user.

(** [require_role(required_role)] returns [role_checker]; this is its body,
    given what [get_current_active_user] returned. *)
Definition forbidden : exn := HTTPException HTTP_403_FORBIDDEN "权限不足".

Definition role_checker (required_role : UserRole.t) (current_user : row)
    : M row :=
  let* role := subscript current_user "role" in
  if negb (py_eq role (VStr (UserRole.value required_role)))
     && negb (py_eq role (VStr "admin"))
  then raise forbidden
  else ret current_user.

(** The chain FastAPI resolves for [Depends(require_role(required_role))]. *)
Definition require_role (required_role : UserRole.t) (tok : AuthManager.token)
    : M row :=
  let* user := get_current_user tok in
  let* active := get_current_active_user user in
  role_checker required_role active.

End WithPrimitives.
End Auth.

(** ** The services *)

(** [if row:] for what [fetch_one] returned: [None] and the empty mapping
    are false. *)
Definition row_truthy (r : option row) : bool :=
  match r with
  | Some m => negb (bool_decide (m = ∅))
  | None => false
  end.

Definition opt_str (o : option string) : value :=
  match o with
  | Some s => VStr s
  | None => VNone
  end.

Definition opt_int (o : option Z) : value :=
  match o with
  | Some n => VInt n
  | None => VNone
  end.

(** [json.dumps] of a tag list and [json.loads] of a stored text. *)
Definition json_dumps (tags : option (list string)) : value :=
  match tags with
  | Some l => VJson l
  | None => VStr "null"
  end.

Definition json_loads (v : value) : outcome value :=
  match v with
  | VJson l => Return (VList l)
  | VStr s => if String.eqb s "null" then Return VNone else Raise JSONDecodeError
  | _ => Raise TypeError
  end.

Module UserService.
Section WithPrimitives.
Context `{Primitives}.
Import AsyncMySQLHandler.

(** [authenticate_user]: the hash is verified by a plain call of
    [auth_manager.verify_password], and only when a row was found. *)
Definition authenticate_user (username password : string) : M (option row) :=
  let* user := fetch_one SQL.active_user_by_username [VStr username] in
  match user with
  | Some u =>
      if row_truthy user then
        let* hashed := subscript u "password_hash" in
        let* verified :=
          on_event_loop (VerifyPassword password hashed)
                        (AuthManager.verify_password password hashed) in
        if verified then ret (Some u) else ret None
      else ret None
  | None => ret None
  end.

(** [create_user]: the hash is computed by a plain call of
    [auth_manager.get_password_hash]. *)
Definition create_user (user_data : UserCreate.t) : M (option row) :=
  let* existing_user :=
    fetch_one SQL.user_id_by_username_or_email
      [VStr (UserCreate.username user_data); VStr (UserCreate.email user_data)] in
  if row_truthy existing_user
  then raise (HTTPException HTTP_400_BAD_REQUEST "用户名或邮箱已存在")
  else
    let* settings := get entropy in
    let* password_hash :=
      on_event_loop (HashPassword (UserCreate.password user_data))
        (AuthManager.get_password_hash settings
           (UserCreate.password user_data)) in
    let* now := get clock in
    let* user_id :=
      insert "users"
        [("username", VStr (UserCreate.username user_data));
         ("email", VStr (UserCreate.email user_data));
         ("full_name", opt_str (UserCreate.full_name user_data));
         ("password_hash", password_hash);
         ("role", VStr (UserRole.value (UserCreate.role user_data)));
         ("status", VStr (UserStatus.value (UserCreate.status user_data)));
         ("is_active", VBool true);
         ("created_at", VDatetime now)] true in
    fetch_one SQL.user_by_id [opt_int user_id].

(** The text of the listing query, as the f-string builds it. *)
Definition users_query (where_clause : string) : string :=
  newline ++ "        SELECT id, username, email, full_name, role, status, is_active, created_at, updated_at"
  ++ newline ++ "        FROM users " ++ where_clause
  ++ newline ++ "        ORDER BY created_at DESC"
  ++ newline ++ "        ".

(** [get_users]: the search term reaches the server as three bound
    parameters; page and page size go on to [fetch_paginated].  The server's
    reading of the listing (its [LIKE] and its ordering) is [listing]. *)
Definition get_users (listing : list value -> database -> option reply)
    (page page_size : Z) (search : option string) : M envelope :=
  let where_clause := "WHERE 1=1" in
  let params : list value := [] in
  let '(where_clause, params) :=
    if truthy (opt_str search) then
      let search_param := VStr ("%" ++ default "" search ++ "%") in
      ((where_clause ++ " AND (username LIKE %s OR email LIKE %s OR full_name LIKE %s)")%string,
       params ++ [search_param; search_param; search_param])
    else (where_clause, params) in
  fetch_paginated {| text := users_query where_clause; meaning := listing |}
                  page page_size params.

Definition get_user_by_id (user_id : Z) : M (option row) :=
  fetch_one SQL.user_by_id [VInt user_id].

(** The fields [update_user] collects from the model: those that are not
    [None], in the order of the checks. *)
Definition update_fields (user_data : UserUpdate.t) : dict :=
  let update_fields : dict := [] in
  let update_fields :=
    match UserUpdate.username user_data with
    | Some v => dict_set "username" (VStr v) update_fields
    | None => update_fields
    end in
  let update_fields :=
    match UserUpdate.email user_data with
    | Some v => dict_set "email" (VStr v) update_fields
    | None => update_fields
    end in
  let update_fields :=
    match UserUpdate.full_name user_data with
    | Some v => dict_set "full_name" (VStr v) update_fields
    | None => update_fields
    end in
  let update_fields :=
    match UserUpdate.role user_data with
    | Some v => dict_set "role" (VStr (UserRole.value v)) update_fields
    | None => update_fields
    end in
  let update_fields :=
    match UserUpdate.status user_data with
    | Some v => dict_set "status" (VStr (UserStatus.value v)) update_fields
    | None => update_fields
    end in
  update_fields.

(** What the model provides for a column: the value of the attribute of
    that name when it is not [None]. *)
Definition provided (user_data : UserUpdate.t) (column : string) : option value :=
  if String.eqb column "username" then VStr <$> UserUpdate.username user_data
  else if String.eqb column "email" then VStr <$> UserUpdate.email user_data
  else if String.eqb column "full_name" then VStr <$> UserUpdate.full_name user_data
  else if String.eqb column "role"
       then (fun r => VStr (UserRole.value r)) <$> UserUpdate.role user_data
  else if String.eqb column "status"
       then (fun s => VStr (UserStatus.value s)) <$> UserUpdate.status user_data
  else None.

Definition update_user (user_id : Z) (user_data : UserUpdate.t)
    : M (option row) :=
  let update_fields := update_fields user_data in
  match update_fields with
  | [] => raise (HTTPException HTTP_400_BAD_REQUEST "没有提供更新字段")
  | _ =>
      let* now := get clock in
      let update_fields := dict_set "updated_at" (VDatetime now) update_fields in
      let where_ := SQL.id_equals in
      let where_params := [VInt user_id] in
      update "users" update_fields where_ (Some where_params) ;;
      get_user_by_id user_id
  end.

(** [delete_user]: true when a row was deleted. *)
Definition delete_user (user_id : Z) : M bool :=
  let* rows_affected :=
    delete "users" SQL.id_equals_compact (Some [VInt user_id]) in
  ret (0 <? rows_affected)%Z.

End WithPrimitives.
End UserService.

Module ArticleService.
Import AsyncMySQLHandler.

Definition get_article_by_id (article_id : Z) : M (option row) :=
  let* article := fetch_one SQL.article_with_author_by_id [VInt article_id] in
  match article with
  | Some a =>
      if row_truthy article && truthy (default VNone (a !! "tags")) then
        let* tags := lift (json_loads (default VNone (a !! "tags"))) in
        ret (Some (<["tags" := tags]> a))
      else ret article
  | None => ret article
  end.

(** The fields [update_article] collects from the model. *)
Definition update_fields (article_data : ArticleUpdate.t) : dict :=
  let update_fields : dict := [] in
  let update_fields :=
    match ArticleUpdate.title article_data with
    | Some v => dict_set "title" (VStr v) update_fields
    | None => update_fields
    end in
  let update_fields :=
    match ArticleUpdate.content article_data with
    | Some v => dict_set "content" (VStr v) update_fields
    | None => update_fields
    end in
  let update_fields :=
    match ArticleUpdate.summary article_data with
    | Some v => dict_set "summary" (VStr v) update_fields
    | None => update_fields
    end in
  let update_fields :=
    match ArticleUpdate.tags article_data with
    | Some v => dict_set "tags" (json_dumps (Some v)) update_fields
    | None => update_fields
    end in
  let update_fields :=
    match ArticleUpdate.is_published article_data with
    | Some v => dict_set "is_published" (VBool v) update_fields
    | None => update_fields
    end in
  update_fields.

(** What the model provides for a column. *)
Definition provided (article_data : ArticleUpdate.t) (column : string)
    : option value :=
  if String.eqb column "title" then VStr <$> ArticleUpdate.title article_data
  else if String.eqb column "content" then VStr <$> ArticleUpdate.content article_data
  else if String.eqb column "summary" then VStr <$> ArticleUpdate.summary article_data
  else if String.eqb column "tags" then VJson <$> ArticleUpdate.tags article_data
  else if String.eqb column "is_published"
       then VBool <$> ArticleUpdate.is_published article_data
  else None.

Definition update_article (article_id : Z) (article_data : ArticleUpdate.t)
    (user_id : Z) : M (option row) :=
  let* article := fetch_one SQL.article_by_id [VInt article_id] in
  match article with
  | Some a =>
      if row_truthy article then
        let* user := fetch_one SQL.role_by_user_id [VInt user_id] in
        let* author_id := subscript a "author_id" in
        let* denied :=
          if negb (py_eq author_id (VInt user_id)) then
            match user with
            | Some u =>
                let* role := subscript u "role" in
                ret (negb (py_eq role (VStr "admin")))
            | None => raise TypeError
            end
          else ret false in
        if denied : bool
        then raise (HTTPException HTTP_403_FORBIDDEN "无权限编辑此文章")
        else
          let update_fields := update_fields article_data in
          match update_fields with
          | [] => raise (HTTPException HTTP_400_BAD_REQUEST "没有提供更新字段")
          | _ =>
              let* now := get clock in
              let update_fields :=
                dict_set "updated_at" (VDatetime now) update_fields in
              let where_ := SQL.id_equals in
              let where_params := [VInt article_id] in
              update "articles" update_fields where_ (Some where_params) ;;
              get_article_by_id article_id
          end
      else raise (HTTPException HTTP_404_NOT_FOUND "文章不存在")
  | None => raise (HTTPException HTTP_404_NOT_FOUND "文章不存在")
  end.

Definition create_article (article_data : ArticleCreate.t) (author_id : Z)
    : M (option row) :=
  let* now := get clock in
  let* article_id :=
    insert "articles"
      [("title", VStr (ArticleCreate.title article_data));
       ("content", VStr (ArticleCreate.content article_data));
       ("summary", opt_str (ArticleCreate.summary article_data));
       ("tags", json_dumps (ArticleCreate.tags article_data));
       ("is_published", VBool (ArticleCreate.is_published article_data));
       ("author_id", VInt author_id);
       ("created_at", VDatetime now)] true in
  match article_id with
  | Some key => get_article_by_id key
  | None => lift (Return None)
  end.

Definition delete_article (article_id user_id : Z) : M bool :=
  let* article := fetch_one SQL.author_id_by_article_id [VInt article_id] in
  match article with
  | Some a =>
      if row_truthy article then
        let* user := fetch_one SQL.role_by_user_id [VInt user_id] in
        let* author_id := subscript a "author_id" in
        let* denied :=
          if negb (py_eq author_id (VInt user_id)) then
            match user with
            | Some u =>
                let* role := subscript u "role" in
                ret (negb (py_eq role (VStr "admin")))
            | None => raise TypeError
            end
          else ret false in
        if denied : bool
        then raise (HTTPException HTTP_403_FORBIDDEN "无权限删除此文章")
        else
          let* rows_affected :=
            delete "articles" SQL.id_equals (Some [VInt article_id]) in
          ret (0 <? rows_affected)%Z
      else raise (HTTPException HTTP_404_NOT_FOUND "文章不存在")
  | None => raise (HTTPException HTTP_404_NOT_FOUND "文章不存在")
  end.

End ArticleService.

(** ** The request handlers *)

(** [api/user_api/user.py].  A handler takes what FastAPI has resolved for
    it: the parsed parameters and the row its [Depends] returned. *)
Module UserApi.
Section WithPrimitives.
Context `{Primitives}.

(** [login_for_access_token] and [login], which have the same body. *)
Definition login_for_access_token (username password : string) : M Token.t :=
  let* user := UserService.authenticate_user username password in
  match user with
  | Some u =>
      if row_truthy user then
        let* name := subscript u "username" in
        let* utcnow := get clock in
        let access_token :=
          AuthManager.create_access_token auth_manager [("sub", name)] None utcnow in
        ret {| Token.access_token := access_token; Token.token_type := "bearer" |}
      else raise (HTTPException HTTP_401_UNAUTHORIZED "用户名或密码错误")
  | None => raise (HTTPException HTTP_401_UNAUTHORIZED "用户名或密码错误")
  end.

Definition login (username password : string) : M Token.t :=
  login_for_access_token username password.

(** [current_user["id"] != user_id and current_user["role"] != "admin"] *)
Definition neither_self_nor_admin (current_user : row) (user_id : Z) : M bool :=
  let* id := subscript current_user "id" in
  if negb (py_eq id (VInt user_id)) then
    let* role := subscript current_user "role" in
    ret (negb (py_eq role (VStr "admin")))
  else ret false.

Definition get_user (user_id : Z) (current_user : row) : M row :=
  let* denied := neither_self_nor_admin current_user user_id in
  if denied : bool
  then raise (HTTPException HTTP_403_FORBIDDEN "无权限查看此用户信息")
  else
    let* user := UserService.get_user_by_id user_id in
    match user with
    | Some u =>
        if row_truthy user then ret u
        else raise (HTTPException HTTP_404_NOT_FOUND "用户不存在")
    | None => raise (HTTPException HTTP_404_NOT_FOUND "用户不存在")
    end.

(** What [update_user] makes of the model for a caller who is not an admin:
    [user_update.role = None; user_update.status = None]. *)
Definition without_role_and_status (user_update : UserUpdate.t) : UserUpdate.t :=
  {| UserUpdate.username := UserUpdate.username user_update;
     UserUpdate.email := UserUpdate.email user_update;
     UserUpdate.full_name := UserUpdate.full_name user_update;
     UserUpdate.role := None;
     UserUpdate.status := None |}.

Definition update_user (user_id : Z) (user_update : UserUpdate.t)
    (current_user : row) : M StandardResponse.t :=
  let* denied := neither_self_nor_admin current_user user_id in
  if denied : bool
  then raise (HTTPException HTTP_403_FORBIDDEN "无权限更新此用户信息")
  else
    let* role := subscript current_user "role" in
    let user_update :=
      if negb (py_eq role (VStr "admin"))
      then without_role_and_status user_update
      else user_update in
    let* updated_user := UserService.update_user user_id user_update in
    match updated_user with
    | Some u =>
        if row_truthy updated_user then
          let* id := subscript u "id" in
          ret {| StandardResponse.success := true;
                 StandardResponse.message := "用户信息更新成功";
                 StandardResponse.data := Some [("user_id", id)] |}
        else raise (HTTPException HTTP_404_NOT_FOUND "用户不存在")
    | None => raise (HTTPException HTTP_404_NOT_FOUND "用户不存在")
    end.

End WithPrimitives.
End UserApi.

(** [api/article_handler/article.py] *)
Module ArticleApi.
Import AsyncMySQLHandler.

(** [article["view_count"] + 1] *)
Definition plus_one (v : value) : M value :=
  match v with
  | VInt n => ret (VInt (n + 1))
  | VBool b => ret (VInt ((if b then 1 else 0) + 1))
  | _ => raise TypeError
  end.

(** [get_article]: the article is read, then its [view_count] written back
    one higher; the row read is what the handler returns. *)
Definition get_article (article_id : Z) : M row :=
  let* article := ArticleService.get_article_by_id article_id in
  match article with
  | Some a =>
      if row_truthy article then
        let* views := subscript a "view_count" in
        let* next := plus_one views in
        let update_fields : dict := [("view_count", next)] in
        let where_ := SQL.id_equals in
        let where_params := [VInt article_id] in
        update "articles" update_fields where_ (Some where_params) ;;
        ret a
      else raise (HTTPException HTTP_404_NOT_FOUND "文章不存在")
  | None => raise (HTTPException HTTP_404_NOT_FOUND "文章不存在")
  end.

End ArticleApi.

(** ** What the pagination contract speaks of *)

(** The least number of pages of [page_size] rows that hold [total] rows. *)
Definition ceil_div (total page_size : Z) : Z :=
  (total / page_size + (if total mod page_size =? 0 then 0 else 1))%Z.

(** The rows of a batch applied one after the other to a view of the data:
    [None] when the server rejects one of them. *)
Fixpoint run_batch (q : statement) (params_list : list (list value))
    (db : database) : option database :=
  match params_list with
  | [] => Some db
  | params :: rest =>
      match meaning q params db with
      | Some r => run_batch q rest (after r)
      | None => None
      end
  end.

(** ** Worked data *)

Definition demo_rows : list row :=
  [ {[ "id" := VInt 1 ]}; {[ "id" := VInt 2 ]}; {[ "id" := VInt 3 ]} ].

Definition demo_listing : statement :=
  {| text := "SELECT id FROM users";
     meaning := fun _ db =>
       Some {| rowcount := 3; fetched := demo_rows; lastrowid := 0; after := db |} |}.

Definition demo_users : database :=
  {[ "users" := {| t_rows := []; t_auto_increment := 1; t_defaults := ∅ |} ]}.

Definition demo_insert : statement :=
  {| text := AsyncMySQLHandler.insert_sql "users" [("username", VNone)];
     meaning := AsyncMySQLHandler.insert_meaning "users" ["username"] |}.

Definition demo_world (db : database) : world :=
  {| pool := None; pools_created := 0; server_up := true; store := db;
     session := None; clock := 1000; entropy := "salt"; trace := [] |}.

(** Two passwords of 73 bytes that share their first 72. *)
Definition password_x : string :=
  (String.concat "" (replicate 72 "a") ++ "x")%string.
Definition password_y : string :=
  (String.concat "" (replicate 72 "a") ++ "y")%string.

(** A password with a NUL byte in it. *)
Definition password_nul : string :=
  ("a" ++ String Ascii.zero "b")%string.

Definition demo_admin : row :=
  <["status" := VStr "active"]> {[ "role" := VStr "admin" ]}.

(** The rows the lookup of [authenticate_user] matches. *)
Definition active_matches (username : string) (users : table) : list row :=
  List.filter (fun r : row =>
                 SQL.sql_eq (r !! "username") (VStr username)
                 && SQL.sql_eq (r !! "is_active") (VInt 1)) (t_rows users).

Definition demo_bob : row :=
  list_to_map
    [("id", VInt 1); ("username", VStr "bob"); ("is_active", VInt 1);
     ("role", VStr "user"); ("updated_at", VDatetime 5);
     ("password_hash",
      VHash "salt" (@bcrypt_checksum demo_primitives "salt" "secret123"))].

Definition demo_db : database :=
  {[ "users" := {| t_rows := [demo_bob]; t_auto_increment := 2; t_defaults := ∅ |} ]}.

(** ** What the partial-update contract speaks of *)


(** The row of a key in a table. *)
Definition has_id (key : Z) (r : row) : bool := SQL.sql_eq (r !! "id") (VInt key).

Definition no_fields : exn := HTTPException HTTP_400_BAD_REQUEST "没有提供更新字段".

(** The caller may edit the article: it is the author's id, or the first
    user row of that id has the role 'admin'. *)
Definition may_edit (users : table) (article : row) (user_id : Z) : Prop :=
  article !! "author_id" = Some (VInt user_id)
  \/ (is_Some (article !! "author_id")
      /\ exists u rest,
           List.filter (has_id user_id) (t_rows users) = u :: rest
           /\ u !! "role" = Some (VStr "admin")).


Definition demo_article : row :=
  list_to_map
    [("id", VInt 7); ("title", VStr "Hello"); ("tags", VJson ["a"; "b"]);
     ("author_id", VInt 1); ("updated_at", VNone)].

Definition demo_site : database :=
  <["articles" := {| t_rows := [demo_article]; t_auto_increment := 8; t_defaults := ∅ |}]> demo_db.

(** ** What the offloading claim speaks of *)

Definition on_loop (e : event) : bool :=
  match e with
  | OnEventLoop _ => true
  | _ => false
  end.

Definition in_pool (e : event) : bool :=
  match e with
  | InThreadPool _ => true
  | _ => false
  end.

(** Every hashing call of the trace was handed to the thread pool: none ran
    on the event loop. *)
Definition hashing_offloaded (tr : list event) : bool :=
  forallb (fun e => negb (on_loop e)) tr.

(** A coroutine that adds only [allowed] events to the trace. *)
Definition adds {A} (allowed : event -> Prop) (m : M A) : Prop :=
  forall w, exists evs,
    trace (m w).2 = trace w ++ evs /\ Forall allowed evs.

(** A coroutine that hands nothing to the thread pool. *)
Definition stays_on_loop {A} (m : M A) : Prop :=
  adds (fun e => in_pool e = false) m.

(** The rows the uniqueness lookup of [create_user] matches. *)
Definition taken (username email : string) (users : table) : list row :=
  List.filter (fun r : row =>
                 SQL.sql_eq (r !! "username") (VStr username)
                 || SQL.sql_eq (r !! "email") (VStr email)) (t_rows users).

Definition demo_signup : UserCreate.t :=
  {| UserCreate.username := "carol"; UserCreate.email := "carol@example.com";
     UserCreate.full_name := None; UserCreate.role := UserRole.USER;
     UserCreate.status := UserStatus.ACTIVE; UserCreate.password := "secret123" |}.

(** A world whose server cannot be reached, and a fresh class. *)
Definition demo_down : world :=
  {| pool := None; pools_created := 0; server_up := false; store := ∅;
     session := None; clock := 1000; entropy := "salt"; trace := [] |}.

Definition fresh_class : AsyncMySQLHandler.class_state :=
  {| AsyncMySQLHandler._instance := None;
     AsyncMySQLHandler._cleanup_registered := false;
     AsyncMySQLHandler.atexit_hooks := 0;
     AsyncMySQLHandler.allocated := 0 |}.

(** ** What the binding claim speaks of *)

(** The statements of a trace, as text. *)
Definition sent_sql (tr : list event) : list string :=
  omap (fun e => match e with
                 | Executed sql _ => Some sql
                 | _ => None
                 end) tr.

(** A character that an integer is written with: a digit or the sign. *)
Definition numeric (a : Ascii.ascii) : bool :=
  let n := Ascii.nat_of_ascii a in
  ((48 <=? n) && (n <=? 57) || (n =? 45))%nat.

(** The clause and the parameters [get_users] builds for a search term. *)
Definition search_where (search : option string) : string :=
  if truthy (opt_str search)
  then "WHERE 1=1 AND (username LIKE %s OR email LIKE %s OR full_name LIKE %s)"
  else "WHERE 1=1".

Definition search_params (search : option string) : list value :=
  if truthy (opt_str search)
  then [VStr ("%" ++ default "" search ++ "%");
        VStr ("%" ++ default "" search ++ "%");
        VStr ("%" ++ default "" search ++ "%")]
  else [].

(** ** Projections a coroutine keeps *)

(** A coroutine that leaves [f] of the world as it found it. *)
Definition keeps {A B} (f : world -> B) (m : M A) : Prop :=
  forall w, f (m w).2 = f w.

(** ** What the registration contract speaks of *)

(** The fields [create_user] hands to [insert], the hash computed. *)
Definition registration (user_data : UserCreate.t) (password_hash : value)
    (now : Z) : dict :=
  [("username", VStr (UserCreate.username user_data));
   ("email", VStr (UserCreate.email user_data));
   ("full_name", opt_str (UserCreate.full_name user_data));
   ("password_hash", password_hash);
   ("role", VStr (UserRole.value (UserCreate.role user_data)));
   ("status", VStr (UserStatus.value (UserCreate.status user_data)));
   ("is_active", VBool true);
   ("created_at", VDatetime now)].

(** The row [create_user] adds to the users: the fields of the form as the
    server stores them, the hash in place of the password, the table's
    defaults and the key the table gives. *)
Definition registered (users : table) (user_data : UserCreate.t)
    (password_hash : value) (now : Z) : row :=
  inserted_row users (registration user_data password_hash now).

(** No row of the table has the key the table would give next. *)
Definition key_is_free (t : table) : Prop :=
  Forall (fun r => has_id (t_auto_increment t) r = false) (t_rows t).

Definition demo_bob_again : UserCreate.t :=
  {| UserCreate.username := "bob"; UserCreate.email := "robert@example.com";
     UserCreate.full_name := None; UserCreate.role := UserRole.USER;
     UserCreate.status := UserStatus.ACTIVE; UserCreate.password := "hunter22" |}.

Definition demo_users_table : table :=
  {| t_rows := [demo_bob]; t_auto_increment := 2; t_defaults := ∅ |}.

(** A table without the rows that [hit]. *)
Definition without_rows (hit : row -> bool) (t : table) : table :=
  {| t_rows := List.filter (fun r => negb (hit r)) (t_rows t);
     t_auto_increment := t_auto_increment t;
     t_defaults := t_defaults t |}.

Definition edit_forbidden : exn :=
  HTTPException HTTP_403_FORBIDDEN "无权限编辑此文章".
Definition delete_forbidden : exn :=
  HTTPException HTTP_403_FORBIDDEN "无权限删除此文章".
Definition article_not_found : exn :=
  HTTPException HTTP_404_NOT_FOUND "文章不存在".

(** The caller is a stranger to the article: it has another author, and the
    first user row of the caller's id has a role that is not 'admin'. *)
Definition stranger (users : table) (article : row) (user_id : Z) : Prop :=
  exists author u rest role,
    article !! "author_id" = Some author
    /\ author <> VInt user_id
    /\ List.filter (has_id user_id) (t_rows users) = u :: rest
    /\ u !! "role" = Some role
    /\ role <> VStr "admin".

Definition demo_dave : row :=
  list_to_map
    [("id", VInt 2); ("username", VStr "dave"); ("is_active", VInt 1);
     ("role", VStr "user"); ("status", VStr "active")].

Definition demo_forum_users : table :=
  {| t_rows := [demo_bob; demo_dave]; t_auto_increment := 3; t_defaults := ∅ |}.

Definition demo_articles : table :=
  {| t_rows := [demo_article]; t_auto_increment := 8; t_defaults := ∅ |}.

Definition demo_forum : database :=
  <["articles" := demo_articles]> {[ "users" := demo_forum_users ]}.

(** ** What the article contract speaks of *)

(** The fields [create_article] hands to [insert]. *)
Definition publication (article_data : ArticleCreate.t) (author_id now : Z)
    : dict :=
  [("title", VStr (ArticleCreate.title article_data));
   ("content", VStr (ArticleCreate.content article_data));
   ("summary", opt_str (ArticleCreate.summary article_data));
   ("tags", json_dumps (ArticleCreate.tags article_data));
   ("is_published", VBool (ArticleCreate.is_published article_data));
   ("author_id", VInt author_id);
   ("created_at", VDatetime now)].

(** The row [create_article] adds to the articles: the fields as the server
    stores them, the table's defaults and the key the table gives. *)
Definition written (articles : table) (article_data : ArticleCreate.t)
    (author_id now : Z) : row :=
  inserted_row articles (publication article_data author_id now).

(** The tags as [get_article_by_id] returns them. *)
Definition tags_read (tags : option (list string)) : value :=
  match tags with
  | Some l => VList l
  | None => VNone
  end.

Definition demo_post : ArticleCreate.t :=
  {| ArticleCreate.title := "News"; ArticleCreate.content := "Text";
     ArticleCreate.summary := None; ArticleCreate.tags := Some ["a"; "b"];
     ArticleCreate.is_published := true |}.

(** A token for bob, and what his login returns. *)
Definition demo_token : AuthManager.token :=
  @AuthManager.create_access_token demo_primitives auth_manager
    [("sub", VStr "bob")] None 1000.

Definition demo_grant : Token.t :=
  {| Token.access_token := demo_token; Token.token_type := "bearer" |}.

(** An admin whose account is suspended. *)
Definition demo_eve : row :=
  list_to_map
    [("id", VInt 3); ("username", VStr "eve"); ("is_active", VInt 1);
     ("role", VStr "admin"); ("status", VStr "banned")].

Definition demo_staff_table : table :=
  {| t_rows := [demo_eve]; t_auto_increment := 4; t_defaults := ∅ |}.

Definition demo_staff : database := {[ "users" := demo_staff_table ]}.

Definition demo_eve_token : AuthManager.token :=
  @AuthManager.create_access_token demo_primitives auth_manager
    [("sub", VStr "eve")] None 1000.

(** A request that names a role for its own sender. *)
Definition demo_promotion : UserUpdate.t :=
  {| UserUpdate.username := None; UserUpdate.email := None;
     UserUpdate.full_name := Some "Bob"; UserUpdate.role := Some UserRole.ADMIN;
     UserUpdate.status := None |}.

(** The stored tags of an article can be read: they are empty, or text
    [json.loads] decodes. *)
Definition tags_readable (a : row) : Prop :=
  truthy (default VNone (a !! "tags")) = false
  \/ exists tags, json_loads (default VNone (a !! "tags")) = Return tags.

Definition demo_read_article : row :=
  list_to_map
    [("id", VInt 9); ("title", VStr "Read me"); ("tags", VJson ["a"]);
     ("author_id", VInt 1); ("view_count", VInt 41)].

Definition demo_library_articles : table :=
  {| t_rows := [demo_article; demo_read_article]; t_auto_increment := 10; t_defaults := ∅ |}.

Definition demo_library : database :=
  <["articles" := demo_library_articles]> {[ "users" := demo_forum_users ]}.

(** A request body that names the title alone. *)
Definition demo_retitle : row := {[ "title" := VStr "Hi" ]}.

(** A users table whose schema gives [updated_at] the default NULL. *)
Definition demo_accounts_table : table :=
  {| t_rows := [demo_bob]; t_auto_increment := 2;
     t_defaults := {[ "updated_at" := VNone ]} |}.

Definition demo_accounts : database := {[ "users" := demo_accounts_table ]}.

(** An articles table whose schema gives [view_count] the default 0 and
    [updated_at] the default NULL. *)
Definition demo_shelf_table : table :=
  {| t_rows := [demo_article]; t_auto_increment := 8;
     t_defaults := <["view_count" := VInt 0]> {[ "updated_at" := VNone ]} |}.

Definition demo_shelf : database :=
  <["articles" := demo_shelf_table]> {[ "users" := demo_forum_users ]}.
(** * Properties *)

(** ** Running a coroutine inside [get_connection] *)

Section Connection.
Import AsyncMySQLHandler.

Lemma ensure_pool_reachable w :
  reachable w -> _ensure_pool w = (Return tt, ensured w).
Proof.
  unfold reachable, _ensure_pool, ensured, bind, get, try_except, create_pool, modify.
  intros [[p Hp] | Hup].
  - rewrite Hp. reflexivity.
  - destruct (pool w) eqn:Hp; [reflexivity |].
    rewrite Hup. cbn. reflexivity.
Qed.

Lemma ensure_pool_unreachable w :
  pool w = None -> server_up w = false ->
  _ensure_pool w = (Raise OperationalError, w).
Proof.
  unfold _ensure_pool, bind, get, try_except, create_pool, raise.
  intros -> ->. reflexivity.
Qed.

Lemma store_ensured w : store (ensured w) = store w.
Proof. unfold ensured. destruct (pool w); reflexivity. Qed.

Lemma store_entered w : store (entered w) = store w.
Proof. unfold entered, ensured. destruct (pool w); reflexivity. Qed.

Lemma trace_entered w : trace (entered w) = trace w.
Proof. unfold entered, ensured. destruct (pool w); reflexivity. Qed.

Lemma conn_view_entered w : conn_view (entered w) = store w.
Proof. unfold conn_view, entered, ensured. destruct (pool w); reflexivity. Qed.

Lemma get_connection_run {A} (body : M A) w :
  reachable w ->
  get_connection body w =
    match body (entered w) with
    | (Return a, w1) => (Return a, release w1)
    | (Raise e, w1) => (Raise e, release (set_session (Some (store w1)) w1))
    end.
Proof.
  intros Hr. unfold get_connection, bind at 1.
  rewrite (ensure_pool_reachable w Hr).
  unfold on_exit, bind, acquire, modify, try_except, conn_rollback, raise.
  rewrite store_ensured. fold (entered w).
  destruct (body (entered w)) as [[a | e] w1]; reflexivity.
Qed.

Lemma get_connection_unreachable {A} (body : M A) w :
  pool w = None -> server_up w = false ->
  get_connection body w = (Raise OperationalError, w).
Proof.
  intros Hp Hup. unfold get_connection, bind.
  rewrite (ensure_pool_unreachable w Hp Hup). reflexivity.
Qed.

End Connection.

(** ** Pagination *)

Section Pagination.
Import AsyncMySQLHandler.
Local Open Scope Z_scope.

Lemma ceil_div_floor total page_size :
  1 <= page_size ->
  (total + page_size - 1) / page_size = ceil_div total page_size.
Proof.
  intros Hps. unfold ceil_div.
  pose proof (Z.div_mod total page_size ltac:(lia)) as Hdm.
  pose proof (Z.mod_pos_bound total page_size ltac:(lia)) as Hb.
  destruct (Z.eqb_spec (total mod page_size) 0) as [H0 | Hn].
  - symmetry. apply (Z.div_unique _ _ _ (page_size - 1)); lia.
  - symmetry. apply (Z.div_unique _ _ _ (total mod page_size - 1)); lia.
Qed.

Lemma ceil_div_least total page_size :
  1 <= page_size ->
  (ceil_div total page_size - 1) * page_size < total
  /\ total <= ceil_div total page_size * page_size.
Proof.
  intros Hps. unfold ceil_div.
  pose proof (Z.div_mod total page_size ltac:(lia)) as Hdm.
  pose proof (Z.mod_pos_bound total page_size ltac:(lia)) as Hb.
  destruct (Z.eqb_spec (total mod page_size) 0) as [H0 | Hn]; nia.
Qed.

Lemma window_length count skip (rs : list row) :
  0 <= count -> 0 <= skip ->
  Z.of_nat (length (take (Z.to_nat count) (drop (Z.to_nat skip) rs)))
  = Z.min count (Z.max 0 (Z.of_nat (length rs) - skip)).
Proof.
  intros Hc Hs. rewrite length_take, length_drop. lia.
Qed.

Lemma conn_view_log e w : conn_view (log e w) = conn_view w.
Proof. reflexivity. Qed.

Lemma cursor_execute_ok q params w r :
  meaning q params (conn_view w) = Some r ->
  cursor_execute q params w
  = (Return r, set_session (Some (after r)) (log (Executed (text q) params) w)).
Proof. intros Hq. unfold cursor_execute. rewrite conn_view_log, Hq. reflexivity. Qed.

Lemma cursor_execute_rejected q params w :
  meaning q params (conn_view w) = None ->
  cursor_execute q params w
  = (Raise OperationalError, log (Executed (text q) params) w).
Proof. intros Hq. unfold cursor_execute. rewrite conn_view_log, Hq. reflexivity. Qed.

Lemma total_of_count n w :
  total_of (Some {[ "total" := VInt n ]}) w = (Return n, w).
Proof.
  unfold total_of. case_decide as He.
  - exfalso. apply (f_equal (fun m : row => m !! "total")) in He.
    rewrite lookup_singleton_eq, lookup_empty in He. discriminate.
  - rewrite lookup_singleton_eq. reflexivity.
Qed.

(** C1: for page >= 1 and page_size >= 1, over a base query that returns T
    rows, [fetch_paginated] returns an envelope with total T, total_pages the
    ceiling of T / page_size, the window taken at offset (page - 1) * page_size
    (in the rows and in the text sent), and min(page_size, max(0, T - offset))
    items; a page beyond the range has no items and the same total. *)
Theorem fetch_paginated_envelope q params w page_ page_size_ r :
  reachable w ->
  meaning q params (store w) = Some r ->
  after r = store w ->
  1 <= page_ -> 1 <= page_size_ ->
  let T := Z.of_nat (length (fetched r)) in
  let offset := (page_ - 1) * page_size_ in
  exists env w',
    fetch_paginated q page_ page_size_ params w = (Return env, w')
    /\ total env = T /\ page env = page_ /\ page_size env = page_size_
    /\ total_pages env = ceil_div T page_size_
    /\ (total_pages env - 1) * page_size_ < T <= total_pages env * page_size_
    /\ items env = take (Z.to_nat page_size_) (drop (Z.to_nat offset) (fetched r))
    /\ Z.of_nat (length (items env)) = Z.min page_size_ (Z.max 0 (T - offset))
    /\ (T <= offset -> items env = [])
    /\ trace w' = trace w ++
         [Executed (text (count_sql q)) params;
          Executed (text q ++ " LIMIT " ++ str_of_int page_size_
                      ++ " OFFSET " ++ str_of_int offset) params]
    /\ store w' = store w.
Proof.
  intros Hr Hq Hafter Hp Hps T offset.
  assert (Hoff : 0 <= offset) by (unfold offset; nia).
  unfold fetch_paginated. cbv zeta. fold offset.
  rewrite (get_connection_run _ w Hr).
  unfold bind at 1.
  rewrite (cursor_execute_ok (count_sql q) params (entered w)
             {| rowcount := 1;
                fetched := [ {[ "total" := VInt T ]} ];
                lastrowid := lastrowid r; after := after r |})
    by (rewrite conn_view_entered; cbn [meaning count_sql]; rewrite Hq; reflexivity).
  cbn [fetched head after]. unfold bind at 1. rewrite total_of_count.
  unfold bind at 1.
  set (w1 := set_session _ _).
  assert (Hview : conn_view w1 = store w) by (unfold w1, conn_view; cbn; exact Hafter).
  rewrite (cursor_execute_ok (paginated_sql q page_size_ offset) params w1
             {| rowcount := Z.of_nat (length (take (Z.to_nat page_size_)
                                               (drop (Z.to_nat offset) (fetched r))));
                fetched := take (Z.to_nat page_size_) (drop (Z.to_nat offset) (fetched r));
                lastrowid := lastrowid r; after := after r |}).
  2:{ rewrite Hview. cbn [meaning paginated_sql]. rewrite Hq. unfold window.
      destruct (Z.ltb_spec page_size_ 0); [lia |].
      destruct (Z.ltb_spec offset 0); [lia |]. reflexivity. }
  unfold bind at 1, floordiv.
  destruct (Z.eqb_spec page_size_ 0) as [? | _]; [lia |].
  unfold ret. cbn [fetched after].
  eexists _, _. split; [reflexivity |].
  cbn [total page page_size total_pages items].
  rewrite (ceil_div_floor T page_size_ Hps).
  pose proof (ceil_div_least T page_size_ Hps) as [Hl1 Hl2].
  repeat split; try assumption.
  - apply window_length; lia.
  - intros Hbeyond. apply length_zero_iff_nil. apply Nat2Z.inj.
    rewrite window_length by lia. fold T. lia.
  - unfold release, w1. cbn. rewrite <- app_assoc. f_equal.
    unfold ensured. destruct (pool w); reflexivity.
  - unfold release, w1. cbn. apply store_ensured.
Qed.

End Pagination.

Section PaginationWitness.
Import AsyncMySQLHandler.
Local Open Scope Z_scope.

Lemma fetch_paginated_envelope_witness :
  reachable (demo_world ∅)
  /\ exists env w',
       fetch_paginated demo_listing 2 2 [] (demo_world ∅) = (Return env, w')
       /\ total env = 3 /\ total_pages env = 2
       /\ Z.of_nat (length (items env)) = 1.
Proof.
  assert (Hr : reachable (demo_world ∅)) by (right; reflexivity).
  split; [exact Hr |].
  destruct (fetch_paginated_envelope demo_listing [] (demo_world ∅) 2 2
              {| rowcount := 3; fetched := demo_rows; lastrowid := 0; after := ∅ |}
              Hr eq_refl eq_refl ltac:(lia) ltac:(lia))
    as (env & w' & Hrun & Htotal & _ & _ & Hpages & _ & _ & Hlen & _).
  exists env, w'. repeat split; assumption.
Defined.

End PaginationWitness.

(** ** Transactions *)

Section Transactions.
Import AsyncMySQLHandler.
Local Open Scope Z_scope.

Lemma executemany_from_run q params_list : forall rows w,
  match run_batch q params_list (conn_view w) with
  | Some db' =>
      exists n w', executemany_from q params_list rows w = (Return n, w')
                   /\ conn_view w' = db' /\ store w' = store w
  | None =>
      exists w', executemany_from q params_list rows w = (Raise OperationalError, w')
                 /\ store w' = store w
  end.
Proof.
  induction params_list as [| params rest IH]; intros rows w; cbn [run_batch executemany_from].
  - exists rows, w. repeat split; reflexivity.
  - unfold bind. destruct (meaning q params (conn_view w)) as [r |] eqn:Hq.
    + rewrite (cursor_execute_ok q params w r Hq).
      specialize (IH (rows + rowcount r)
                     (set_session (Some (after r)) (log (Executed (text q) params) w))).
      change (conn_view (set_session (Some (after r)) (log (Executed (text q) params) w)))
        with (after r) in IH.
      destruct (run_batch q rest (after r)) as [db' |].
      * destruct IH as (n & w' & Hrun & Hview & Hstore).
        exists n, w'. rewrite Hrun. repeat split; assumption.
      * destruct IH as (w' & Hrun & Hstore).
        exists w'. rewrite Hrun. split; [reflexivity | assumption].
    + rewrite (cursor_execute_rejected q params w Hq).
      eexists. split; reflexivity.
Qed.

Lemma transaction_run {A} (body : M A) w :
  reachable w ->
  transaction body w =
    match body (set_store (store w) (entered w)) with
    | (Return a, w1) => (Return a, release (set_store (conn_view w1) w1))
    | (Raise e, w1) => (Raise e, release (set_session (Some (store w1)) w1))
    end.
Proof.
  intros Hr. unfold transaction. rewrite (get_connection_run _ w Hr).
  unfold try_except, bind, conn_begin, conn_commit, conn_rollback, modify, raise, ret.
  rewrite conn_view_entered.
  destruct (body (set_store (store w) (entered w))) as [[a | e] w1]; reflexivity.
Qed.

Lemma execute_many_run q params_list w :
  reachable w ->
  match run_batch q params_list (store w) with
  | None =>
      exists w', execute_many q params_list true w = (Raise OperationalError, w')
                 /\ store w' = store w /\ session w' = None
  | Some db' =>
      exists n w', execute_many q params_list true w = (Return n, w')
                   /\ store w' = db' /\ session w' = None
  end.
Proof.
  intros Hr. unfold execute_many. rewrite (transaction_run _ w Hr).
  set (w0 := set_store (store w) (entered w)).
  assert (Hv0 : conn_view w0 = store w) by reflexivity.
  assert (Hs0 : store w0 = store w) by reflexivity.
  unfold cursor_executemany.
  destruct params_list as [| params rest].
  - cbn [run_batch]. unfold ret. rewrite Hv0.
    eexists _, _. split; [reflexivity |]. split; reflexivity.
  - pose proof (executemany_from_run q (params :: rest) 0 w0) as Hrun.
    rewrite Hv0 in Hrun.
    destruct (run_batch q (params :: rest) (store w)) as [db' |].
    + destruct Hrun as (n & w' & Hrun & Hview & Hstore).
      unfold bind. rewrite Hrun. unfold ret. rewrite Hview.
      eexists _, _. split; [reflexivity |]. split; reflexivity.
    + destruct Hrun as (w' & Hrun & Hstore).
      unfold bind. rewrite Hrun.
      eexists. split; [reflexivity |]. cbn. split; [congruence | reflexivity].
Qed.

(** A batch is rejected exactly when one of its parameter sets is, on the
    view the sets before it leave. *)
Lemma run_batch_rejected q params_list : forall db,
  run_batch q params_list db = None <->
  exists done params rest db1,
    params_list = done ++ params :: rest
    /\ run_batch q done db = Some db1
    /\ meaning q params db1 = None.
Proof.
  induction params_list as [| params rest IH]; intros db; cbn [run_batch].
  - split; [discriminate |].
    intros (done & p & r & db1 & Heq & _). destruct done; discriminate.
  - destruct (meaning q params db) as [r |] eqn:Hq.
    + rewrite IH. split.
      * intros (done & p & rest' & db1 & -> & Hdone & Hrej).
        exists (params :: done), p, rest', db1.
        cbn [run_batch]. rewrite Hq. auto.
      * intros (done & p & rest' & db1 & Heq & Hdone & Hrej).
        destruct done as [| d done]; cbn in Heq; inversion Heq; subst.
        -- cbn in Hdone. inversion Hdone; subst. congruence.
        -- cbn [run_batch] in Hdone. rewrite Hq in Hdone.
           exists done, p, rest', db1. auto.
    + split; [| reflexivity].
      intros _. exists [], params, rest, db. auto.
Qed.

(** C2: [execute_many] with [use_transaction = True] is all or nothing.  If
    the server rejects a parameter set of the batch, the call raises the
    error and the committed data are what they were; if it rejects none, the
    call returns and the committed data are the whole batch applied. *)
Theorem execute_many_all_or_nothing q params_list w :
  reachable w ->
  (forall done params rest db1,
     params_list = done ++ params :: rest ->
     run_batch q done (store w) = Some db1 ->
     meaning q params db1 = None ->
     exists w', execute_many q params_list true w = (Raise OperationalError, w')
                /\ store w' = store w /\ session w' = None)
  /\ (forall db',
       run_batch q params_list (store w) = Some db' ->
       exists n w', execute_many q params_list true w = (Return n, w')
                    /\ store w' = db' /\ session w' = None).
Proof.
  intros Hr. pose proof (execute_many_run q params_list w Hr) as Hrun.
  split.
  - intros done params rest db1 Heq Hdone Hrej.
    assert (Hnone : run_batch q params_list (store w) = None).
    { apply run_batch_rejected. exists done, params, rest, db1. auto. }
    rewrite Hnone in Hrun. exact Hrun.
  - intros db' Hall. rewrite Hall in Hrun. exact Hrun.
Qed.

End Transactions.

Section TransactionsWitness.
Import AsyncMySQLHandler.

Lemma execute_many_all_or_nothing_witness :
  reachable (demo_world demo_users)
  /\ exists w',
       execute_many demo_insert [[VStr "ann"]; []] true (demo_world demo_users)
       = (Raise OperationalError, w')
       /\ store w' = demo_users /\ session w' = None.
Proof.
  assert (Hr : reachable (demo_world demo_users)) by (right; reflexivity).
  split; [exact Hr |].
  destruct (execute_many_all_or_nothing demo_insert [[VStr "ann"]; []]
              (demo_world demo_users) Hr) as [Hfail _].
  eapply (Hfail [[VStr "ann"]] [] []); [reflexivity | reflexivity | reflexivity].
Defined.

End TransactionsWitness.

(** ** Tokens *)

Section Dicts.

Lemma dict_get_set_eq k v d : dict_get k (dict_set k v d) = Some v.
Proof.
  induction d as [| [k' v'] d IH]; cbn.
  - rewrite String.eqb_refl. reflexivity.
  - destruct (String.eqb k k') eqn:E; cbn; rewrite ?String.eqb_refl, ?E; auto.
Qed.

Lemma dict_get_set_ne k k' v d :
  k <> k' -> dict_get k' (dict_set k v d) = dict_get k' d.
Proof.
  intros Hne. induction d as [| [k0 v0] d IH]; cbn.
  - destruct (String.eqb_spec k' k); [congruence | reflexivity].
  - destruct (String.eqb_spec k k0) as [-> | Hk]; cbn.
    + destruct (String.eqb_spec k' k0); [congruence | reflexivity].
    + destruct (String.eqb_spec k' k0); [reflexivity | exact IH].
Qed.

End Dicts.

Section Tokens.
Context `{Primitives}.
Import AuthManager.
Local Open Scope Z_scope.

Lemma dict_get_jwt_claims k d :
  dict_get k (jwt_claims d)
  = (if bool_decide (k ∈ ["exp"; "iat"; "nbf"]) then timestamp else id)
      <$> dict_get k d.
Proof.
  unfold jwt_claims. induction d as [| [k0 v0] d IH]; cbn [map dict_get fmap option_fmap option_map].
  - reflexivity.
  - cbn [fst snd]. destruct (bool_decide (k0 ∈ ["exp"; "iat"; "nbf"])) eqn:E0; cbn [dict_get].
    + destruct (String.eqb_spec k k0) as [-> | Hk]; [rewrite E0; reflexivity | exact IH].
    + destruct (String.eqb_spec k k0) as [-> | Hk]; [rewrite E0; reflexivity | exact IH].
Qed.

Lemma py_int_raises v e : py_int v = Raise e -> e = ValueError \/ e = TypeError.
Proof.
  destruct v; cbn; try (intros [= <-]; auto); try discriminate.
  destruct (int_of_text s); [discriminate | intros [= <-]; auto].
Qed.

Lemma validate_iat_cases claims :
  _validate_iat claims
  = if ill_typed "iat" claims then Raise TypeError
    else if no_numeral "iat" claims then Raise JWTError else Return tt.
Proof.
  unfold _validate_iat, time_claim, ill_typed, no_numeral.
  destruct (dict_get "iat" claims) as [v |]; [| reflexivity].
  destruct (py_int v) as [n | e] eqn:Hv; [reflexivity |].
  destruct (py_int_raises v e Hv) as [-> | ->]; reflexivity.
Qed.

Lemma validate_nbf_cases claims utcnow :
  _validate_nbf claims utcnow
  = if ill_typed "nbf" claims then Raise TypeError
    else if no_numeral "nbf" claims || too_early claims utcnow
         then Raise JWTError else Return tt.
Proof.
  unfold _validate_nbf, time_claim, ill_typed, no_numeral, too_early.
  destruct (dict_get "nbf" claims) as [v |]; [| reflexivity].
  destruct (py_int v) as [n | e] eqn:Hv; [destruct (utcnow <? n); reflexivity |].
  destruct (py_int_raises v e Hv) as [-> | ->]; reflexivity.
Qed.

Lemma validate_exp_cases alg claims signature utcnow :
  _validate_exp claims utcnow
  = if ill_typed "exp" claims then Raise TypeError
    else if negb (in_time (Jws alg claims signature) utcnow)
         then Raise JWTError else Return tt.
Proof.
  unfold _validate_exp, time_claim, ill_typed, in_time.
  destruct (dict_get "exp" claims) as [v |]; [| reflexivity].
  destruct (py_int v) as [n | e] eqn:Hv.
  - rewrite (Z.leb_antisym n utcnow), negb_involutive.
    destruct (n <? utcnow); reflexivity.
  - destruct (py_int_raises v e Hv) as [-> | ->]; reflexivity.
Qed.

Lemma present_cases name claims :
  present name claims = match dict_get name claims with
                        | Some _ => true
                        | None => false
                        end.
Proof.
  unfold present. destruct (dict_get name claims).
  - apply bool_decide_eq_true_2. eauto.
  - apply bool_decide_eq_false_2. intros [? [=]].
Qed.

Lemma validate_aud_cases claims :
  _validate_aud claims = if present "aud" claims then Raise JWTError else Return tt.
Proof.
  unfold _validate_aud. rewrite present_cases.
  destruct (dict_get "aud" claims); reflexivity.
Qed.

Lemma validate_at_hash_cases claims :
  _validate_at_hash claims
  = if present "at_hash" claims then Raise JWTError else Return tt.
Proof.
  unfold _validate_at_hash. rewrite present_cases.
  destruct (dict_get "at_hash" claims); reflexivity.
Qed.

Lemma validate_sub_cases claims :
  _validate_sub claims = if no_text "sub" claims then Raise JWTError else Return tt.
Proof.
  unfold _validate_sub, no_text.
  destruct (dict_get "sub" claims) as [v |]; [destruct (is_str v) |]; reflexivity.
Qed.

Lemma validate_jti_cases claims :
  _validate_jti claims = if no_text "jti" claims then Raise JWTError else Return tt.
Proof.
  unfold _validate_jti, no_text.
  destruct (dict_get "jti" claims) as [v |]; [destruct (is_str v) |]; reflexivity.
Qed.

(** The checks of the registered claims do not depend on their order, as
    long as no time claim is ill-typed. *)
Lemma validate_claims_typed alg claims signature utcnow :
  ill_typed "iat" claims = false ->
  ill_typed "nbf" claims = false ->
  ill_typed "exp" claims = false ->
  _validate_claims claims utcnow
  = if refused (Jws alg claims signature) utcnow then Raise JWTError else Return tt.
Proof.
  intros Hiat Hnbf Hexp. unfold _validate_claims, refused. cbn [claims_of].
  rewrite validate_iat_cases, validate_nbf_cases,
    (validate_exp_cases alg claims signature), validate_aud_cases,
    validate_sub_cases, validate_jti_cases, validate_at_hash_cases,
    Hiat, Hnbf, Hexp.
  destruct (no_numeral "iat" claims), (no_numeral "nbf" claims),
    (no_numeral "exp" claims) eqn:Nexp, (too_early claims utcnow),
    (in_time (Jws alg claims signature) utcnow) eqn:Htime,
    (present "aud" claims), (present "at_hash" claims),
    (no_text "sub" claims), (no_text "jti" claims); try reflexivity.
  all: exfalso; revert Nexp Htime; unfold no_numeral, in_time;
    destruct (dict_get "exp" claims) as [v |]; [| intros; discriminate];
    destruct (py_int v) as [n | e]; intros H1 H2; discriminate.
Qed.



(** [verify_token] on a token whose signature is valid: what the checks of
    the claims say, then the subject. *)
Lemma verify_token_signed self tok utcnow :
  signature_valid self tok = true ->
  verify_token self tok utcnow
  = match _validate_claims (claims_of tok) utcnow with
    | Return _ =>
        match subject tok with
        | Some sub => Return {| TokenData.username := sub |}
        | None => Raise unauthorized
        end
    | Raise JWTError => Raise unauthorized
    | Raise e => Raise e
    end.
Proof.
  unfold verify_token, jwt_decode, signature_valid, subject.
  destruct tok as [raw | alg payload signature]; [discriminate |].
  rewrite (bool_decide_ext (alg ∈ [algorithm self]) (alg = algorithm self))
    by apply list_elem_of_singleton.
  destruct (bool_decide (alg = algorithm self)); cbn [negb andb]; [| discriminate].
  intros ->. cbn [negb claims_of].
  destruct (_validate_claims payload utcnow) as [[] | e]; cbn [and_then];
    [| reflexivity].
  destruct (dict_get "sub" payload) as [[] |]; reflexivity.
Qed.

(** The classification of the tokens with a valid signature and no
    ill-typed time claim. *)
Lemma verify_token_cases self tok utcnow :
  signature_valid self tok = true ->
  ill_typed "iat" (claims_of tok) = false ->
  ill_typed "nbf" (claims_of tok) = false ->
  ill_typed "exp" (claims_of tok) = false ->
  verify_token self tok utcnow =
    if refused tok utcnow then Raise unauthorized
    else match subject tok with
         | Some sub => Return {| TokenData.username := sub |}
         | None => Raise unauthorized
         end.
Proof.
  intros Hsig Hiat Hnbf Hexp. rewrite (verify_token_signed self tok utcnow Hsig).
  destruct tok as [raw | alg payload signature]; [discriminate |].
  cbn [claims_of] in *.
  rewrite (validate_claims_typed alg payload signature utcnow Hiat Hnbf Hexp).
  destruct (refused _ utcnow); reflexivity.
Qed.

(** The claims of a token [create_access_token] made. *)
Lemma created_claims self data expires_delta issued name :
  dict_get name (claims_of (create_access_token self data expires_delta issued))
  = if String.eqb name "exp" then Some (VInt (expire_at self expires_delta issued))
    else (if bool_decide (name ∈ ["exp"; "iat"; "nbf"]) then timestamp else id)
           <$> dict_get name data.
Proof.
  unfold create_access_token, jwt_encode. cbn [claims_of].
  rewrite dict_get_jwt_claims.
  destruct (String.eqb_spec name "exp") as [-> | Hne].
  - rewrite dict_get_set_eq. reflexivity.
  - rewrite dict_get_set_ne by congruence. reflexivity.
Qed.

Lemma created_signature self data expires_delta issued :
  signature_valid self (create_access_token self data expires_delta issued) = true.
Proof.
  unfold create_access_token, jwt_encode. cbn [signature_valid].
  rewrite bool_decide_eq_true_2 by reflexivity. apply String.eqb_refl.
Qed.

Lemma created_in_time self data expires_delta issued utcnow :
  in_time (create_access_token self data expires_delta issued) utcnow
  = (utcnow <=? expire_at self expires_delta issued).
Proof.
  pose proof (created_claims self data expires_delta issued "exp") as Hexp.
  unfold create_access_token, jwt_encode in *. cbn [claims_of in_time] in *.
  rewrite Hexp. reflexivity.
Qed.

Lemma created_subject self data expires_delta issued :
  subject (create_access_token self data expires_delta issued)
  = match dict_get "sub" data with
    | Some VNone => None
    | sub => sub
    end.
Proof.
  pose proof (created_claims self data expires_delta issued "sub") as Hsub.
  unfold create_access_token, jwt_encode in *. cbn [claims_of subject] in *.
  rewrite Hsub. cbn. destruct (dict_get "sub" data) as [[] |]; reflexivity.
Qed.

(** A token made from a claims map without registered claims but the
    subject: the expiry and a subject that is no text are all that can
    refuse it. *)
Lemma created_refused self data expires_delta issued utcnow :
  unregistered data ->
  let tok := create_access_token self data expires_delta issued in
  ill_typed "iat" (claims_of tok) = false
  /\ ill_typed "nbf" (claims_of tok) = false
  /\ ill_typed "exp" (claims_of tok) = false
  /\ refused tok utcnow
     = negb (utcnow <=? expire_at self expires_delta issued) || no_text "sub" data.
Proof.
  intros Hun tok.
  assert (Hnone : forall name, name ∈ ["iat"; "nbf"; "aud"; "jti"; "at_hash"] ->
                               dict_get name (claims_of tok) = None).
  { intros name Hin. unfold tok. rewrite created_claims.
    rewrite (proj1 (Forall_forall _ _) Hun name Hin).
    destruct (String.eqb_spec name "exp") as [-> | _]; [| reflexivity].
    exfalso. revert Hin. rewrite !elem_of_cons, elem_of_nil.
    intros [? | [? | [? | [? | [? | []]]]]]; discriminate. }
  assert (Hiat : dict_get "iat" (claims_of tok) = None) by (apply Hnone; set_solver).
  assert (Hnbf : dict_get "nbf" (claims_of tok) = None) by (apply Hnone; set_solver).
  assert (Haud : dict_get "aud" (claims_of tok) = None) by (apply Hnone; set_solver).
  assert (Hjti : dict_get "jti" (claims_of tok) = None) by (apply Hnone; set_solver).
  assert (Hat : dict_get "at_hash" (claims_of tok) = None) by (apply Hnone; set_solver).
  assert (Hexp : dict_get "exp" (claims_of tok)
                 = Some (VInt (expire_at self expires_delta issued)))
    by (unfold tok; rewrite created_claims; reflexivity).
  assert (Hs : no_text "sub" (claims_of tok) = no_text "sub" data).
  { unfold no_text, tok. rewrite created_claims. cbn.
    destruct (dict_get "sub" data); reflexivity. }
  unfold refused, ill_typed, no_numeral, too_early. rewrite !present_cases, Hs.
  unfold no_text at 2. rewrite Hiat, Hnbf, Haud, Hjti, Hat, Hexp. cbn [py_int orb].
  unfold tok. rewrite created_in_time, !orb_false_r. auto.
Qed.

(** [verify_token] on a token [create_access_token] made from a claims map
    without registered claims but the subject. *)
Lemma verify_created self data expires_delta issued utcnow :
  unregistered data ->
  verify_token self (create_access_token self data expires_delta issued) utcnow
  = if negb (utcnow <=? expire_at self expires_delta issued) || no_text "sub" data
    then Raise unauthorized
    else match dict_get "sub" data with
         | Some sub => Return {| TokenData.username := sub |}
         | None => Raise unauthorized
         end.
Proof.
  intros Hun.
  destruct (created_refused self data expires_delta issued utcnow Hun)
    as (Hiat & Hnbf & Hexp & Href).
  rewrite (verify_token_cases self _ utcnow (created_signature _ _ _ _) Hiat Hnbf Hexp).
  rewrite Href, created_subject.
  destruct (negb _); cbn [orb]; [reflexivity |].
  unfold no_text. destruct (dict_get "sub" data) as [[] |]; reflexivity.
Qed.


End Tokens.

Section TokensWitness.
Import AuthManager.
Local Open Scope Z_scope.





End TokensWitness.

(** ** Passwords *)

Section Passwords.
Context `{Primitives}.
Import AuthManager.

Lemma substring_short n (s : string) :
  (String.length s <= n)%nat -> String.substring 0 n s = s.
Proof.
  revert n. induction s as [| c s IH]; intros n Hn.
  - destruct n; reflexivity.
  - destruct n as [| n]; cbn in *; [lia |]. f_equal. apply IH. lia.
Qed.

Lemma bcrypt_secret_short (p : string) :
  (String.length p <= 72)%nat -> bcrypt_secret p = p.
Proof. apply substring_short. Qed.

Lemma digest_secret_acceptable p :
  acceptable p = true -> digest_secret p = Return (bcrypt_secret p).
Proof.
  unfold acceptable, digest_secret. intros Hok. apply andb_true_iff in Hok.
  destruct Hok as [Hsize Hnul]. apply negb_true_iff in Hsize, Hnul.
  rewrite Hsize, Hnul. reflexivity.
Qed.

Lemma digest_secret_refused p :
  acceptable p = false ->
  exists e, digest_secret p = Raise e
            /\ (e = PasswordSizeError \/ e = PasswordValueError).
Proof.
  unfold acceptable, digest_secret. intros Hbad.
  destruct (MAX_PASSWORD_SIZE <? String.length p)%nat; [eauto |].
  destruct (has_nul p); [eauto | discriminate].
Qed.

(** The hash of a password passlib accepts, and what it verifies. *)
Lemma get_password_hash_acceptable settings p :
  acceptable p = true ->
  get_password_hash settings p
  = Return (VHash settings (bcrypt_checksum settings (bcrypt_secret p))).
Proof.
  intros Hok. unfold get_password_hash, pwd_context_hash.
  rewrite (digest_secret_acceptable p Hok). reflexivity.
Qed.

Lemma verify_password_acceptable p settings checksum :
  acceptable p = true ->
  verify_password p (VHash settings checksum)
  = Return (String.eqb (bcrypt_checksum settings (bcrypt_secret p)) checksum).
Proof.
  intros Hok. unfold verify_password, pwd_context_verify.
  rewrite (digest_secret_acceptable p Hok). reflexivity.
Qed.

Lemma verify_hashed_acceptable settings p p2 :
  acceptable p = true -> acceptable p2 = true ->
  verify_hashed settings p p2
  = Return (String.eqb (bcrypt_checksum settings (bcrypt_secret p))
                       (bcrypt_checksum settings (bcrypt_secret p2))).
Proof.
  intros Hp Hp2. unfold verify_hashed.
  rewrite (get_password_hash_acceptable settings p2 Hp2).
  apply verify_password_acceptable, Hp.
Qed.

Lemma verify_password_same_secret settings p p2 :
  acceptable p = true -> acceptable p2 = true ->
  bcrypt_secret p = bcrypt_secret p2 ->
  verify_hashed settings p p2 = Return true.
Proof.
  intros Hp Hp2 Heq. rewrite (verify_hashed_acceptable settings p p2 Hp Hp2), Heq.
  rewrite String.eqb_refl. reflexivity.
Qed.

(** C4, as the code has it.  Of a password passlib accepts (at most 4096
    bytes, none of them NUL): it verifies against its own hash, and it
    verifies against the hash of another exactly when bcrypt gives the first
    72 bytes of both the same checksum under the hash's salt; so two
    passwords that share their first 72 bytes verify against each other's
    hashes.  A password passlib does not accept is neither hashed nor
    verified against a bcrypt hash: both calls raise. *)
Theorem verify_password_hash (settings : string) :
  (forall p, acceptable p = true -> verify_hashed settings p p = Return true)
  /\ (forall p p2,
        acceptable p = true -> acceptable p2 = true ->
        verify_hashed settings p p2
        = Return (String.eqb (bcrypt_checksum settings (bcrypt_secret p))
                             (bcrypt_checksum settings (bcrypt_secret p2))))
  /\ (forall p p2,
        acceptable p = true -> acceptable p2 = true ->
        bcrypt_secret p = bcrypt_secret p2 ->
        verify_hashed settings p p2 = Return true)
  /\ (forall p p2,
        acceptable p = true -> acceptable p2 = true ->
        bcrypt_checksum settings (bcrypt_secret p)
        <> bcrypt_checksum settings (bcrypt_secret p2) ->
        verify_hashed settings p p2 = Return false)
  /\ (forall p,
        acceptable p = false ->
        exists e,
          (e = PasswordSizeError \/ e = PasswordValueError)
          /\ get_password_hash settings p = Raise e
          /\ (forall p2, verify_hashed settings p2 p = Raise e)
          /\ (forall settings' checksum,
                verify_password p (VHash settings' checksum) = Raise e)).
Proof.
  split; [| split; [| split; [| split]]].
  - intros p Hp. apply verify_password_same_secret; auto.
  - apply verify_hashed_acceptable.
  - apply verify_password_same_secret.
  - intros p p2 Hp Hp2 Hne. rewrite (verify_hashed_acceptable settings p p2 Hp Hp2).
    f_equal. apply String.eqb_neq. exact Hne.
  - intros p Hbad. destruct (digest_secret_refused p Hbad) as (e & He & Hclass).
    exists e. split; [exact Hclass |].
    assert (Hhash : get_password_hash settings p = Raise e)
      by (unfold get_password_hash, pwd_context_hash; rewrite He; reflexivity).
    split; [exact Hhash |]. split.
    + intros p2. unfold verify_hashed. rewrite Hhash. reflexivity.
    + intros settings' checksum. unfold verify_password, pwd_context_verify.
      rewrite He. reflexivity.
Qed.

End Passwords.

Section PasswordsWitness.
Import AuthManager.

Lemma verify_password_hash_witness :
  acceptable "secret123" = true
  /\ (forall (P : Primitives) (settings : string),
        @verify_hashed P settings "secret123" "secret123" = Return true).
Proof.
  split; [reflexivity |].
  intros P settings.
  apply (proj1 (@verify_password_hash P settings)). reflexivity.
Defined.

(** The claim as stated fails twice, whatever bcrypt computes: two different
    passwords verify against each other's hashes, and a password with a NUL
    byte does not verify against its own hash, for it has none. *)
Lemma verify_password_counterexample :
  String.eqb password_x password_y = false
  /\ (forall (P : Primitives) (settings : string),
        @verify_hashed P settings password_x password_y = Return true)
  /\ (forall (P : Primitives) (settings : string),
        @verify_hashed P settings password_nul password_nul
        = Raise PasswordValueError).
Proof.
  split; [vm_compute; reflexivity |]. split.
  - intros P settings. apply verify_password_same_secret; vm_compute; reflexivity.
  - intros P settings. reflexivity.
Qed.

End PasswordsWitness.

(** ** Roles *)

Section Roles.
Import Auth.

Lemma role_checker_cases required (u : row) role w :
  u !! "role" = Some role ->
  role_checker required u w =
    if bool_decide (role = VStr (UserRole.value required))
       || bool_decide (role = VStr "admin")
    then (Return u, w) else (Raise forbidden, w).
Proof.
  intros Hrole. unfold role_checker, bind, subscript. rewrite Hrole.
  unfold ret at 1, py_eq.
  destruct (bool_decide (role = VStr (UserRole.value required)));
    destruct (bool_decide (role = VStr "admin")); reflexivity.
Qed.

(** C9: for an active user, the role check passes when the user's role is the
    required one and when it is 'admin', and fails with the 403 exactly when
    it is neither; an admin passes every requirement. *)
Theorem role_check_passes_role_or_admin (required : UserRole.t) (u : row)
    (role : value) (w : world) :
  u !! "status" = Some (VStr "active") ->
  u !! "role" = Some role ->
  let check := let* active := get_current_active_user u in
               role_checker required active in
  (role = VStr (UserRole.value required) \/ role = VStr "admin" ->
     check w = (Return u, w))
  /\ (check w = (Raise forbidden, w)
      <-> role <> VStr (UserRole.value required) /\ role <> VStr "admin")
  /\ (role = VStr "admin" ->
      forall other : UserRole.t,
        (let* active := get_current_active_user u in role_checker other active) w
        = (Return u, w)).
Proof.
  intros Hstatus Hrole check.
  assert (Hcheck : forall req,
    (let* active := get_current_active_user u in role_checker req active) w
    = role_checker req u w).
  { intros req. unfold bind at 1. unfold get_current_active_user, bind, subscript.
    rewrite Hstatus. reflexivity. }
  unfold check. rewrite Hcheck, (role_checker_cases required u role w Hrole).
  repeat split.
  - intros [-> | ->].
    + rewrite bool_decide_eq_true_2 by reflexivity. reflexivity.
    + rewrite (bool_decide_eq_true_2 (VStr "admin" = VStr "admin")) by reflexivity.
      rewrite orb_true_r. reflexivity.
  - destruct (bool_decide_reflect (role = VStr (UserRole.value required)));
      [discriminate | assumption].
  - destruct (bool_decide_reflect (role = VStr (UserRole.value required)));
      [discriminate |].
    destruct (bool_decide_reflect (role = VStr "admin")); [discriminate | assumption].
  - intros [Hn1 Hn2]. rewrite !bool_decide_eq_false_2 by assumption. reflexivity.
  - intros -> other. rewrite Hcheck, (role_checker_cases other u _ w Hrole).
    rewrite (bool_decide_eq_true_2 (VStr "admin" = VStr "admin")) by reflexivity.
    rewrite orb_true_r. reflexivity.
Qed.

End Roles.

Section RolesWitness.
Import Auth.

Lemma role_check_passes_role_or_admin_witness :
  demo_admin !! "status" = Some (VStr "active")
  /\ demo_admin !! "role" = Some (VStr "admin")
  /\ (let* active := get_current_active_user demo_admin in
      role_checker UserRole.MODERATOR active) (demo_world ∅)
     = (Return demo_admin, demo_world ∅).
Proof.
  split; [reflexivity |]. split; [reflexivity |].
  apply (proj1 (role_check_passes_role_or_admin UserRole.MODERATOR demo_admin
                  (VStr "admin") (demo_world ∅) eq_refl eq_refl)).
  right. reflexivity.
Defined.

End RolesWitness.

(** ** The handler's calls, run *)

Section Running.
Import AsyncMySQLHandler.

Lemma pool_ensured w : reachable w -> is_Some (pool (ensured w)).
Proof.
  unfold ensured. intros [[p Hp] | Hup].
  - rewrite Hp. cbn. rewrite Hp. eauto.
  - destruct (pool w) eqn:Hp; cbn; [rewrite Hp |]; eauto.
Qed.

Lemma settled_reachable w w' : settled w w' -> reachable w'.
Proof. intros [Hp _ _ _ _]. left. exact Hp. Qed.

Lemma clock_ensured w : clock (ensured w) = clock w.
Proof. unfold ensured. destruct (pool w); reflexivity. Qed.
Lemma entropy_ensured w : entropy (ensured w) = entropy w.
Proof. unfold ensured. destruct (pool w); reflexivity. Qed.
Lemma server_ensured w : server_up (ensured w) = server_up w.
Proof. unfold ensured. destruct (pool w); reflexivity. Qed.
Lemma trace_ensured w : trace (ensured w) = trace w.
Proof. unfold ensured. destruct (pool w); reflexivity. Qed.

Lemma fetch_one_run q params w :
  reachable w ->
  match meaning q params (store w) with
  | Some r =>
      exists w', fetch_one q params w = (Return (head (fetched r)), w')
                 /\ store w' = store w
                 /\ trace w' = trace w ++ [Executed (text q) params]
                 /\ settled w w'
  | None =>
      exists w', fetch_one q params w = (Raise OperationalError, w')
                 /\ store w' = store w
                 /\ trace w' = trace w ++ [Executed (text q) params]
                 /\ settled w w'
  end.
Proof.
  intros Hr. unfold fetch_one. rewrite (get_connection_run _ w Hr).
  unfold bind. destruct (meaning q params (store w)) as [r |] eqn:Hq.
  - rewrite (cursor_execute_ok q params (entered w) r)
      by (rewrite conn_view_entered; exact Hq).
    unfold ret. eexists. split; [reflexivity |]. cbn.
    rewrite store_ensured, trace_ensured. repeat split; cbn;
      auto using pool_ensured, clock_ensured, entropy_ensured, server_ensured.
  - rewrite (cursor_execute_rejected q params (entered w))
      by (rewrite conn_view_entered; exact Hq).
    eexists. split; [reflexivity |]. cbn.
    rewrite store_ensured, trace_ensured. repeat split; cbn;
      auto using pool_ensured, clock_ensured, entropy_ensured, server_ensured.
Qed.

Lemma execute_run q params w :
  reachable w ->
  match meaning q params (store w) with
  | Some r =>
      exists w', execute q params false w = (Return (rowcount r), w')
                 /\ store w' = after r
                 /\ trace w' = trace w ++ [Executed (text q) params]
                 /\ settled w w'
  | None =>
      exists w', execute q params false w = (Raise OperationalError, w')
                 /\ store w' = store w
                 /\ trace w' = trace w ++ [Executed (text q) params]
                 /\ settled w w'
  end.
Proof.
  intros Hr. unfold execute. rewrite (get_connection_run _ w Hr).
  unfold bind. destruct (meaning q params (store w)) as [r |] eqn:Hq.
  - rewrite (cursor_execute_ok q params (entered w) r)
      by (rewrite conn_view_entered; exact Hq).
    unfold ret, conn_commit, modify. eexists. split; [reflexivity |]. cbn.
    rewrite trace_ensured. repeat split; cbn;
      auto using pool_ensured, clock_ensured, entropy_ensured, server_ensured.
  - rewrite (cursor_execute_rejected q params (entered w))
      by (rewrite conn_view_entered; exact Hq).
    eexists. split; [reflexivity |]. cbn.
    rewrite store_ensured, trace_ensured. repeat split; cbn;
      auto using pool_ensured, clock_ensured, entropy_ensured, server_ensured.
Qed.

End Running.

(** ** Authentication *)

Section Authentication.
Context `{Primitives}.
Import AsyncMySQLHandler UserService.

(** [authenticate_user], run: the lookup, then the verification of the hash
    of the first row found, on the event loop. *)
Lemma authenticate_user_run username password w users :
  reachable w ->
  store w !! "users" = Some users ->
  exists w1,
    store w1 = store w
    /\ trace w1 = trace w ++
         [Executed (text SQL.active_user_by_username) [VStr username]]
    /\ authenticate_user username password w =
       match head (active_matches username users) with
       | Some u =>
           if row_truthy (head (active_matches username users)) then
             match u !! "password_hash" with
             | Some hashed =>
                 match AuthManager.verify_password password hashed with
                 | Return true =>
                     (Return (Some u),
                      log (OnEventLoop (VerifyPassword password hashed)) w1)
                 | Return false =>
                     (Return None,
                      log (OnEventLoop (VerifyPassword password hashed)) w1)
                 | Raise e =>
                     (Raise e,
                      log (OnEventLoop (VerifyPassword password hashed)) w1)
                 end
             | None => (Raise (KeyError "password_hash"), w1)
             end
           else (Return None, w1)
       | None => (Return None, w1)
       end.
Proof.
  intros Hr Husers.
  pose proof (fetch_one_run SQL.active_user_by_username [VStr username] w Hr) as Hfetch.
  cbn [meaning SQL.active_user_by_username] in Hfetch.
  unfold SQL.select_where in Hfetch. rewrite Husers in Hfetch.
  cbn [fetched] in Hfetch.
  change (List.filter _ (t_rows users)) with (active_matches username users) in Hfetch.
  destruct Hfetch as (w1 & Hrun & Hstore & Htrace & Hsettled).
  exists w1. split; [exact Hstore |]. split; [exact Htrace |].
  unfold authenticate_user, bind at 1. rewrite Hrun.
  destruct (head (active_matches username users)) as [u |]; [| reflexivity].
  destruct (row_truthy (Some u)); [| reflexivity].
  unfold bind, subscript. destruct (u !! "password_hash") as [h |]; [| reflexivity].
  unfold ret at 1, on_event_loop.
  destruct (AuthManager.verify_password password h) as [[|] |]; reflexivity.
Qed.

Lemma row_with_column_truthy (u : row) c v :
  u !! c = Some v -> row_truthy (Some u) = true.
Proof.
  intros Hc. unfold row_truthy. apply negb_true_iff, bool_decide_eq_false_2.
  intros ->. rewrite lookup_empty in Hc. discriminate.
Qed.

(** C10, as the code has it.  With the users table in reach,
    [authenticate_user] returns [None] when no active row matches the
    username, whatever the password.  When a row matches and holds a bcrypt
    hash, a password passlib accepts gives the row if it verifies against the
    hash and [None] if it does not, so that for such passwords an unknown
    user and a wrong password are not told apart; a password passlib does
    not accept (more than 4096 bytes, or a NUL byte) raises, which tells the
    known user from the unknown.  A row is returned only when it is the
    active match and the password verifies against its hash. *)
Theorem authenticate_user_result username password w users :
  reachable w ->
  store w !! "users" = Some users ->
  (active_matches username users = [] ->
     exists w', authenticate_user username password w = (Return None, w')
                /\ store w' = store w)
  /\ (forall u rest settings checksum,
        active_matches username users = u :: rest ->
        u !! "password_hash" = Some (VHash settings checksum) ->
        AuthManager.acceptable password = true ->
        exists w',
          authenticate_user username password w
          = (Return (if String.eqb (bcrypt_checksum settings
                                      (AuthManager.bcrypt_secret password)) checksum
                     then Some u else None), w')
          /\ store w' = store w)
  /\ (forall u rest settings checksum,
        active_matches username users = u :: rest ->
        u !! "password_hash" = Some (VHash settings checksum) ->
        AuthManager.acceptable password = false ->
        exists e w',
          authenticate_user username password w = (Raise e, w')
          /\ (e = PasswordSizeError \/ e = PasswordValueError)
          /\ store w' = store w)
  /\ (forall u w',
        authenticate_user username password w = (Return (Some u), w') ->
        exists rest, active_matches username users = u :: rest
                     /\ AuthManager.verify_password password
                          (default VNone (u !! "password_hash")) = Return true).
Proof.
  intros Hr Husers.
  destruct (authenticate_user_run username password w users Hr Husers)
    as (w1 & Hstore & _ & Hauth).
  rewrite Hauth. clear Hauth.
  split; [| split; [| split]].
  - intros Hempty. rewrite Hempty. cbn. eauto.
  - intros u rest settings checksum Hmatch Hhash Hok. rewrite Hmatch. cbn [head].
    rewrite (row_with_column_truthy u _ _ Hhash), Hhash.
    rewrite (verify_password_acceptable password settings checksum Hok).
    destruct (String.eqb _ checksum); eexists; split; reflexivity || exact Hstore.
  - intros u rest settings checksum Hmatch Hhash Hbad. rewrite Hmatch. cbn [head].
    rewrite (row_with_column_truthy u _ _ Hhash), Hhash.
    destruct (digest_secret_refused password Hbad) as (e & He & Hclass).
    unfold AuthManager.verify_password, AuthManager.pwd_context_verify.
    rewrite He. exists e. eexists. split; [reflexivity |]. split; [exact Hclass |].
    exact Hstore.
  - intros u w'. destruct (active_matches username users) as [| u0 rest]; cbn [head].
    + intros [=].
    + destruct (row_truthy (Some u0)); [| intros [=]].
      destruct (u0 !! "password_hash") as [h |] eqn:Hh; [| intros [=]].
      destruct (AuthManager.verify_password password h) as [[|] |] eqn:Hv;
        intros [=]; subst.
      exists rest. split; [reflexivity |]. rewrite Hh. exact Hv.
Qed.

End Authentication.

Section AuthenticationWitness.
Import UserService.

Lemma authenticate_user_result_witness :
  reachable (demo_world demo_db)
  /\ store (demo_world demo_db) !! "users" = Some demo_users_table
  /\ active_matches "bob" demo_users_table = [demo_bob]
  /\ AuthManager.acceptable "wrong" = true
  /\ exists w',
       @authenticate_user demo_primitives "bob" "wrong" (demo_world demo_db)
       = (Return None, w')
       /\ store w' = demo_db.
Proof.
  assert (Hr : reachable (demo_world demo_db)) by (right; reflexivity).
  split; [exact Hr |]. split; [reflexivity |]. split; [reflexivity |].
  split; [reflexivity |].
  destruct (@authenticate_user_result demo_primitives "bob" "wrong"
              (demo_world demo_db) _ Hr eq_refl) as (_ & Hfound & _).
  destruct (Hfound demo_bob [] "salt" "salt$secret123" eq_refl eq_refl eq_refl)
    as (w' & Hrun & Hstore).
  exists w'. split; [exact Hrun | exact Hstore].
Defined.

(** The claim as stated fails: with a NUL byte in the password,
    [authenticate_user] raises for the user the table holds and returns
    [None] for one it does not hold, whatever bcrypt computes. *)
Lemma authenticate_user_counterexample :
  active_matches "bob" demo_users_table = [demo_bob]
  /\ active_matches "nobody" demo_users_table = []
  /\ (forall P : Primitives,
        (@authenticate_user P "bob" password_nul (demo_world demo_db)).1
        = Raise PasswordValueError
        /\ (@authenticate_user P "nobody" password_nul (demo_world demo_db)).1
           = Return None).
Proof.
  split; [reflexivity |]. split; [reflexivity |].
  intros P. split; vm_compute; reflexivity.
Qed.

End AuthenticationWitness.

(** ** Partial updates *)

Section Updates.
Import AsyncMySQLHandler.

Lemma zip_keys_values (d : dict) : zip (dict_keys d) (dict_values d) = d.
Proof.
  unfold dict_keys, dict_values. induction d as [| [k v] d IH]; cbn; [| rewrite IH]; reflexivity.
Qed.

Lemma list_to_map_dict_get (d : dict) c :
  (list_to_map d : row) !! c = dict_get c d.
Proof.
  induction d as [| [k v] d IH]; cbn [list_to_map foldr dict_get].
  - apply lookup_empty.
  - change (list_to_map ((k, v) :: d) : row) with (<[k := v]> (list_to_map d : row)).
    destruct (String.eqb_spec c k) as [-> | Hne].
    + apply lookup_insert_eq.
    + rewrite lookup_insert_ne by (intros E; apply Hne; symmetry; exact E). exact IH.
Qed.

(** A row under [SET]: a named column takes its new value, every other
    column keeps the old one. *)
Lemma set_columns_lookup (fields : dict) (r : row) c :
  set_columns (dict_keys fields) (dict_values fields) r !! c
  = match dict_get c fields with
    | Some v => Some v
    | None => r !! c
    end.
Proof.
  unfold set_columns. rewrite zip_keys_values, lookup_union, list_to_map_dict_get.
  destruct (dict_get c fields), (r !! c); reflexivity.
Qed.

Lemma update_meaning_run tbl (fields : dict) where_ wparams (db : database) t :
  db !! tbl = Some t ->
  update_meaning tbl (dict_keys fields) where_ (update_params fields (Some wparams)) db
  = Some {| rowcount := Z.of_nat (length (List.filter (holds where_ wparams) (t_rows t)));
            fetched := []; lastrowid := 0;
            after := <[tbl := updated_rows fields where_ wparams t]> db |}.
Proof.
  intros Ht. unfold update_meaning, update_params, updated_rows. rewrite Ht. cbn [default].
  assert (Hlen : length (dict_keys fields) = length (dict_values fields))
    by (unfold dict_keys, dict_values; rewrite !length_map; reflexivity).
  rewrite decide_True by (rewrite length_app; lia).
  rewrite (take_app_length' (dict_values fields) wparams) by exact Hlen.
  rewrite (drop_app_length' (dict_values fields) wparams) by exact Hlen.
  reflexivity.
Qed.

Lemma update_run tbl (fields : dict) where_ wparams w t :
  reachable w ->
  store w !! tbl = Some t ->
  exists n w',
    update tbl fields where_ (Some wparams) w = (Return n, w')
    /\ store w' = <[tbl := updated_rows fields where_ wparams t]> (store w)
    /\ trace w' = trace w ++
         [Executed (update_sql tbl fields (where_text where_))
                   (update_params fields (Some wparams))]
    /\ settled w w'.
Proof.
  intros Hr Ht. unfold update.
  pose proof (execute_run
    {| text := update_sql tbl fields (where_text where_);
       meaning := update_meaning tbl (dict_keys fields) where_ |}
    (update_params fields (Some wparams)) w Hr) as Hrun.
  cbn [meaning text] in Hrun.
  rewrite (update_meaning_run tbl fields where_ wparams (store w) t Ht) in Hrun.
  cbn [rowcount after] in Hrun.
  destruct Hrun as (w' & Hrun & Hstore & Htrace & Hsettled).
  eauto 10.
Qed.

(** Row by row: a row the predicate misses is kept; a row it hits has each
    named column set and every other column kept. *)
Lemma updated_rows_frame (fields : dict) where_ wparams t i (r : row) :
  t_rows t !! i = Some r ->
  exists r' : row,
    t_rows (updated_rows fields where_ wparams t) !! i = Some r'
    /\ (holds where_ wparams r = false -> r' = r)
    /\ (holds where_ wparams r = true ->
        forall c, r' !! c = match dict_get c fields with
                            | Some v => Some v
                            | None => r !! c
                            end).
Proof.
  intros Hi. unfold updated_rows. cbn [t_rows].
  rewrite list_lookup_fmap, Hi. cbn.
  destruct (holds where_ wparams r); eexists; split; try reflexivity; split;
    try discriminate; intros _; [apply set_columns_lookup | reflexivity].
Qed.

End Updates.

Section PartialUpdates.
Import AsyncMySQLHandler.

Ltac by_column c :=
  try reflexivity;
  repeat match goal with
         | |- context [String.eqb c ?k] =>
             destruct (String.eqb_spec c k) as [-> | ?];
             cbn; try reflexivity; try congruence
         end.

Lemma user_fields_provided user_data c :
  dict_get c (UserService.update_fields user_data) = UserService.provided user_data c.
Proof.
  unfold UserService.update_fields, UserService.provided.
  destruct user_data as [[u |] [e |] [f |] [r |] [s |]]; cbn; by_column c.
Qed.

Lemma article_fields_provided article_data c :
  dict_get c (ArticleService.update_fields article_data)
  = ArticleService.provided article_data c.
Proof.
  unfold ArticleService.update_fields, ArticleService.provided.
  destruct article_data as [[u |] [e |] [f |] [r |] [s |]]; cbn; by_column c.
Qed.



Lemma table_after_update tbl (t' : table) (db : database) :
  (<[tbl := t']> db) !! tbl = Some t'.
Proof. apply lookup_insert_eq. Qed.

Lemma update_user_run user_id user_data w users :
  reachable w ->
  store w !! "users" = Some users ->
  UserService.update_fields user_data <> [] ->
  exists result w',
    UserService.update_user user_id user_data w = (Return result, w')
    /\ store w' =
         <["users" := updated_rows
                        (dict_set "updated_at" (VDatetime (clock w))
                                  (UserService.update_fields user_data))
                        SQL.id_equals [VInt user_id] users]> (store w).
Proof.
  intros Hr Husers Hfields. unfold UserService.update_user.
  destruct (UserService.update_fields user_data) as [| kv fields] eqn:Hf;
    [congruence |].
  unfold bind at 1, get. unfold bind at 1.
  destruct (update_run "users"
              (dict_set "updated_at" (VDatetime (clock w)) (kv :: fields))
              SQL.id_equals [VInt user_id] w users Hr Husers)
    as (n & w1 & Hrun & Hstore & _ & Hsettled).
  rewrite Hrun. unfold UserService.get_user_by_id.
  pose proof (fetch_one_run SQL.user_by_id [VInt user_id] w1
                (settled_reachable w w1 Hsettled)) as Hfetch.
  cbn [meaning SQL.user_by_id] in Hfetch. unfold SQL.select_where in Hfetch.
  rewrite Hstore, table_after_update in Hfetch.
  destruct Hfetch as (w2 & Hrun2 & Hstore2 & _).
  rewrite Hrun2. eexists _, w2. split; [reflexivity |].
  rewrite Hstore2. reflexivity.
Qed.

Lemma update_user_empty user_id user_data w :
  UserService.update_fields user_data = [] ->
  UserService.update_user user_id user_data w = (Raise no_fields, w).
Proof. intros Hf. unfold UserService.update_user. rewrite Hf. reflexivity. Qed.


Lemma update_article_checks article_id article_data user_id w
    (articles users : table) (a : row) rest :
  reachable w ->
  store w !! "articles" = Some articles ->
  store w !! "users" = Some users ->
  List.filter (has_id article_id) (t_rows articles) = a :: rest ->
  may_edit users a user_id ->
  exists w2,
    store w2 = store w /\ clock w2 = clock w /\ reachable w2
    /\ ArticleService.update_article article_id article_data user_id w
       = match ArticleService.update_fields article_data with
         | [] => (Raise no_fields, w2)
         | fields =>
             (AsyncMySQLHandler.update "articles"
                (dict_set "updated_at" (VDatetime (clock w2)) fields)
                SQL.id_equals (Some [VInt article_id]) ;;
              ArticleService.get_article_by_id article_id) w2
         end.
Proof.
  intros Hr Ha Hu Hfound Hmay. unfold ArticleService.update_article.
  pose proof (fetch_one_run SQL.article_by_id [VInt article_id] w Hr) as Hf1.
  cbn [meaning SQL.article_by_id] in Hf1. unfold SQL.select_where in Hf1.
  rewrite Ha in Hf1. cbn [fetched] in Hf1.
  change (List.filter _ (t_rows articles))
    with (List.filter (has_id article_id) (t_rows articles)) in Hf1.
  rewrite Hfound in Hf1. cbn [head] in Hf1.
  destruct Hf1 as (w1 & Hrun1 & Hstore1 & _ & Hsettled1).
  pose proof (fetch_one_run SQL.role_by_user_id [VInt user_id] w1
                (settled_reachable w w1 Hsettled1)) as Hf2.
  cbn [meaning SQL.role_by_user_id] in Hf2. unfold SQL.select_where in Hf2.
  rewrite Hstore1, Hu in Hf2. cbn [fetched] in Hf2.
  change (List.filter _ (t_rows users))
    with (List.filter (has_id user_id) (t_rows users)) in Hf2.
  destruct Hf2 as (w2 & Hrun2 & Hstore2 & _ & Hsettled2).
  exists w2.
  split; [congruence |].
  split; [rewrite (settled_clock _ _ Hsettled2); apply (settled_clock _ _ Hsettled1) |].
  split; [exact (settled_reachable w1 w2 Hsettled2) |].
  unfold bind at 1. rewrite Hrun1.
  assert (Hauthor : is_Some (a !! "author_id")) by (destruct Hmay as [-> | [? _]]; eauto).
  destruct Hauthor as [author Hauthor].
  assert (Htruthy : row_truthy (Some a) = true).
  { unfold row_truthy. apply negb_true_iff, bool_decide_eq_false_2.
    intros ->. rewrite lookup_empty in Hauthor. discriminate. }
  rewrite Htruthy. unfold bind at 1. rewrite Hrun2.
  unfold bind at 1. unfold subscript at 1. rewrite Hauthor. unfold ret at 1.
  assert (Hallowed :
    (if negb (py_eq author (VInt user_id))
     then match head (map (fun u : row =>
                             match u !! "role" with
                             | Some i => ({[ "role" := i ]} : row)
                             | None => ∅
                             end)
                          (List.filter (has_id user_id) (t_rows users))) with
          | Some u => let* role := subscript u "role" in
                      ret (negb (py_eq role (VStr "admin")))
          | None => raise TypeError
          end
     else ret false) w2 = (Return false, w2)).
  { destruct Hmay as [Hown | (_ & u & rest' & Hu1 & Hrole)].
    - assert (author = VInt user_id) as -> by congruence.
      unfold py_eq. rewrite bool_decide_eq_true_2 by reflexivity. reflexivity.
    - destruct (negb (py_eq author (VInt user_id))); [| reflexivity].
      rewrite Hu1. cbn [map head]. rewrite Hrole.
      unfold bind, subscript. rewrite lookup_singleton_eq. reflexivity. }
  unfold bind at 1. rewrite Hallowed.
  destruct (ArticleService.update_fields article_data) as [| kv fields];
    [reflexivity |].
  reflexivity.
Qed.




End PartialUpdates.

Section PartialUpdatesWitness.



(** A worked case: the model of a request body that names no field provides [tags]
    (the default of [ArticleUpdate.tags] is the empty list): [update_article]
    does not fail with the 400, and the stored tags are overwritten. *)
Lemma update_article_empty_body :
  ArticleService.update_fields (ArticleUpdate.of_body ∅) = [("tags", VJson [])]
  /\ demo_article !! "tags" = Some (VJson ["a"; "b"])
  /\ t_rows <$> (store (ArticleService.update_article 7 (ArticleUpdate.of_body ∅) 1
                          (demo_world demo_site)).2 !! "articles")
     = Some [ <["updated_at" := VDatetime 1000]>
                (<["tags" := VJson []]> demo_article) ].
Proof. vm_compute. repeat split. Qed.

End PartialUpdatesWitness.

(** ** Where the hashing runs *)

Create HintDb on_loop discriminated.

Section Traces.
Import AsyncMySQLHandler.
Context (allowed : event -> Prop).

Lemma adds_nothing {A} (m : M A) :
  (forall w, trace (m w).2 = trace w) -> adds allowed m.
Proof.
  intros Hm w. exists []. rewrite app_nil_r. split; [apply Hm | constructor].
Qed.

Lemma adds_ret {A} (a : A) : adds allowed (ret a).
Proof. apply adds_nothing. reflexivity. Qed.

Lemma adds_raise {A} e : adds allowed (@raise A e).
Proof. apply adds_nothing. reflexivity. Qed.

Lemma adds_lift {A} (r : outcome A) : adds allowed (lift r).
Proof. apply adds_nothing. reflexivity. Qed.

Lemma adds_get {A} (f : world -> A) : adds allowed (get f).
Proof. apply adds_nothing. reflexivity. Qed.

Lemma adds_modify f :
  (forall w, trace (f w) = trace w) -> adds allowed (modify f).
Proof. intros Hf. apply adds_nothing. exact Hf. Qed.

Lemma adds_bind {A B} (m : M A) (k : A -> M B) :
  adds allowed m -> (forall a, adds allowed (k a)) -> adds allowed (bind m k).
Proof.
  intros Hm Hk w. unfold bind. destruct (Hm w) as (evs & Ht & Hq).
  destruct (m w) as [[a | e] w1]; cbn in *.
  - destruct (Hk a w1) as (evs' & Ht' & Hq'). exists (evs ++ evs').
    rewrite Ht', Ht, app_assoc. split; [reflexivity | apply Forall_app_2; assumption].
  - exists evs. split; assumption.
Qed.

Lemma adds_try_except {A} (m : M A) (h : exn -> M A) :
  adds allowed m -> (forall e, adds allowed (h e)) -> adds allowed (try_except m h).
Proof.
  intros Hm Hh w. unfold try_except. destruct (Hm w) as (evs & Ht & Hq).
  destruct (m w) as [[a | e] w1]; cbn in *.
  - exists evs. split; assumption.
  - destruct (Hh e w1) as (evs' & Ht' & Hq'). exists (evs ++ evs').
    rewrite Ht', Ht, app_assoc. split; [reflexivity | apply Forall_app_2; assumption].
Qed.

Lemma adds_on_exit {A} (m : M A) cleanup :
  adds allowed m -> (forall w, trace (cleanup w) = trace w) ->
  adds allowed (on_exit m cleanup).
Proof.
  intros Hm Hc w. unfold on_exit. destruct (Hm w) as (evs & Ht & Hq).
  destruct (m w) as [r w1]; cbn in *. exists evs. rewrite Hc. split; assumption.
Qed.

Lemma adds_cursor_execute q params :
  allowed (Executed (text q) params) -> adds allowed (cursor_execute q params).
Proof.
  intros Hq w. unfold cursor_execute. exists [Executed (text q) params].
  destruct (meaning q params _); cbn; (split; [reflexivity | repeat constructor; exact Hq]).
Qed.

Lemma adds_on_event_loop {A} c (r : outcome A) :
  allowed (OnEventLoop c) -> adds allowed (on_event_loop c r).
Proof.
  intros Hc w. exists [OnEventLoop c]. split; [reflexivity | repeat constructor; exact Hc].
Qed.

Lemma adds_ensure_pool : adds allowed _ensure_pool.
Proof.
  apply adds_nothing. intros w.
  unfold _ensure_pool, bind, get, try_except, create_pool, modify, raise, ret.
  destruct (pool w); [reflexivity |]. destruct (server_up w); reflexivity.
Qed.

Lemma adds_get_connection {A} (body : M A) :
  adds allowed body -> adds allowed (get_connection body).
Proof.
  intros Hb. unfold get_connection.
  apply adds_bind; [apply adds_ensure_pool |]. intros _.
  apply adds_on_exit; [| reflexivity].
  apply adds_bind; [apply adds_modify; reflexivity |]. intros _.
  apply adds_try_except; [exact Hb |]. intros e.
  apply adds_bind; [apply adds_modify; reflexivity | intros _; apply adds_raise].
Qed.

Lemma adds_fetch_one q params :
  allowed (Executed (text q) params) -> adds allowed (fetch_one q params).
Proof.
  intros Hq. unfold fetch_one. apply adds_get_connection.
  apply adds_bind; [apply adds_cursor_execute, Hq | intros r; apply adds_ret].
Qed.

Lemma adds_execute q params :
  allowed (Executed (text q) params) -> adds allowed (execute q params false).
Proof.
  intros Hq. unfold execute. apply adds_get_connection.
  apply adds_bind; [apply adds_cursor_execute, Hq |]. intros r.
  apply adds_bind; [apply adds_modify; reflexivity | intros _; apply adds_ret].
Qed.

Lemma adds_insert tbl data return_id :
  allowed (Executed (insert_sql tbl data) (dict_values data)) ->
  adds allowed (insert tbl data return_id).
Proof.
  intros Hq. unfold insert. apply adds_get_connection.
  apply adds_bind; [apply adds_cursor_execute, Hq |]. intros r.
  apply adds_bind; [apply adds_modify; reflexivity |]. intros _.
  destruct return_id; apply adds_ret.
Qed.

End Traces.

#[local] Hint Resolve adds_ret adds_raise adds_lift adds_get adds_ensure_pool : on_loop.
#[local] Hint Extern 2 (adds _ (AsyncMySQLHandler.cursor_execute _ _)) =>
  apply adds_cursor_execute; reflexivity : on_loop.
#[local] Hint Extern 2 (adds _ (AsyncMySQLHandler.fetch_one _ _)) =>
  apply adds_fetch_one; reflexivity : on_loop.
#[local] Hint Extern 2 (adds _ (AsyncMySQLHandler.insert _ _ _)) =>
  apply adds_insert; reflexivity : on_loop.
#[local] Hint Extern 2 (adds _ (AsyncMySQLHandler.on_event_loop _ _)) =>
  apply adds_on_event_loop; reflexivity : on_loop.

Section Hashing.
Context `{Primitives}.
Import AsyncMySQLHandler UserService.

Lemma stays_authenticate_user username password :
  stays_on_loop (authenticate_user username password).
Proof.
  unfold stays_on_loop, authenticate_user. apply adds_bind; [auto with on_loop |].
  intros [u |]; [| auto with on_loop].
  destruct (row_truthy (Some u)); [| auto with on_loop].
  apply adds_bind; [unfold subscript; destruct (u !! _); auto with on_loop |].
  intros hashed. apply adds_bind; [auto with on_loop |].
  intros []; auto with on_loop.
Qed.

Lemma stays_create_user user_data : stays_on_loop (create_user user_data).
Proof.
  unfold stays_on_loop, create_user. apply adds_bind; [auto with on_loop |].
  intros existing. destruct (row_truthy existing); [auto with on_loop |].
  apply adds_bind; [auto with on_loop |]. intros settings.
  apply adds_bind; [auto with on_loop |]. intros password_hash.
  apply adds_bind; [auto with on_loop |]. intros now.
  apply adds_bind; auto with on_loop.
Qed.

Lemma create_user_hashes user_data w users :
  reachable w ->
  store w !! "users" = Some users ->
  taken (UserCreate.username user_data) (UserCreate.email user_data) users = [] ->
  exists evs,
    trace (create_user user_data w).2
    = trace w
      ++ Executed (text SQL.user_id_by_username_or_email)
           [VStr (UserCreate.username user_data); VStr (UserCreate.email user_data)]
      :: OnEventLoop (HashPassword (UserCreate.password user_data)) :: evs.
Proof.
  intros Hr Husers Hfree.
  pose proof (fetch_one_run SQL.user_id_by_username_or_email
                [VStr (UserCreate.username user_data);
                 VStr (UserCreate.email user_data)] w Hr) as Hfetch.
  cbn [meaning SQL.user_id_by_username_or_email] in Hfetch.
  unfold SQL.select_where in Hfetch. rewrite Husers in Hfetch.
  cbn [fetched] in Hfetch.
  change (List.filter _ (t_rows users))
    with (taken (UserCreate.username user_data) (UserCreate.email user_data) users)
    in Hfetch.
  rewrite Hfree in Hfetch. cbn [map head] in Hfetch.
  destruct Hfetch as (w1 & Hrun & _ & Htrace & _).
  unfold create_user, bind at 1. rewrite Hrun. cbn [row_truthy].
  unfold bind at 1, get. unfold bind at 1, on_event_loop.
  set (w2 := log _ w1).
  destruct (AuthManager.get_password_hash (entropy w1) (UserCreate.password user_data))
    as [password_hash | e].
  - match goal with
    | |- context [ (bind (fun w => (Return (clock w), w)) ?k) w2 ] =>
        assert (Hk : adds (fun e => in_pool e = false)
                          (bind (fun w => (Return (clock w), w)) k))
    end.
    { apply adds_bind; [apply adds_get |]. intros now.
      apply adds_bind; auto with on_loop. }
    destruct (Hk w2) as (evs & Hevs & _).
    exists evs. rewrite Hevs. unfold w2. cbn [trace log]. rewrite Htrace.
    rewrite <- !app_assoc. reflexivity.
  - exists []. unfold w2. cbn [snd trace log]. rewrite Htrace.
    rewrite <- !app_assoc. reflexivity.
Qed.

(** C8, as the code has it: the services compute and verify password hashes
    by plain calls, which run on the event loop; neither service hands
    anything to the thread pool.  [authenticate_user] verifies the hash of the
    row it finds there, [create_user] hashes the new password there.
    [run_in_thread] is the handler's call that runs its argument in the
    thread pool; the services do not make it. *)
Theorem hashing_runs_on_event_loop :
  (forall username password, stays_on_loop (authenticate_user username password))
  /\ (forall user_data, stays_on_loop (create_user user_data))
  /\ (forall username password w users u rest hashed,
        reachable w ->
        store w !! "users" = Some users ->
        active_matches username users = u :: rest ->
        u !! "password_hash" = Some hashed ->
        trace (authenticate_user username password w).2
        = trace w ++ [Executed (text SQL.active_user_by_username) [VStr username];
                      OnEventLoop (VerifyPassword password hashed)])
  /\ (forall user_data w users,
        reachable w ->
        store w !! "users" = Some users ->
        taken (UserCreate.username user_data) (UserCreate.email user_data) users = [] ->
        exists evs,
          trace (create_user user_data w).2
          = trace w
            ++ Executed (text SQL.user_id_by_username_or_email)
                 [VStr (UserCreate.username user_data);
                  VStr (UserCreate.email user_data)]
            :: OnEventLoop (HashPassword (UserCreate.password user_data)) :: evs)
  /\ (forall (c : cpu_call) (r : outcome bool) w,
        run_in_thread c r w = (r, log (InThreadPool c) w)).
Proof.
  split; [exact stays_authenticate_user |].
  split; [exact stays_create_user |].
  split; [| split; [exact create_user_hashes | reflexivity]].
  intros username password w users u rest hashed Hr Husers Hmatch Hhash.
  destruct (authenticate_user_run username password w users Hr Husers)
    as (w1 & _ & Htrace & Hauth).
  rewrite Hauth, Hmatch. cbn [head].
  rewrite (row_with_column_truthy u _ _ Hhash), Hhash.
  destruct (AuthManager.verify_password password hashed) as [[|] |];
    cbn [snd trace log]; rewrite Htrace, <- app_assoc; reflexivity.
Qed.

End Hashing.

Section HashingWitness.
Import UserService.

Lemma hashing_runs_on_event_loop_witness :
  reachable (demo_world demo_db)
  /\ store (demo_world demo_db) !! "users"
     = Some demo_users_table
  /\ active_matches "bob" demo_users_table
     = [demo_bob]
  /\ trace (@authenticate_user demo_primitives "bob" "secret123"
              (demo_world demo_db)).2
     = [Executed (text SQL.active_user_by_username) [VStr "bob"];
        OnEventLoop (VerifyPassword "secret123" (VHash "salt" "salt$secret123"))].
Proof.
  assert (Hr : reachable (demo_world demo_db)) by (right; reflexivity).
  split; [exact Hr |]. split; [reflexivity |]. split; [reflexivity |].
  exact (proj1 (proj2 (proj2 (@hashing_runs_on_event_loop demo_primitives)))
           "bob" "secret123" (demo_world demo_db) _ demo_bob [] _
           Hr eq_refl eq_refl eq_refl).
Defined.

(** The claim as stated fails: the hashing of a registration and the
    verification of a login are both in the trace as calls on the event
    loop. *)
Lemma hashing_offloaded_counterexample :
  hashing_offloaded
    (trace (@create_user demo_primitives demo_signup (demo_world demo_db)).2) = false
  /\ hashing_offloaded
       (trace (@authenticate_user demo_primitives "bob" "secret123"
                 (demo_world demo_db)).2) = false
  /\ List.filter on_loop
       (trace (@create_user demo_primitives demo_signup (demo_world demo_db)).2)
     = [OnEventLoop (HashPassword "secret123")]
  /\ List.filter in_pool
       (trace (@create_user demo_primitives demo_signup (demo_world demo_db)).2)
     = [].
Proof. vm_compute. repeat split. Qed.

End HashingWitness.

(** ** The pool and the singleton *)

Section Pool.
Import AsyncMySQLHandler.

Lemma ensure_pool_set w p : pool w = Some p -> _ensure_pool w = (Return tt, w).
Proof. intros Hp. unfold _ensure_pool, bind, get. rewrite Hp. reflexivity. Qed.

Lemma ensure_pool_created w :
  pool w = None -> server_up w = true ->
  _ensure_pool w
  = (Return tt, set_pool (Some (S (pools_created w))) (S (pools_created w)) w).
Proof.
  intros Hp Hup. rewrite (ensure_pool_reachable w (or_intror Hup)).
  unfold ensured. rewrite Hp. reflexivity.
Qed.

(** A coroutine that is not interrupted between its check and its assignment
    does what [_ensure_pool] does. *)
Lemma ensure_steps_alone w :
  run_schedule [0; 0]%nat [AtCheck] w
  = ([Finished (_ensure_pool w).1], (_ensure_pool w).2).
Proof.
  unfold _ensure_pool, bind, get, try_except, modify, raise.
  cbn [run_schedule lookup list_lookup ensure_step].
  destruct (pool w) eqn:Hp; cbn [ensure_step]; [reflexivity |].
  cbn. unfold create_pool. destruct (server_up w); reflexivity.
Qed.

Lemma new_is_singleton cls :
  _instance (__new__ cls).2 = Some (__new__ cls).1
  /\ (_instance cls = None -> _cleanup_registered (__new__ cls).2 = true)
  /\ __new__ (__new__ cls).2 = __new__ cls.
Proof.
  unfold __new__. destruct (_instance cls) as [i |] eqn:Hi; cbn.
  - rewrite Hi. split; [reflexivity |]. split; [discriminate | reflexivity].
  - auto.
Qed.

(** C5, as the code has it: the pool is made lazily by a single check of
    [self.pool].  A call that finds the pool set is a no-op; a call that
    finds none and cannot connect raises the error and leaves the handler as
    it was, so that a later call tries again; a call that finds none and can
    connect sets the pool it opened.  A coroutine that runs from the check to
    the assignment without another one in between does exactly this.  The
    double-checked, lock-guarded creation is that of the handler instance in
    [__new__], which returns the one instance on every later call. *)
Theorem ensure_pool_lazy :
  (forall w p, pool w = Some p -> _ensure_pool w = (Return tt, w))
  /\ (forall w p, pool w = Some p -> init_pool w = (Return tt, w))
  /\ (forall w, pool w = None -> server_up w = false ->
        _ensure_pool w = (Raise OperationalError, w))
  /\ (forall w, pool w = None -> server_up w = true ->
        exists w', _ensure_pool w = (Return tt, w')
                   /\ pool w' = Some (S (pools_created w))
                   /\ pools_created w' = S (pools_created w)
                   /\ store w' = store w
                   /\ _ensure_pool w' = (Return tt, w'))
  /\ (forall w, run_schedule [0; 0]%nat [AtCheck] w
                = ([Finished (_ensure_pool w).1], (_ensure_pool w).2))
  /\ (forall cls, _instance (__new__ cls).2 = Some (__new__ cls).1
                  /\ __new__ (__new__ cls).2 = __new__ cls).
Proof.
  split; [exact ensure_pool_set |].
  split; [exact ensure_pool_set |].
  split; [exact ensure_pool_unreachable |].
  split; [| split; [exact ensure_steps_alone |]].
  - intros w Hp Hup. eexists. split; [apply ensure_pool_created; assumption |].
    split; [reflexivity |]. split; [reflexivity |]. split; [reflexivity |].
    apply (ensure_pool_set _ (S (pools_created w))). reflexivity.
  - intros cls. destruct (new_is_singleton cls) as (H1 & _ & H3). auto.
Qed.

End Pool.

Section PoolWitness.
Import AsyncMySQLHandler.

Lemma ensure_pool_lazy_witness :
  pool demo_down = None /\ server_up demo_down = false
  /\ _ensure_pool demo_down = (Raise OperationalError, demo_down).
Proof.
  split; [reflexivity |]. split; [reflexivity |].
  exact (proj1 (proj2 (proj2 ensure_pool_lazy)) demo_down eq_refl eq_refl).
Defined.

(** The claim as stated fails: two coroutines reach [_ensure_pool] before the
    pool is set, each passes the check before the other assigns, and each
    opens a pool; the second assignment replaces the pool the first set. *)
Lemma ensure_pool_once_counterexample :
  (run_schedule [0; 1; 0]%nat [AtCheck; AtCheck] (demo_world ∅)).1
  = [Finished (Return tt); AtAwait]
  /\ pool (run_schedule [0; 1; 0]%nat [AtCheck; AtCheck] (demo_world ∅)).2 = Some 1%nat
  /\ (run_schedule [0; 1; 0; 1]%nat [AtCheck; AtCheck] (demo_world ∅)).1
     = [Finished (Return tt); Finished (Return tt)]
  /\ pool (run_schedule [0; 1; 0; 1]%nat [AtCheck; AtCheck] (demo_world ∅)).2
     = Some 2%nat
  /\ pools_created (run_schedule [0; 1; 0; 1]%nat [AtCheck; AtCheck] (demo_world ∅)).2
     = 2%nat.
Proof. vm_compute. repeat split. Qed.

End PoolWitness.

(** ** What reaches the text of a statement *)

Section Binding.
Import AsyncMySQLHandler.
Local Open Scope Z_scope.

Lemma numeric_uint d :
  forallb numeric (String.list_ascii_of_string (NilEmpty.string_of_uint d)) = true.
Proof. induction d; cbn; try reflexivity; exact IHd. Qed.

Lemma numeric_str_of_int n :
  forallb numeric (String.list_ascii_of_string (str_of_int n)) = true.
Proof.
  unfold str_of_int, NilZero.string_of_int, NilZero.string_of_uint.
  destruct (Z.to_int n) as [d | d].
  - destruct d; try reflexivity; apply (numeric_uint (_ d)).
  - cbn. destruct d; try reflexivity; apply (numeric_uint (_ d)).
Qed.

Lemma adds_fetch_paginated q page_ page_size_ params :
  adds (fun e =>
          e = Executed ("SELECT COUNT(*) as total FROM (" ++ text q ++ ") as count_table")
                       params
          \/ e = Executed (text q ++ " LIMIT " ++ str_of_int page_size_
                             ++ " OFFSET " ++ str_of_int ((page_ - 1) * page_size_))
                          params)
       (fetch_paginated q page_ page_size_ params).
Proof.
  unfold fetch_paginated. apply adds_get_connection.
  apply adds_bind; [apply adds_cursor_execute; left; reflexivity |]. intros c.
  apply adds_bind.
  { apply adds_nothing. intros w. unfold total_of.
    destruct (head (fetched c)) as [r |]; [| reflexivity].
    case_decide; [reflexivity |]. destruct (r !! "total") as [[] |]; reflexivity. }
  intros total_. apply adds_bind; [apply adds_cursor_execute; right; reflexivity |].
  intros d. apply adds_bind; [| intros pages; apply adds_ret].
  apply adds_nothing. intros w. unfold floordiv. destruct (_ =? 0); reflexivity.
Qed.

Lemma get_users_unfolded listing page_ page_size_ search :
  UserService.get_users listing page_ page_size_ search
  = fetch_paginated {| text := UserService.users_query (search_where search);
                       meaning := listing |}
      page_ page_size_ (search_params search).
Proof.
  unfold UserService.get_users, search_where, search_params.
  destruct (truthy (opt_str search)); reflexivity.
Qed.

(** C6, as the code has it: the values of a statement travel as bound
    parameters.  The text [insert], [update] and [delete] send is made of the
    table name, the column names and the caller's predicate text, and is the
    same whatever the values are; [fetch_paginated] sends the base text
    wrapped in the count and followed by the window, whose two numbers are
    written into the text from the page and the page size of the call, in
    digits and sign only; [get_users] passes the page and page size of the
    request on to it, and its search term reaches the server in the bound
    parameters alone. *)
Theorem values_are_bound :
  (forall tbl data return_id,
     adds (eq (Executed (insert_sql tbl data) (dict_values data)))
          (insert tbl data return_id))
  /\ (forall tbl data data',
        dict_keys data = dict_keys data' -> insert_sql tbl data = insert_sql tbl data')
  /\ (forall tbl data where_ where_params,
        adds (eq (Executed (update_sql tbl data (where_text where_))
                           (dict_values data ++ default [] where_params)))
             (update tbl data where_ where_params))
  /\ (forall tbl data data' where_,
        dict_keys data = dict_keys data' ->
        update_sql tbl data where_ = update_sql tbl data' where_)
  /\ (forall tbl where_ where_params,
        adds (eq (Executed (delete_sql tbl (where_text where_))
                           (default [] where_params)))
             (delete tbl where_ where_params))
  /\ (forall q page_ page_size_ params,
        adds (fun e =>
                e = Executed ("SELECT COUNT(*) as total FROM (" ++ text q
                                ++ ") as count_table") params
                \/ e = Executed (text q ++ " LIMIT " ++ str_of_int page_size_
                                   ++ " OFFSET "
                                   ++ str_of_int ((page_ - 1) * page_size_)) params)
             (fetch_paginated q page_ page_size_ params))
  /\ (forall n, forallb numeric (String.list_ascii_of_string (str_of_int n)) = true)
  /\ (forall listing page_ page_size_ search,
        adds (fun e =>
                e = Executed ("SELECT COUNT(*) as total FROM ("
                                ++ UserService.users_query (search_where search)
                                ++ ") as count_table") (search_params search)
                \/ e = Executed (UserService.users_query (search_where search)
                                   ++ " LIMIT " ++ str_of_int page_size_
                                   ++ " OFFSET "
                                   ++ str_of_int ((page_ - 1) * page_size_))
                                (search_params search))
             (UserService.get_users listing page_ page_size_ search))
  /\ (forall search search',
        truthy (opt_str search) = truthy (opt_str search') ->
        search_where search = search_where search').
Proof.
  split; [intros; apply adds_insert; reflexivity |].
  split.
  { intros tbl data data' Hk. unfold insert_sql.
    assert (Hlen : length data = length data').
    { apply (f_equal length) in Hk. unfold dict_keys in Hk.
      rewrite !length_map in Hk. exact Hk. }
    rewrite Hk, Hlen. reflexivity. }
  split; [intros; unfold update; apply adds_execute; reflexivity |].
  split; [intros tbl data data' where_ Hk; unfold update_sql; rewrite Hk; reflexivity |].
  split; [intros; unfold delete; apply adds_execute; reflexivity |].
  split; [exact adds_fetch_paginated |].
  split; [exact numeric_str_of_int |].
  split.
  - intros listing page_ page_size_ search. rewrite get_users_unfolded.
    apply (adds_fetch_paginated
             {| text := UserService.users_query (search_where search);
                meaning := listing |}).
  - intros search search' Ht. unfold search_where. rewrite Ht. reflexivity.
Qed.

End Binding.

Section BindingWitness.
Import AsyncMySQLHandler.

Lemma values_are_bound_witness :
  dict_keys [("username", VStr "ann")]
  = dict_keys [("username", VStr "x'); DROP TABLE users; --")]
  /\ insert_sql "users" [("username", VStr "ann")]
     = insert_sql "users" [("username", VStr "x'); DROP TABLE users; --")]
  /\ insert_sql "users" [("username", VStr "ann")]
     = "INSERT INTO users (username) VALUES (%s)".
Proof.
  split; [reflexivity |]. split; [| reflexivity].
  exact (proj1 (proj2 values_are_bound) "users"
           [("username", VStr "ann")]
           [("username", VStr "x'); DROP TABLE users; --")] eq_refl).
Defined.

(** The claim as stated fails: the page of a request, which the user sends,
    is written into the text of the statement. *)
Lemma sql_text_counterexample :
  sent_sql (trace (UserService.get_users (meaning demo_listing) 1 10 None
                     (demo_world ∅)).2)
  = [ ("SELECT COUNT(*) as total FROM (" ++ UserService.users_query "WHERE 1=1"
         ++ ") as count_table")%string;
      (UserService.users_query "WHERE 1=1" ++ " LIMIT 10 OFFSET 0")%string ]
  /\ sent_sql (trace (UserService.get_users (meaning demo_listing) 2 10 None
                        (demo_world ∅)).2)
     = [ ("SELECT COUNT(*) as total FROM (" ++ UserService.users_query "WHERE 1=1"
            ++ ") as count_table")%string;
         (UserService.users_query "WHERE 1=1" ++ " LIMIT 10 OFFSET 10")%string ]
  /\ bool_decide
       (sent_sql (trace (UserService.get_users (meaning demo_listing) 1 10 None
                           (demo_world ∅)).2)
        = sent_sql (trace (UserService.get_users (meaning demo_listing) 2 10 None
                             (demo_world ∅)).2)) = false.
Proof. vm_compute. repeat split. Qed.

End BindingWitness.

(** * More of the code *)

(** ** The transaction flag *)

Section Modes.
Import AsyncMySQLHandler.

Lemma set_store_same w : set_store (store w) w = w.
Proof. destruct w; reflexivity. Qed.

Lemma started_is_entered w : set_store (store w) (entered w) = entered w.
Proof. rewrite <- (store_entered w) at 1. apply set_store_same. Qed.

Lemma reachable_or_not w :
  reachable w \/ (pool w = None /\ server_up w = false).
Proof.
  unfold reachable. destruct (pool w); [left; left; eauto |].
  destruct (server_up w); auto.
Qed.

(** Inside [get_connection], a body whose last step is the commit does what
    [transaction] does with the body without it. *)
Lemma transaction_is_commit_last {A} (body : M A) w :
  transaction body w
  = get_connection (let* a := body in conn_commit ;; ret a) w.
Proof.
  destruct (reachable_or_not w) as [Hr | [Hp Hup]].
  - rewrite (transaction_run body w Hr), (get_connection_run _ w Hr).
    rewrite started_is_entered.
    unfold bind, conn_commit, modify, ret.
    destruct (body (entered w)) as [[a | e] w1]; reflexivity.
  - unfold transaction. rewrite !(get_connection_unreachable _ w Hp Hup). reflexivity.
Qed.

Lemma get_connection_ext {A} (b1 b2 : M A) w :
  (forall w0, b1 w0 = b2 w0) -> get_connection b1 w = get_connection b2 w.
Proof.
  intros Hb. destruct (reachable_or_not w) as [Hr | [Hp Hup]].
  - rewrite !(get_connection_run _ w Hr), Hb. reflexivity.
  - rewrite !(get_connection_unreachable _ w Hp Hup). reflexivity.
Qed.

(** X2: [use_transaction] changes nothing that can be observed: [execute] and
    [execute_many] return the same, and leave the same world, with the flag
    set and without it. *)
Theorem transaction_flag_is_immaterial :
  (forall q params w, execute q params true w = execute q params false w)
  /\ (forall q params_list w,
        execute_many q params_list true w = execute_many q params_list false w).
Proof.
  split.
  - intros q params w. unfold execute. rewrite transaction_is_commit_last.
    apply get_connection_ext. intros w0. unfold bind.
    destruct (cursor_execute q params w0) as [[r | e] w1]; reflexivity.
  - intros q params_list w. unfold execute_many. rewrite transaction_is_commit_last.
    apply get_connection_ext. intros w0. reflexivity.
Qed.

End Modes.

(** ** What a read leaves *)

Section Keeping.
Import AsyncMySQLHandler.
Context {B : Type} (f : world -> B).

Lemma keeps_nothing_done {A} (m : M A) : (forall w, (m w).2 = w) -> keeps f m.
Proof. intros Hm w. rewrite Hm. reflexivity. Qed.

Lemma keeps_ret {A} (a : A) : keeps f (ret a).
Proof. intros w. reflexivity. Qed.

Lemma keeps_raise {A} e : keeps f (@raise A e).
Proof. intros w. reflexivity. Qed.

Lemma keeps_lift {A} (r : outcome A) : keeps f (lift r).
Proof. intros w. reflexivity. Qed.

Lemma keeps_get {A} (g : world -> A) : keeps f (get g).
Proof. intros w. reflexivity. Qed.

Lemma keeps_modify g : (forall w, f (g w) = f w) -> keeps f (modify g).
Proof. intros Hg w. apply Hg. Qed.

Lemma keeps_bind {A C} (m : M A) (k : A -> M C) :
  keeps f m -> (forall a, keeps f (k a)) -> keeps f (bind m k).
Proof.
  intros Hm Hk w. unfold bind. specialize (Hm w).
  destruct (m w) as [[a | e] w1]; cbn in *; [rewrite Hk |]; exact Hm.
Qed.

Lemma keeps_try_except {A} (m : M A) (h : exn -> M A) :
  keeps f m -> (forall e, keeps f (h e)) -> keeps f (try_except m h).
Proof.
  intros Hm Hh w. unfold try_except. specialize (Hm w).
  destruct (m w) as [[a | e] w1]; cbn in *; [| rewrite Hh]; exact Hm.
Qed.

Lemma keeps_on_exit {A} (m : M A) cleanup :
  keeps f m -> (forall w, f (cleanup w) = f w) -> keeps f (on_exit m cleanup).
Proof.
  intros Hm Hc w. unfold on_exit. specialize (Hm w).
  destruct (m w) as [r w1]; cbn in *. rewrite Hc. exact Hm.
Qed.

End Keeping.

Section KeepingStore.
Import AsyncMySQLHandler.

Lemma keeps_store_cursor_execute q params : keeps store (cursor_execute q params).
Proof.
  intros w. unfold cursor_execute. destruct (meaning q params _); reflexivity.
Qed.

Lemma keeps_store_ensure_pool : keeps store _ensure_pool.
Proof.
  intros w. unfold _ensure_pool, bind, get, try_except, create_pool, modify, raise, ret.
  destruct (pool w); [reflexivity |]. destruct (server_up w); reflexivity.
Qed.

Lemma keeps_store_get_connection {A} (body : M A) :
  keeps store body -> keeps store (get_connection body).
Proof.
  intros Hb. unfold get_connection.
  apply keeps_bind; [apply keeps_store_ensure_pool |]. intros _.
  apply keeps_on_exit; [| reflexivity].
  apply keeps_bind; [apply keeps_modify; reflexivity |]. intros _.
  apply keeps_try_except; [exact Hb |]. intros e.
  apply keeps_bind; [apply keeps_modify; reflexivity | intros _; apply keeps_raise].
Qed.

Lemma keeps_store_fetch_one q params : keeps store (fetch_one q params).
Proof.
  unfold fetch_one. apply keeps_store_get_connection.
  apply keeps_bind; [apply keeps_store_cursor_execute | intros r; apply keeps_ret].
Qed.

Lemma keeps_store_fetch_all q params : keeps store (fetch_all q params).
Proof.
  unfold fetch_all. apply keeps_store_get_connection.
  apply keeps_bind; [apply keeps_store_cursor_execute | intros r; apply keeps_ret].
Qed.

Lemma keeps_store_fetch_paginated q page_ page_size_ params :
  keeps store (fetch_paginated q page_ page_size_ params).
Proof.
  unfold fetch_paginated. apply keeps_store_get_connection.
  apply keeps_bind; [apply keeps_store_cursor_execute |]. intros c.
  apply keeps_bind.
  { apply keeps_nothing_done. intros w. unfold total_of.
    destruct (head (fetched c)) as [r |]; [| reflexivity].
    case_decide; [reflexivity |]. destruct (r !! "total") as [[] |]; reflexivity. }
  intros total_. apply keeps_bind; [apply keeps_store_cursor_execute |].
  intros d. apply keeps_bind; [| intros pages; apply keeps_ret].
  apply keeps_nothing_done. intros w. unfold floordiv.
  destruct (_ =? 0)%Z; reflexivity.
Qed.

Lemma keeps_subscript {B} (f : world -> B) (r : row) k : keeps f (subscript r k).
Proof. unfold subscript. destruct (r !! k); [apply keeps_ret | apply keeps_raise]. Qed.

Lemma keeps_store_get_article_by_id article_id :
  keeps store (ArticleService.get_article_by_id article_id).
Proof.
  unfold ArticleService.get_article_by_id.
  apply keeps_bind; [apply keeps_store_fetch_one |]. intros [a |]; [| apply keeps_ret].
  destruct (_ && _); [| apply keeps_ret].
  apply keeps_bind; [apply keeps_lift | intros tags; apply keeps_ret].
Qed.

(** X3: a read commits nothing.  Whatever statement [fetch_one], [fetch_all]
    and [fetch_paginated] are given, also one that writes, and whether it
    succeeds or raises, the committed data are afterwards what they were; so
    are they after the services' lookups. *)
Theorem reads_never_commit :
  (forall q params, keeps store (fetch_one q params))
  /\ (forall q params, keeps store (fetch_all q params))
  /\ (forall q page_ page_size_ params,
        keeps store (fetch_paginated q page_ page_size_ params))
  /\ (forall listing page_ page_size_ search,
        keeps store (UserService.get_users listing page_ page_size_ search))
  /\ (forall user_id, keeps store (UserService.get_user_by_id user_id))
  /\ (forall article_id, keeps store (ArticleService.get_article_by_id article_id)).
Proof.
  split; [exact keeps_store_fetch_one |].
  split; [exact keeps_store_fetch_all |].
  split; [exact keeps_store_fetch_paginated |].
  split; [| split; [intros; apply keeps_store_fetch_one
                   | exact keeps_store_get_article_by_id]].
  intros listing page_ page_size_ search. rewrite get_users_unfolded.
  apply keeps_store_fetch_paginated.
Qed.

End KeepingStore.

Section KeepingStoreAuth.
Context `{Primitives}.
Import AsyncMySQLHandler.

Lemma keeps_store_authenticate_user username password :
  keeps store (UserService.authenticate_user username password).
Proof.
  unfold UserService.authenticate_user.
  apply keeps_bind; [apply keeps_store_fetch_one |]. intros [u |]; [| apply keeps_ret].
  destruct (row_truthy (Some u)); [| apply keeps_ret].
  apply keeps_bind; [apply keeps_subscript |]. intros hashed.
  apply keeps_bind; [intros w; reflexivity |]. intros []; apply keeps_ret.
Qed.

Lemma keeps_store_get_current_user tok : keeps store (Auth.get_current_user tok).
Proof.
  unfold Auth.get_current_user.
  apply keeps_bind; [apply keeps_get |]. intros utcnow.
  apply keeps_bind; [apply keeps_lift |]. intros token_data.
  apply keeps_bind; [apply keeps_store_fetch_one |].
  intros [u |]; [apply keeps_ret | apply keeps_raise].
Qed.

Lemma keeps_store_require_role required tok :
  keeps store (Auth.require_role required tok).
Proof.
  unfold Auth.require_role.
  apply keeps_bind; [apply keeps_store_get_current_user |]. intros user.
  apply keeps_bind.
  { unfold Auth.get_current_active_user.
    apply keeps_bind; [apply keeps_subscript |]. intros status.
    destruct (negb _); [apply keeps_raise | apply keeps_ret]. }
  intros active. unfold Auth.role_checker.
  apply keeps_bind; [apply keeps_subscript |]. intros role.
  destruct (_ && _); [apply keeps_raise | apply keeps_ret].
Qed.

Lemma keeps_store_login username password :
  keeps store (UserApi.login_for_access_token username password).
Proof.
  unfold UserApi.login_for_access_token.
  apply keeps_bind; [apply keeps_store_authenticate_user |].
  intros [u |]; [| apply keeps_raise].
  destruct (row_truthy (Some u)); [| apply keeps_raise].
  apply keeps_bind; [apply keeps_subscript |]. intros name.
  apply keeps_bind; [apply keeps_get | intros utcnow; apply keeps_ret].
Qed.

(** X4: authentication and authorization write nothing: after
    [authenticate_user], a login, [get_current_user] and a role check, passed
    or failed, the committed data are what they were. *)
Theorem checks_never_write :
  (forall username password,
     keeps store (UserService.authenticate_user username password))
  /\ (forall username password,
        keeps store (UserApi.login_for_access_token username password))
  /\ (forall tok, keeps store (Auth.get_current_user tok))
  /\ (forall required tok, keeps store (Auth.require_role required tok)).
Proof.
  split; [exact keeps_store_authenticate_user |].
  split; [exact keeps_store_login |].
  split; [exact keeps_store_get_current_user | exact keeps_store_require_role].
Qed.

End KeepingStoreAuth.

(** ** Pagination out of bounds *)

Section PaginationBounds.
Import AsyncMySQLHandler.
Local Open Scope Z_scope.

Lemma fetch_paginated_after_count q params w page_ page_size_ r :
  reachable w ->
  meaning q params (store w) = Some r ->
  after r = store w ->
  exists w1,
    conn_view w1 = store w /\ store w1 = store w
    /\ trace w1 = trace w ++ [Executed (text (count_sql q)) params]
    /\ fetch_paginated q page_ page_size_ params w =
       match (let* d := cursor_execute
                          (paginated_sql q page_size_ ((page_ - 1) * page_size_))
                          params in
              let* pages := floordiv (Z.of_nat (length (fetched r)) + page_size_ - 1)
                                     page_size_ in
              ret {| items := fetched d; total := Z.of_nat (length (fetched r));
                     page := page_; page_size := page_size_;
                     total_pages := pages |}) w1 with
       | (Return a, w2) => (Return a, release w2)
       | (Raise e, w2) => (Raise e, release (set_session (Some (store w2)) w2))
       end.
Proof.
  intros Hr Hq Hafter. unfold fetch_paginated. cbv zeta.
  rewrite (get_connection_run _ w Hr). unfold bind at 1.
  rewrite (cursor_execute_ok (count_sql q) params (entered w)
             {| rowcount := 1;
                fetched := [ {[ "total" := VInt (Z.of_nat (length (fetched r))) ]} ];
                lastrowid := lastrowid r; after := after r |})
    by (rewrite conn_view_entered; cbn [meaning count_sql]; rewrite Hq; reflexivity).
  cbn [fetched head after]. unfold bind at 1. rewrite total_of_count.
  eexists. split; [| split; [| split; [| reflexivity]]].
  - unfold conn_view. cbn. exact Hafter.
  - cbn. apply store_ensured.
  - cbn [trace set_session log]. rewrite trace_entered. reflexivity.
Qed.

(** X5: outside its bounds [fetch_paginated] raises and returns no envelope.
    With a page size of 0 both statements run and the division for the page
    count raises [ZeroDivisionError]; with a negative page size, or a page
    below 1, the window is negative: the count runs, the server rejects the
    second statement and the error is raised.  In both cases the two
    statements are what was sent, and the committed data stay as they
    were. *)
Theorem fetch_paginated_out_of_bounds q params w r :
  reachable w ->
  meaning q params (store w) = Some r ->
  after r = store w ->
  (forall page_,
     exists w', fetch_paginated q page_ 0 params w = (Raise ZeroDivisionError, w')
                /\ store w' = store w
                /\ trace w' = trace w ++
                     [Executed (text (count_sql q)) params;
                      Executed (text (paginated_sql q 0 ((page_ - 1) * 0))) params])
  /\ (forall page_ page_size_,
        page_size_ < 0 \/ (1 <= page_size_ /\ page_ < 1) ->
        exists w', fetch_paginated q page_ page_size_ params w
                   = (Raise OperationalError, w')
                   /\ store w' = store w
                   /\ trace w' = trace w ++
                        [Executed (text (count_sql q)) params;
                         Executed (text (paginated_sql q page_size_
                                           ((page_ - 1) * page_size_))) params]).
Proof.
  intros Hr Hq Hafter. split.
  - intros page_.
    destruct (fetch_paginated_after_count q params w page_ 0 r Hr Hq Hafter)
      as (w1 & Hview & Hstore & Htrace & ->).
    unfold bind at 1.
    rewrite (cursor_execute_ok (paginated_sql q 0 ((page_ - 1) * 0)) params w1
               {| rowcount := 0; fetched := []; lastrowid := lastrowid r;
                  after := after r |}).
    2:{ rewrite Hview. cbn [meaning paginated_sql]. rewrite Hq.
        replace ((page_ - 1) * 0) with 0 by lia. reflexivity. }
    unfold bind, floordiv, raise. cbn.
    eexists. split; [reflexivity |]. split; [exact Hstore |].
    cbn. rewrite Htrace, <- app_assoc. reflexivity.
  - intros page_ page_size_ Hbad.
    destruct (fetch_paginated_after_count q params w page_ page_size_ r Hr Hq Hafter)
      as (w1 & Hview & Hstore & Htrace & ->).
    unfold bind at 1.
    rewrite (cursor_execute_rejected
               (paginated_sql q page_size_ ((page_ - 1) * page_size_)) params w1).
    2:{ rewrite Hview. cbn [meaning paginated_sql]. rewrite Hq. unfold window.
        destruct (Z.ltb_spec page_size_ 0); [reflexivity |].
        destruct (Z.ltb_spec ((page_ - 1) * page_size_) 0); [reflexivity | nia]. }
    eexists. split; [reflexivity |]. split; [exact Hstore |].
    cbn. rewrite Htrace, <- app_assoc. reflexivity.
Qed.

End PaginationBounds.

Section PaginationBoundsWitness.
Import AsyncMySQLHandler.

Lemma fetch_paginated_out_of_bounds_witness :
  reachable (demo_world ∅)
  /\ exists w',
       fetch_paginated demo_listing 3 0 [] (demo_world ∅)
       = (Raise ZeroDivisionError, w')
       /\ store w' = ∅
       /\ trace w'
          = [Executed "SELECT COUNT(*) as total FROM (SELECT id FROM users) as count_table" [];
             Executed "SELECT id FROM users LIMIT 0 OFFSET 0" []].
Proof.
  assert (Hr : reachable (demo_world ∅)) by (right; reflexivity).
  split; [exact Hr |].
  exact (proj1 (fetch_paginated_out_of_bounds demo_listing [] (demo_world ∅)
                  {| rowcount := 3; fetched := demo_rows; lastrowid := 0; after := ∅ |}
                  Hr eq_refl eq_refl) 3%Z).
Defined.

End PaginationBoundsWitness.

(** ** Registration *)

Section Inserting.
Import AsyncMySQLHandler.

Lemma list_to_map_stored (d : dict) c :
  (list_to_map (prod_map id stored_value <$> d) : row) !! c
  = stored_value <$> dict_get c d.
Proof.
  induction d as [| [k v] d IH]; cbn [fmap list_fmap list_to_map foldr dict_get].
  - apply lookup_empty.
  - cbn [prod_map fst snd id].
    change (list_to_map ((k, stored_value v) :: (prod_map id stored_value <$> d)) : row)
      with (<[k := stored_value v]>
              (list_to_map (prod_map id stored_value <$> d) : row)).
    destruct (String.eqb_spec c k) as [-> | Hne].
    + rewrite lookup_insert_eq. reflexivity.
    + rewrite lookup_insert_ne by (intros E; apply Hne; symmetry; exact E). exact IH.
Qed.

(** The columns of an inserted row whose fields name no key: the key the
    table gives, the bound values as the server stores them, and the
    table's defaults for the rest. *)
Lemma inserted_row_lookup (t : table) (data : dict) c :
  dict_get "id" data = None ->
  inserted_row t data !! c
  = if String.eqb c "id" then Some (VInt (t_auto_increment t))
    else match dict_get c data with
         | Some v => Some (stored_value v)
         | None => t_defaults t !! c
         end.
Proof.
  intros Hid. unfold inserted_row. rewrite list_to_map_dict_get, Hid.
  destruct (String.eqb_spec c "id") as [-> | Hne].
  - apply lookup_insert_eq.
  - rewrite lookup_insert_ne by congruence.
    rewrite lookup_union, list_to_map_stored.
    destruct (dict_get c data), (t_defaults t !! c); reflexivity.
Qed.

Lemma has_id_inserted (t : table) (data : dict) :
  dict_get "id" data = None ->
  has_id (t_auto_increment t) (inserted_row t data) = true.
Proof.
  intros Hid. unfold has_id, SQL.sql_eq.
  rewrite (inserted_row_lookup t data "id" Hid). cbn.
  apply bool_decide_eq_true_2. reflexivity.
Qed.

Lemma insert_meaning_run tbl (data : dict) (db : database) t :
  db !! tbl = Some t ->
  insert_meaning tbl (dict_keys data) (dict_values data) db
  = Some {| rowcount := 1; fetched := []; lastrowid := t_auto_increment t;
            after := <[tbl := with_row t (inserted_row t data)]> db |}.
Proof.
  intros Ht. unfold insert_meaning. rewrite Ht.
  rewrite decide_True
    by (unfold dict_keys, dict_values; rewrite !length_map; reflexivity).
  rewrite zip_keys_values. reflexivity.
Qed.

Lemma insert_run tbl (data : dict) w t :
  reachable w ->
  store w !! tbl = Some t ->
  exists w',
    insert tbl data true w = (Return (Some (t_auto_increment t)), w')
    /\ store w' = <[tbl := with_row t (inserted_row t data)]> (store w)
    /\ trace w' = trace w ++ [Executed (insert_sql tbl data) (dict_values data)]
    /\ settled w w'.
Proof.
  intros Hr Ht. unfold insert. rewrite (get_connection_run _ w Hr).
  unfold bind at 1.
  rewrite (cursor_execute_ok
             {| text := insert_sql tbl data;
                meaning := insert_meaning tbl (dict_keys data) |}
             (dict_values data) (entered w)
             {| rowcount := 1; fetched := []; lastrowid := t_auto_increment t;
                after := <[tbl := with_row t (inserted_row t data)]> (store w) |})
    by (rewrite conn_view_entered; cbn [meaning];
        apply (insert_meaning_run tbl data (store w) t Ht)).
  unfold bind, conn_commit, modify, ret. cbn [lastrowid].
  eexists. split; [reflexivity |]. cbn.
  rewrite trace_ensured. repeat split; cbn;
    auto using pool_ensured, clock_ensured, entropy_ensured, server_ensured.
Qed.

(** The first row of a key in a table that got one more row. *)
Lemma filter_with_row (p : row -> bool) (t : table) (r : row) :
  List.filter p (t_rows t) = [] -> p r = true ->
  List.filter p (t_rows (with_row t r)) = [r].
Proof.
  intros Hnone Hp. unfold with_row. cbn [t_rows].
  rewrite List.filter_app, Hnone. cbn. rewrite Hp. reflexivity.
Qed.

Lemma filter_none (p : row -> bool) (rows : list row) :
  Forall (fun r => p r = false) rows -> List.filter p rows = [].
Proof.
  induction 1 as [| r rows Hr _ IH]; cbn; [reflexivity |]. rewrite Hr. exact IH.
Qed.

Lemma filter_none_weaker (p q : row -> bool) (rows : list row) :
  (forall r, p r = true -> q r = true) ->
  List.filter q rows = [] -> List.filter p rows = [].
Proof.
  intros Hpq. induction rows as [| r rows IH]; cbn; [reflexivity |].
  destruct (q r) eqn:Hq; [discriminate |]. intros Hrest.
  destruct (p r) eqn:Hp; [| auto]. apply Hpq in Hp. congruence.
Qed.

End Inserting.

Section Registration.
Context `{Primitives}.
Import AsyncMySQLHandler UserService.

Lemma has_id_registered users user_data password_hash now :
  has_id (t_auto_increment users) (registered users user_data password_hash now) = true.
Proof. apply has_id_inserted. reflexivity. Qed.

(** [create_user] up to the hashing: the lookup finds nothing, and the hash
    is computed on the event loop. *)
Lemma create_user_checks user_data w users :
  reachable w ->
  store w !! "users" = Some users ->
  taken (UserCreate.username user_data) (UserCreate.email user_data) users = [] ->
  exists w2,
    store w2 = store w /\ clock w2 = clock w /\ entropy w2 = entropy w
    /\ reachable w2
    /\ create_user user_data w
       = match AuthManager.get_password_hash (entropy w)
                 (UserCreate.password user_data) with
         | Return password_hash =>
             (let* user_id :=
                insert "users" (registration user_data password_hash (clock w)) true in
              fetch_one SQL.user_by_id [opt_int user_id]) w2
         | Raise e => (Raise e, w2)
         end.
Proof.
  intros Hr Husers Hfree.
  pose proof (fetch_one_run SQL.user_id_by_username_or_email
                [VStr (UserCreate.username user_data);
                 VStr (UserCreate.email user_data)] w Hr) as Hfetch.
  cbn [meaning SQL.user_id_by_username_or_email] in Hfetch.
  unfold SQL.select_where in Hfetch. rewrite Husers in Hfetch.
  cbn [fetched] in Hfetch.
  change (List.filter _ (t_rows users))
    with (taken (UserCreate.username user_data) (UserCreate.email user_data) users)
    in Hfetch.
  rewrite Hfree in Hfetch. cbn [map head] in Hfetch.
  destruct Hfetch as (w1 & Hrun1 & Hstore1 & _ & Hs1).
  exists (log (OnEventLoop (HashPassword (UserCreate.password user_data))) w1).
  split; [exact Hstore1 |]. split; [exact (settled_clock _ _ Hs1) |].
  split; [exact (settled_entropy _ _ Hs1) |].
  split; [left; exact (settled_pool _ _ Hs1) |].
  unfold create_user, bind at 1. rewrite Hrun1. cbn [row_truthy].
  unfold bind at 1, get. unfold bind at 1, on_event_loop.
  rewrite (settled_entropy _ _ Hs1).
  destruct (AuthManager.get_password_hash (entropy w) (UserCreate.password user_data))
    as [password_hash | e]; [| reflexivity].
  unfold bind at 1. cbn [clock log]. rewrite (settled_clock _ _ Hs1). reflexivity.
Qed.

Lemma create_user_run user_data w users :
  reachable w ->
  store w !! "users" = Some users ->
  taken (UserCreate.username user_data) (UserCreate.email user_data) users = [] ->
  key_is_free users ->
  forall password_hash,
    AuthManager.get_password_hash (entropy w) (UserCreate.password user_data)
    = Return password_hash ->
    exists w',
      create_user user_data w
      = (Return (Some (registered users user_data password_hash (clock w))), w')
      /\ store w'
         = <["users" := with_row users
                          (registered users user_data password_hash (clock w))]>
             (store w)
      /\ reachable w'.
Proof.
  intros Hr Husers Hfree Hkey password_hash Hhash.
  destruct (create_user_checks user_data w users Hr Husers Hfree)
    as (w2 & Hstore2 & _ & _ & Hr2 & Hrun).
  rewrite Hhash in Hrun. rewrite Hrun. clear Hrun.
  assert (Husers2 : store w2 !! "users" = Some users) by (rewrite Hstore2; exact Husers).
  destruct (insert_run "users" (registration user_data password_hash (clock w))
              w2 users Hr2 Husers2) as (w3 & Hrun3 & Hstore3 & _ & Hs3).
  unfold bind at 1. rewrite Hrun3.
  fold (registered users user_data password_hash (clock w)) in Hstore3.
  set (new := registered users user_data password_hash (clock w)) in *.
  pose proof (fetch_one_run SQL.user_by_id [opt_int (Some (t_auto_increment users))]
                w3 (settled_reachable _ _ Hs3)) as Hfetch.
  cbn [meaning SQL.user_by_id] in Hfetch. unfold SQL.select_where in Hfetch.
  rewrite Hstore3, lookup_insert_eq in Hfetch. cbn [fetched] in Hfetch.
  change (List.filter _ (t_rows (with_row users new)))
    with (List.filter (has_id (t_auto_increment users)) (t_rows (with_row users new)))
    in Hfetch.
  rewrite (filter_with_row _ users new (filter_none _ _ Hkey)
             (has_id_registered _ _ _ _)) in Hfetch.
  destruct Hfetch as (w4 & Hrun4 & Hstore4 & _ & Hs4).
  exists w4. split; [exact Hrun4 |].
  split; [rewrite Hstore4, Hstore2; reflexivity |].
  exact (settled_reachable _ _ Hs4).
Qed.

Lemma registered_lookup users user_data password_hash now c :
  registered users user_data password_hash now !! c
  = if String.eqb c "id" then Some (VInt (t_auto_increment users))
    else match dict_get c (registration user_data password_hash now) with
         | Some v => Some (stored_value v)
         | None => t_defaults users !! c
         end.
Proof. apply inserted_row_lookup. reflexivity. Qed.

Lemma active_matches_registered users user_data password_hash now :
  taken (UserCreate.username user_data) (UserCreate.email user_data) users = [] ->
  active_matches (UserCreate.username user_data)
    (with_row users (registered users user_data password_hash now))
  = [registered users user_data password_hash now].
Proof.
  intros Hfree. unfold active_matches. apply filter_with_row.
  - revert Hfree. unfold taken. apply filter_none_weaker.
    intros r Hr. apply andb_true_iff in Hr as [Hr _]. rewrite Hr. reflexivity.
  - rewrite !registered_lookup. cbn.
    unfold SQL.sql_eq. cbn.
    rewrite !bool_decide_eq_true_2 by reflexivity. reflexivity.
Qed.

(** X6: a registration is stored and read back.  When no row has the username
    or the email and passlib accepts the password, [create_user] appends one
    row to the users table and returns it: the row holds the fields of the
    form as the server stores them ([is_active] is 1), the bcrypt hash of the
    password in place of the password, the key the table gives, and for
    every other column of the table its default.  A lookup of the key then
    gives the row again, and the stored hash verifies the password.  When
    passlib does not accept the password the hashing raises and nothing is
    written. *)
Theorem create_user_stores_and_returns user_data w users :
  reachable w ->
  store w !! "users" = Some users ->
  taken (UserCreate.username user_data) (UserCreate.email user_data) users = [] ->
  key_is_free users ->
  let password := UserCreate.password user_data in
  (AuthManager.acceptable password = true ->
   let password_hash :=
     VHash (entropy w)
           (bcrypt_checksum (entropy w) (AuthManager.bcrypt_secret password)) in
   let new := registered users user_data password_hash (clock w) in
   exists w',
     create_user user_data w = (Return (Some new), w')
     /\ store w' = <["users" := with_row users new]> (store w)
     /\ new !! "id" = Some (VInt (t_auto_increment users))
     /\ new !! "username" = Some (VStr (UserCreate.username user_data))
     /\ new !! "email" = Some (VStr (UserCreate.email user_data))
     /\ new !! "password_hash" = Some password_hash
     /\ new !! "is_active" = Some (VInt 1)
     /\ new !! "created_at" = Some (VDatetime (clock w))
     /\ (forall c,
           c <> "id" ->
           dict_get c (registration user_data password_hash (clock w)) = None ->
           new !! c = t_defaults users !! c)
     /\ AuthManager.verify_password password password_hash = Return true
     /\ (get_user_by_id (t_auto_increment users) w').1 = Return (Some new))
  /\ (AuthManager.acceptable password = false ->
      exists e w',
        create_user user_data w = (Raise e, w')
        /\ (e = PasswordSizeError \/ e = PasswordValueError)
        /\ store w' = store w).
Proof.
  intros Hr Husers Hfree Hkey password. split.
  - intros Hok password_hash new.
    assert (Hhash : AuthManager.get_password_hash (entropy w) password
                    = Return password_hash)
      by (apply get_password_hash_acceptable, Hok).
    destruct (create_user_run user_data w users Hr Husers Hfree Hkey
                password_hash Hhash) as (w' & Hrun & Hstore & Hr').
    fold new in Hrun, Hstore.
    exists w'. split; [exact Hrun |]. split; [exact Hstore |].
    do 6 (split; [unfold new; rewrite registered_lookup; reflexivity |]).
    split.
    { intros c Hc Hnone. unfold new. rewrite registered_lookup, Hnone.
      destruct (String.eqb_spec c "id"); [contradiction | reflexivity]. }
    split.
    { unfold password_hash. rewrite (verify_password_acceptable _ _ _ Hok).
      rewrite String.eqb_refl. reflexivity. }
    unfold get_user_by_id.
    pose proof (fetch_one_run SQL.user_by_id [VInt (t_auto_increment users)] w' Hr')
      as Hfetch.
    cbn [meaning SQL.user_by_id] in Hfetch. unfold SQL.select_where in Hfetch.
    rewrite Hstore, lookup_insert_eq in Hfetch. cbn [fetched] in Hfetch.
    change (List.filter _ (t_rows (with_row users new)))
      with (List.filter (has_id (t_auto_increment users)) (t_rows (with_row users new)))
      in Hfetch.
    rewrite (filter_with_row _ users new (filter_none _ _ Hkey)
               (has_id_registered _ _ _ _)) in Hfetch.
    destruct Hfetch as (w2 & -> & _). reflexivity.
  - intros Hbad.
    destruct (create_user_checks user_data w users Hr Husers Hfree)
      as (w2 & Hstore2 & _ & _ & _ & Hrun).
    destruct (digest_secret_refused password Hbad) as (e & He & Hclass).
    unfold AuthManager.get_password_hash, AuthManager.pwd_context_hash in Hrun.
    fold password in Hrun. rewrite He in Hrun.
    exists e, w2. split; [exact Hrun |]. split; [exact Hclass | exact Hstore2].
Qed.

(** X7: a registered user can log in, and only with the password.  Before the
    registration [authenticate_user] gives [None] for the username; after the
    registration of a password passlib accepts, it returns the row
    [create_user] returned for that password, and [None] for every password
    passlib accepts whose first 72 bytes bcrypt gives another checksum. *)
Theorem registered_user_authenticates user_data w users :
  reachable w ->
  store w !! "users" = Some users ->
  taken (UserCreate.username user_data) (UserCreate.email user_data) users = [] ->
  key_is_free users ->
  let name := UserCreate.username user_data in
  let password := UserCreate.password user_data in
  AuthManager.acceptable password = true ->
  exists new w',
    create_user user_data w = (Return (Some new), w')
    /\ (authenticate_user name password w).1 = Return None
    /\ (authenticate_user name password w').1 = Return (Some new)
    /\ (forall other,
          AuthManager.acceptable other = true ->
          bcrypt_checksum (entropy w) (AuthManager.bcrypt_secret other)
          <> bcrypt_checksum (entropy w) (AuthManager.bcrypt_secret password) ->
          (authenticate_user name other w').1 = Return None).
Proof.
  intros Hr Husers Hfree Hkey name password Hok.
  set (password_hash :=
         VHash (entropy w)
               (bcrypt_checksum (entropy w) (AuthManager.bcrypt_secret password))).
  assert (Hhash : AuthManager.get_password_hash (entropy w) password
                  = Return password_hash)
    by (apply get_password_hash_acceptable, Hok).
  destruct (create_user_run user_data w users Hr Husers Hfree Hkey password_hash Hhash)
    as (w1 & Hrun & Hstore & Hr1).
  set (new := registered users user_data password_hash (clock w)) in *.
  exists new, w1. split; [exact Hrun |].
  assert (Husers1 : store w1 !! "users" = Some (with_row users new))
    by (rewrite Hstore; apply lookup_insert_eq).
  pose proof (active_matches_registered users user_data password_hash (clock w) Hfree)
    as Hmatch.
  fold new name in Hmatch.
  assert (Hcolumn : new !! "password_hash" = Some password_hash)
    by (unfold new; rewrite registered_lookup; reflexivity).
  assert (Hbefore : active_matches name users = []).
  { revert Hfree. unfold taken, active_matches. apply filter_none_weaker.
    intros r Hm. apply andb_true_iff in Hm as [Hm _]. fold name. rewrite Hm. reflexivity. }
  split; [| split].
  - destruct (authenticate_user_run name password w users Hr Husers)
      as (w2 & _ & _ & ->). rewrite Hbefore. reflexivity.
  - destruct (authenticate_user_run name password w1 _ Hr1 Husers1)
      as (w2 & _ & _ & ->).
    rewrite Hmatch. cbn [head].
    rewrite (row_with_column_truthy new _ _ Hcolumn), Hcolumn.
    unfold password_hash. rewrite (verify_password_acceptable _ _ _ Hok).
    rewrite String.eqb_refl. reflexivity.
  - intros other Hother Hne.
    destruct (authenticate_user_run name other w1 _ Hr1 Husers1)
      as (w2 & _ & _ & ->).
    rewrite Hmatch. cbn [head].
    rewrite (row_with_column_truthy new _ _ Hcolumn), Hcolumn.
    unfold password_hash. rewrite (verify_password_acceptable _ _ _ Hother).
    rewrite (proj2 (String.eqb_neq _ _) Hne). reflexivity.
Qed.

(** X8: a taken username or email stops the registration before anything is
    hashed or written.  When a row has the username or the email,
    [create_user] raises the 400, the committed data stay as they were, and
    the lookup is the one statement sent. *)
Theorem create_user_conflict user_data w users u rest :
  reachable w ->
  store w !! "users" = Some users ->
  taken (UserCreate.username user_data) (UserCreate.email user_data) users = u :: rest ->
  is_Some (u !! "id") ->
  exists w',
    create_user user_data w
    = (Raise (HTTPException HTTP_400_BAD_REQUEST "用户名或邮箱已存在"), w')
    /\ store w' = store w
    /\ trace w' = trace w ++
         [Executed (text SQL.user_id_by_username_or_email)
            [VStr (UserCreate.username user_data);
             VStr (UserCreate.email user_data)]].
Proof.
  intros Hr Husers Htaken [i Hi].
  pose proof (fetch_one_run SQL.user_id_by_username_or_email
                [VStr (UserCreate.username user_data);
                 VStr (UserCreate.email user_data)] w Hr) as Hfetch.
  cbn [meaning SQL.user_id_by_username_or_email] in Hfetch.
  unfold SQL.select_where in Hfetch. rewrite Husers in Hfetch.
  cbn [fetched] in Hfetch.
  change (List.filter _ (t_rows users))
    with (taken (UserCreate.username user_data) (UserCreate.email user_data) users)
    in Hfetch.
  rewrite Htaken in Hfetch. cbn [map head] in Hfetch. rewrite Hi in Hfetch.
  destruct Hfetch as (w1 & Hrun1 & Hstore1 & Htrace1 & _).
  exists w1. unfold create_user, bind at 1. rewrite Hrun1.
  rewrite (row_with_column_truthy {[ "id" := i ]} "id" i)
    by apply lookup_singleton_eq.
  split; [reflexivity |]. split; assumption.
Qed.

End Registration.

Section RegistrationWitness.
Import UserService.

Lemma demo_key_is_free : key_is_free demo_accounts_table.
Proof. repeat constructor. Qed.

Lemma demo_users_key_is_free : key_is_free demo_users_table.
Proof. repeat constructor. Qed.

Lemma create_user_stores_and_returns_witness :
  reachable (demo_world demo_accounts)
  /\ store (demo_world demo_accounts) !! "users" = Some demo_accounts_table
  /\ taken "carol" "carol@example.com" demo_accounts_table = []
  /\ AuthManager.acceptable "secret123" = true
  /\ exists (new : row) w',
       @create_user demo_primitives demo_signup (demo_world demo_accounts)
       = (Return (Some new), w')
       /\ new !! "is_active" = Some (VInt 1)
       /\ new !! "updated_at" = Some VNone
       /\ new !! "id" = Some (VInt 2).
Proof.
  assert (Hr : reachable (demo_world demo_accounts)) by (right; reflexivity).
  split; [exact Hr |]. split; [reflexivity |]. split; [reflexivity |].
  split; [reflexivity |].
  destruct (proj1 (@create_user_stores_and_returns demo_primitives demo_signup
                     (demo_world demo_accounts) demo_accounts_table Hr eq_refl eq_refl
                     demo_key_is_free) eq_refl)
    as (w' & Hrun & _ & Hid & _ & _ & _ & Hactive & _ & Hrest & _).
  eexists _, w'. split; [exact Hrun |]. split; [exact Hactive |].
  split; [| exact Hid].
  rewrite (Hrest "updated_at") by (discriminate || reflexivity). reflexivity.
Defined.

Lemma registered_user_authenticates_witness :
  reachable (demo_world demo_db)
  /\ taken "carol" "carol@example.com" demo_users_table = []
  /\ AuthManager.acceptable "secret123" = true
  /\ exists new w',
       @create_user demo_primitives demo_signup (demo_world demo_db)
       = (Return (Some new), w')
       /\ (@authenticate_user demo_primitives "carol" "secret123" w').1
          = Return (Some new).
Proof.
  assert (Hr : reachable (demo_world demo_db)) by (right; reflexivity).
  split; [exact Hr |]. split; [reflexivity |]. split; [reflexivity |].
  destruct (@registered_user_authenticates demo_primitives demo_signup
              (demo_world demo_db) demo_users_table Hr eq_refl eq_refl
              demo_users_key_is_free eq_refl)
    as (new & w' & Hrun & _ & Hlogin & _).
  exists new, w'. split; [exact Hrun | exact Hlogin].
Defined.

Lemma create_user_conflict_witness :
  reachable (demo_world demo_db)
  /\ taken "bob" "robert@example.com" demo_users_table = [demo_bob]
  /\ is_Some (demo_bob !! "id")
  /\ exists w',
       @create_user demo_primitives demo_bob_again (demo_world demo_db)
       = (Raise (HTTPException HTTP_400_BAD_REQUEST "用户名或邮箱已存在"), w')
       /\ store w' = demo_db.
Proof.
  assert (Hr : reachable (demo_world demo_db)) by (right; reflexivity).
  assert (Hid : is_Some (demo_bob !! "id")) by (exists (VInt 1); reflexivity).
  split; [exact Hr |]. split; [reflexivity |]. split; [exact Hid |].
  destruct (@create_user_conflict demo_primitives demo_bob_again (demo_world demo_db)
              demo_users_table demo_bob [] Hr eq_refl eq_refl Hid)
    as (w' & Hrun & Hstore & _).
  exists w'. split; [exact Hrun | exact Hstore].
Defined.

End RegistrationWitness.

(** ** Deleting a user *)

Section Deleting.
Import AsyncMySQLHandler.

Lemma delete_run tbl where_ wparams w t :
  reachable w ->
  store w !! tbl = Some t ->
  exists w',
    delete tbl where_ (Some wparams) w
    = (Return (Z.of_nat (length (List.filter (holds where_ wparams) (t_rows t)))), w')
    /\ store w' = <[tbl := without_rows (holds where_ wparams) t]> (store w)
    /\ trace w' = trace w ++ [Executed (delete_sql tbl (where_text where_)) wparams]
    /\ settled w w'.
Proof.
  intros Hr Ht. unfold delete.
  pose proof (execute_run
    {| text := delete_sql tbl (where_text where_);
       meaning := delete_meaning tbl where_ |} wparams w Hr) as Hrun.
  cbn [meaning text] in Hrun. unfold delete_meaning in Hrun. rewrite Ht in Hrun.
  cbn [rowcount after] in Hrun. exact Hrun.
Qed.

Lemma some_row_counted (p : row -> bool) (rows : list row) :
  (0 <? Z.of_nat (length (List.filter p rows)))%Z = existsb p rows.
Proof.
  induction rows as [| r rows IH]; cbn; [reflexivity |].
  destruct (p r); cbn; [| exact IH]. apply Z.ltb_lt. lia.
Qed.

Lemma has_id_unique k k' (r : row) :
  has_id k r = true -> has_id k' r = true -> k = k'.
Proof.
  unfold has_id, SQL.sql_eq. destruct (r !! "id") as [c |]; [| discriminate].
  destruct c; try discriminate; intros H1 H2;
    apply bool_decide_eq_true_1 in H1; apply bool_decide_eq_true_1 in H2;
    cbn in *; try destruct b; congruence.
Qed.

Lemma filter_others_kept k k' (rows : list row) :
  k <> k' ->
  List.filter (has_id k) (List.filter (fun r => negb (has_id k' r)) rows)
  = List.filter (has_id k) rows.
Proof.
  intros Hne. induction rows as [| r rows IH]; cbn; [reflexivity |].
  destruct (has_id k' r) eqn:Hk'; cbn.
  - destruct (has_id k r) eqn:Hk; [| exact IH].
    exfalso. apply Hne. exact (has_id_unique _ _ r Hk Hk').
  - rewrite IH. reflexivity.
Qed.

Lemma filter_own_gone k (rows : list row) :
  List.filter (has_id k) (List.filter (fun r => negb (has_id k r)) rows) = [].
Proof.
  induction rows as [| r rows IH]; cbn; [reflexivity |].
  destruct (has_id k r) eqn:Hk; cbn; [exact IH |]. rewrite Hk. exact IH.
Qed.

Lemma get_user_by_id_result k w t :
  reachable w ->
  store w !! "users" = Some t ->
  (UserService.get_user_by_id k w).1
  = Return (head (List.filter (has_id k) (t_rows t))).
Proof.
  intros Hr Ht. unfold UserService.get_user_by_id.
  pose proof (fetch_one_run SQL.user_by_id [VInt k] w Hr) as Hfetch.
  cbn [meaning SQL.user_by_id] in Hfetch. unfold SQL.select_where in Hfetch.
  rewrite Ht in Hfetch. destruct Hfetch as (w' & -> & _). reflexivity.
Qed.

(** X9: [delete_user] removes the rows of the key and no other.  It returns
    whether a row had the key; afterwards a lookup of the key finds nothing,
    the lookup of every other key gives what it gave before, and the other
    tables are untouched. *)
Theorem delete_user_removes_the_key user_id w users :
  reachable w ->
  store w !! "users" = Some users ->
  exists w',
    UserService.delete_user user_id w
    = (Return (existsb (has_id user_id) (t_rows users)), w')
    /\ store w' = <["users" := without_rows (has_id user_id) users]> (store w)
    /\ (UserService.get_user_by_id user_id w').1 = Return None
    /\ (forall other, other <> user_id ->
          (UserService.get_user_by_id other w').1
          = (UserService.get_user_by_id other w).1).
Proof.
  intros Hr Husers. unfold UserService.delete_user.
  destruct (delete_run "users" SQL.id_equals_compact [VInt user_id] w users Hr Husers)
    as (w' & Hrun & Hstore & _ & Hs).
  change (holds SQL.id_equals_compact [VInt user_id]) with (has_id user_id) in *.
  exists w'. unfold bind. rewrite Hrun. unfold ret. rewrite some_row_counted.
  split; [reflexivity |]. split; [exact Hstore |].
  assert (Husers' : store w' !! "users" = Some (without_rows (has_id user_id) users))
    by (rewrite Hstore; apply lookup_insert_eq).
  split.
  - rewrite (get_user_by_id_result user_id w' _ (settled_reachable _ _ Hs) Husers').
    cbn [without_rows t_rows]. rewrite filter_own_gone. reflexivity.
  - intros other Hne.
    rewrite (get_user_by_id_result other w' _ (settled_reachable _ _ Hs) Husers').
    rewrite (get_user_by_id_result other w users Hr Husers).
    cbn [without_rows t_rows]. rewrite filter_others_kept by exact Hne. reflexivity.
Qed.

End Deleting.

Section DeletingWitness.

Lemma delete_user_removes_the_key_witness :
  reachable (demo_world demo_db)
  /\ store (demo_world demo_db) !! "users" = Some demo_users_table
  /\ exists w',
       UserService.delete_user 1 (demo_world demo_db) = (Return true, w')
       /\ (UserService.get_user_by_id 1 w').1 = Return None.
Proof.
  assert (Hr : reachable (demo_world demo_db)) by (right; reflexivity).
  split; [exact Hr |]. split; [reflexivity |].
  destruct (delete_user_removes_the_key 1%Z (demo_world demo_db) demo_users_table
              Hr eq_refl) as (w' & Hrun & _ & Hgone & _).
  exists w'. split; [exact Hrun | exact Hgone].
Defined.

End DeletingWitness.

(** ** Who may edit an article *)

Section Guard.
Import AsyncMySQLHandler.

(** The two lookups both editing services start with. *)
Lemma article_lookup_run article_id w (articles : table) :
  reachable w ->
  store w !! "articles" = Some articles ->
  exists w1,
    fetch_one SQL.article_by_id [VInt article_id] w
    = (Return (head (List.filter (has_id article_id) (t_rows articles))), w1)
    /\ store w1 = store w /\ settled w w1.
Proof.
  intros Hr Ha.
  pose proof (fetch_one_run SQL.article_by_id [VInt article_id] w Hr) as Hf.
  cbn [meaning SQL.article_by_id] in Hf. unfold SQL.select_where in Hf.
  rewrite Ha in Hf. destruct Hf as (w1 & Hrun & Hstore & _ & Hs). eauto.
Qed.

Lemma author_lookup_run article_id w (articles : table) :
  reachable w ->
  store w !! "articles" = Some articles ->
  exists w1,
    fetch_one SQL.author_id_by_article_id [VInt article_id] w
    = (Return (head (map (fun a : row =>
                            match a !! "author_id" with
                            | Some i => ({[ "author_id" := i ]} : row)
                            | None => ∅
                            end)
                         (List.filter (has_id article_id) (t_rows articles)))), w1)
    /\ store w1 = store w /\ settled w w1.
Proof.
  intros Hr Ha.
  pose proof (fetch_one_run SQL.author_id_by_article_id [VInt article_id] w Hr) as Hf.
  cbn [meaning SQL.author_id_by_article_id] in Hf. unfold SQL.select_where in Hf.
  rewrite Ha in Hf. destruct Hf as (w1 & Hrun & Hstore & _ & Hs). eauto.
Qed.

Lemma role_lookup_run user_id w (users : table) :
  reachable w ->
  store w !! "users" = Some users ->
  exists w1,
    fetch_one SQL.role_by_user_id [VInt user_id] w
    = (Return (head (map (fun u : row =>
                            match u !! "role" with
                            | Some i => ({[ "role" := i ]} : row)
                            | None => ∅
                            end)
                         (List.filter (has_id user_id) (t_rows users)))), w1)
    /\ store w1 = store w /\ settled w w1.
Proof.
  intros Hr Hu.
  pose proof (fetch_one_run SQL.role_by_user_id [VInt user_id] w Hr) as Hf.
  cbn [meaning SQL.role_by_user_id] in Hf. unfold SQL.select_where in Hf.
  rewrite Hu in Hf. destruct Hf as (w1 & Hrun & Hstore & _ & Hs). eauto.
Qed.

Lemma py_eq_false (a b : value) : a <> b -> py_eq a b = false.
Proof. intros Hne. unfold py_eq. apply bool_decide_eq_false_2, Hne. Qed.

(** X10: an article is edited or deleted only by its author or an admin.
    When no article has the id, [update_article] and [delete_article] raise
    the 404; when the caller is neither the author nor an admin, they raise
    the 403; in both cases nothing is written. *)
Theorem article_edits_are_guarded article_id user_id w articles users :
  reachable w ->
  store w !! "articles" = Some articles ->
  store w !! "users" = Some users ->
  (List.filter (has_id article_id) (t_rows articles) = [] ->
     (forall article_data,
        exists w', ArticleService.update_article article_id article_data user_id w
                   = (Raise article_not_found, w')
                   /\ store w' = store w)
     /\ exists w', ArticleService.delete_article article_id user_id w
                   = (Raise article_not_found, w')
                   /\ store w' = store w)
  /\ (forall a rest,
        List.filter (has_id article_id) (t_rows articles) = a :: rest ->
        stranger users a user_id ->
        (forall article_data,
           exists w', ArticleService.update_article article_id article_data user_id w
                      = (Raise edit_forbidden, w')
                      /\ store w' = store w)
        /\ exists w', ArticleService.delete_article article_id user_id w
                      = (Raise delete_forbidden, w')
                      /\ store w' = store w).
Proof.
  intros Hr Ha Hu.
  destruct (article_lookup_run article_id w articles Hr Ha) as (w1 & Hrun1 & Hst1 & Hs1).
  destruct (author_lookup_run article_id w articles Hr Ha) as (v1 & Hrun1' & Hsv1 & Hv1).
  assert (Hu1 : store w1 !! "users" = Some users) by (rewrite Hst1; exact Hu).
  assert (Hu1' : store v1 !! "users" = Some users) by (rewrite Hsv1; exact Hu).
  destruct (role_lookup_run user_id w1 users (settled_reachable _ _ Hs1) Hu1)
    as (w2 & Hrun2 & Hst2 & _).
  destruct (role_lookup_run user_id v1 users (settled_reachable _ _ Hv1) Hu1')
    as (v2 & Hrun2' & Hsv2 & _).
  split.
  - intros Hnone. rewrite Hnone in Hrun1, Hrun1'. cbn [map head] in Hrun1, Hrun1'.
    split.
    + intros article_data. exists w1.
      unfold ArticleService.update_article, bind at 1. rewrite Hrun1.
      split; [reflexivity | exact Hst1].
    + exists v1. unfold ArticleService.delete_article, bind at 1. rewrite Hrun1'.
      split; [reflexivity | exact Hsv1].
  - intros a rest Hfound (author & u & rest' & role & Hauthor & Hother & Huser & Hrole & Hnot).
    rewrite Hfound in Hrun1, Hrun1'. rewrite Huser in Hrun2, Hrun2'.
    cbn [map head] in Hrun1, Hrun1', Hrun2, Hrun2'.
    rewrite Hauthor in Hrun1'. rewrite Hrole in Hrun2, Hrun2'.
    split.
    + intros article_data. exists w2.
      unfold ArticleService.update_article, bind at 1. rewrite Hrun1.
      rewrite (row_with_column_truthy a _ _ Hauthor).
      unfold bind at 1. rewrite Hrun2.
      unfold bind at 1, subscript at 1. rewrite Hauthor. unfold ret at 1.
      rewrite (py_eq_false _ _ Hother). cbn [negb].
      unfold bind at 1. unfold bind at 1, subscript. rewrite lookup_singleton_eq.
      unfold ret. rewrite (py_eq_false _ _ Hnot). cbn [negb].
      split; [reflexivity | congruence].
    + exists v2.
      unfold ArticleService.delete_article, bind at 1. rewrite Hrun1'.
      rewrite (row_with_column_truthy {[ "author_id" := author ]} "author_id" author)
        by apply lookup_singleton_eq.
      unfold bind at 1. rewrite Hrun2'.
      unfold bind at 1, subscript at 1. rewrite lookup_singleton_eq. unfold ret at 1.
      rewrite (py_eq_false _ _ Hother). cbn [negb].
      unfold bind at 1. unfold bind at 1, subscript. rewrite lookup_singleton_eq.
      unfold ret. rewrite (py_eq_false _ _ Hnot). cbn [negb].
      split; [reflexivity | congruence].
Qed.

End Guard.

Section GuardWitness.

Lemma demo_dave_is_stranger : stranger demo_forum_users demo_article 2.
Proof.
  exists (VInt 1), demo_dave, [], (VStr "user").
  repeat split; try reflexivity; discriminate.
Qed.

Lemma article_edits_are_guarded_witness :
  reachable (demo_world demo_forum)
  /\ List.filter (has_id 7) (t_rows demo_articles) = [demo_article]
  /\ exists w',
       ArticleService.delete_article 7 2 (demo_world demo_forum)
       = (Raise delete_forbidden, w')
       /\ store w' = demo_forum.
Proof.
  assert (Hr : reachable (demo_world demo_forum)) by (right; reflexivity).
  split; [exact Hr |]. split; [reflexivity |].
  exact (proj2 (proj2 (article_edits_are_guarded 7%Z 2%Z (demo_world demo_forum)
                         demo_articles demo_forum_users Hr eq_refl eq_refl)
                  demo_article [] eq_refl demo_dave_is_stranger)).
Defined.

End GuardWitness.

(** ** Articles, written and read back *)

Section Articles.
Import AsyncMySQLHandler.

(** [get_article_by_id], run: the first article of the id, with its author's
    name, its tags decoded. *)
Lemma get_article_by_id_run article_id w (articles users : table) :
  reachable w ->
  store w !! "articles" = Some articles ->
  store w !! "users" = Some users ->
  exists w1,
    store w1 = store w /\ settled w w1
    /\ trace w1 = trace w ++
         [Executed (text SQL.article_with_author_by_id) [VInt article_id]]
    /\ ArticleService.get_article_by_id article_id w =
       match head (List.filter (has_id article_id) (t_rows articles)) with
       | Some a =>
           let joined : row := <["author_name" := SQL.author_name (t_rows users) a]> a in
           if truthy (default VNone (a !! "tags")) then
             match json_loads (default VNone (a !! "tags")) with
             | Return tags => (Return (Some (<["tags" := tags]> joined)), w1)
             | Raise e => (Raise e, w1)
             end
           else (Return (Some joined), w1)
       | None => (Return None, w1)
       end.
Proof.
  intros Hr Ha Hu.
  pose proof (fetch_one_run SQL.article_with_author_by_id [VInt article_id] w Hr)
    as Hfetch.
  cbn [meaning SQL.article_with_author_by_id] in Hfetch.
  rewrite Ha, Hu in Hfetch. cbn [fetched] in Hfetch.
  change (List.filter _ (t_rows articles))
    with (List.filter (has_id article_id) (t_rows articles)) in Hfetch.
  destruct Hfetch as (w1 & Hrun & Hstore & Htrace & Hs).
  exists w1. split; [exact Hstore |]. split; [exact Hs |]. split; [exact Htrace |].
  unfold ArticleService.get_article_by_id, bind at 1. rewrite Hrun.
  destruct (List.filter (has_id article_id) (t_rows articles)) as [| a rest];
    [reflexivity |].
  cbn [map head]. cbv zeta.
  rewrite (row_with_column_truthy (<["author_name" := _]> a) "author_name" _
             (lookup_insert_eq _ _ _)).
  rewrite lookup_insert_ne by discriminate. cbn [andb].
  destruct (truthy (default VNone (a !! "tags"))); [| reflexivity].
  unfold bind, lift. destruct (json_loads _); reflexivity.
Qed.

Lemma written_lookup articles article_data author_id now c :
  written articles article_data author_id now !! c
  = if String.eqb c "id" then Some (VInt (t_auto_increment articles))
    else match dict_get c (publication article_data author_id now) with
         | Some v => Some (stored_value v)
         | None => t_defaults articles !! c
         end.
Proof. apply inserted_row_lookup. reflexivity. Qed.

Lemma tags_round_trip tags :
  stored_value (json_dumps tags) = json_dumps tags
  /\ truthy (json_dumps tags) = true
  /\ json_loads (json_dumps tags) = Return (tags_read tags).
Proof. destruct tags; repeat split; reflexivity. Qed.

(** X11: an article is stored and read back, its tags through their JSON
    text.  [create_article] appends one row to the articles: the fields of
    the form as the server stores them ([is_published] is 0 or 1), the
    author's id, the tags as JSON text, the key the table gives and, for
    every other column of the table, its default.  It returns that row with
    the author's name joined and the tags decoded to the list that was
    given. *)
Theorem create_article_round_trip article_data author_id w articles users :
  reachable w ->
  store w !! "articles" = Some articles ->
  store w !! "users" = Some users ->
  key_is_free articles ->
  let new := written articles article_data author_id (clock w) in
  exists w',
    ArticleService.create_article article_data author_id w
    = (Return (Some (<["tags" := tags_read (ArticleCreate.tags article_data)]>
                       (<["author_name" := SQL.author_name (t_rows users) new]>
                          new))), w')
    /\ store w' = <["articles" := with_row articles new]> (store w)
    /\ new !! "id" = Some (VInt (t_auto_increment articles))
    /\ new !! "tags" = Some (json_dumps (ArticleCreate.tags article_data))
    /\ new !! "author_id" = Some (VInt author_id)
    /\ new !! "is_published"
       = Some (VInt (if ArticleCreate.is_published article_data then 1 else 0))
    /\ (forall c,
          c <> "id" ->
          dict_get c (publication article_data author_id (clock w)) = None ->
          new !! c = t_defaults articles !! c).
Proof.
  intros Hr Ha Hu Hkey new.
  destruct (tags_round_trip (ArticleCreate.tags article_data)) as (Hs & Ht & Hl).
  assert (Hid : new !! "id" = Some (VInt (t_auto_increment articles)))
    by (unfold new; rewrite written_lookup; reflexivity).
  assert (Htags : new !! "tags" = Some (json_dumps (ArticleCreate.tags article_data)))
    by (unfold new; rewrite written_lookup; cbn; rewrite Hs; reflexivity).
  unfold ArticleService.create_article, bind at 1, get.
  destruct (insert_run "articles" (publication article_data author_id (clock w))
              w articles Hr Ha) as (w1 & Hrun1 & Hstore1 & _ & Hs1).
  fold (written articles article_data author_id (clock w)) in Hstore1.
  fold new in Hstore1.
  unfold bind at 1. unfold publication in Hrun1. rewrite Hrun1.
  assert (Ha1 : store w1 !! "articles" = Some (with_row articles new))
    by (rewrite Hstore1; apply lookup_insert_eq).
  assert (Hu1 : store w1 !! "users" = Some users)
    by (rewrite Hstore1, lookup_insert_ne by discriminate; exact Hu).
  destruct (get_article_by_id_run (t_auto_increment articles) w1 _ users
              (settled_reachable _ _ Hs1) Ha1 Hu1) as (w2 & Hstore2 & _ & _ & Hrun2).
  assert (Hfirst : List.filter (has_id (t_auto_increment articles))
                     (t_rows (with_row articles new)) = [new]).
  { apply filter_with_row; [apply filter_none, Hkey |].
    apply has_id_inserted. reflexivity. }
  rewrite Hfirst in Hrun2. cbn [head] in Hrun2. cbv zeta in Hrun2.
  rewrite Htags in Hrun2. cbn [from_option id] in Hrun2. unfold id in Hrun2.
  rewrite Ht, Hl in Hrun2.
  exists w2. split; [exact Hrun2 |].
  split; [rewrite Hstore2; exact Hstore1 |].
  split; [exact Hid |]. split; [exact Htags |].
  split; [unfold new; rewrite written_lookup; reflexivity |].
  split.
  - unfold new. rewrite written_lookup. cbn.
    destruct (ArticleCreate.is_published article_data); reflexivity.
  - intros c Hc Hnone. unfold new. rewrite written_lookup, Hnone.
    destruct (String.eqb_spec c "id"); [contradiction | reflexivity].
Qed.

End Articles.

Section ArticlesWitness.

Lemma demo_article_key_is_free : key_is_free demo_shelf_table.
Proof. repeat constructor. Qed.

Lemma create_article_round_trip_witness :
  reachable (demo_world demo_shelf)
  /\ store (demo_world demo_shelf) !! "articles" = Some demo_shelf_table
  /\ store (demo_world demo_shelf) !! "users" = Some demo_forum_users
  /\ exists w' (result : row),
       ArticleService.create_article demo_post 2 (demo_world demo_shelf)
       = (Return (Some result), w')
       /\ result !! "tags" = Some (VList ["a"; "b"])
       /\ result !! "author_name" = Some (VStr "dave")
       /\ result !! "is_published" = Some (VInt 1)
       /\ result !! "view_count" = Some (VInt 0).
Proof.
  assert (Hr : reachable (demo_world demo_shelf)) by (right; reflexivity).
  split; [exact Hr |]. split; [reflexivity |]. split; [reflexivity |].
  destruct (create_article_round_trip demo_post 2%Z (demo_world demo_shelf)
              demo_shelf_table demo_forum_users Hr eq_refl eq_refl
              demo_article_key_is_free) as (w' & Hrun & _).
  eexists w', _. split; [exact Hrun |]. repeat split; vm_compute; reflexivity.
Defined.

End ArticlesWitness.

(** ** Tokens and sessions *)

Section Sessions.
Context `{Primitives}.
Import AsyncMySQLHandler AuthManager.
Local Open Scope Z_scope.

(** A token [create_access_token] made: signed under the server's key, in
    time until the expiry computed, whatever [exp] the data carried, and of
    the data's subject. *)
Lemma create_access_token_valid self data delta now :
  let tok := create_access_token self data delta now in
  signature_valid self tok = true
  /\ (forall t, in_time tok t = (t <=? expire_at self delta now))
  /\ subject tok = match dict_get "sub" data with
                   | Some VNone => None
                   | sub => sub
                   end.
Proof.
  unfold create_access_token, jwt_encode. cbv zeta.
  cbn [signature_valid in_time subject].
  split; [| split].
  - rewrite bool_decide_eq_true_2 by reflexivity. apply String.eqb_refl.
  - intros t. rewrite dict_get_jwt_claims, dict_get_set_eq. reflexivity.
  - rewrite dict_get_jwt_claims, dict_get_set_ne by discriminate.
    cbn. destruct (dict_get "sub" data) as [[] |]; reflexivity.
Qed.

(** X12: the life of an access token.  A token [create_access_token] makes
    for a subject verifies to that subject at every time up to its expiry
    and to the 401 after it; the expiry replaces an [exp] the data carried;
    and a lifetime of zero counts as none given: the token lives the
    configured minutes, it is not expired at once. *)
Theorem access_token_lifetime self name delta now t :
  verify_token self (create_access_token self [("sub", VStr name)] delta now) t
  = (if t <=? expire_at self delta now
     then Return {| TokenData.username := VStr name |}
     else Raise unauthorized)
  /\ (forall stale,
        in_time (create_access_token self [("exp", stale); ("sub", VStr name)]
                   delta now) t
        = (t <=? expire_at self delta now))
  /\ create_access_token self [("sub", VStr name)] (Some 0) now
     = create_access_token self [("sub", VStr name)] None now
  /\ expire_at self (Some 0) now = now + 60 * access_token_expire_minutes self.
Proof.
  split; [| split; [| split]].
  - rewrite (verify_created self [("sub", VStr name)] delta now t)
      by (repeat constructor).
    destruct (t <=? _); reflexivity.
  - intros stale.
    apply (create_access_token_valid self [("exp", stale); ("sub", VStr name)]).
  - reflexivity.
  - reflexivity.
Qed.

(** The column a [WHERE] compares equal to a string holds that string. *)
Lemma sql_eq_string (column : option value) s :
  SQL.sql_eq column (VStr s) = true -> column = Some (VStr s).
Proof.
  unfold SQL.sql_eq. destruct column as [[| [] | | | | | |] |]; try discriminate;
    intros Heq; apply bool_decide_eq_true_1 in Heq; cbn in Heq; congruence.
Qed.

Lemma active_match_username username users (u : row) :
  head (active_matches username users) = Some u ->
  u !! "username" = Some (VStr username).
Proof.
  intros Hhead. apply head_Some_elem_of in Hhead.
  unfold active_matches in Hhead. apply list_elem_of_In, List.filter_In in Hhead.
  destruct Hhead as [_ Hu]. apply andb_true_iff in Hu. apply sql_eq_string, Hu.
Qed.

(** [get_current_user], run on a token that verifies. *)
Lemma get_current_user_run tok name w users :
  reachable w ->
  store w !! "users" = Some users ->
  verify_token auth_manager tok (clock w)
  = Return {| TokenData.username := VStr name |} ->
  exists w1,
    store w1 = store w /\ settled w w1
    /\ trace w1 = trace w ++
         [Executed (text SQL.active_user_by_username) [VStr name]]
    /\ Auth.get_current_user tok w
       = (match head (active_matches name users) with
          | Some u => Return u
          | None => Raise (HTTPException HTTP_401_UNAUTHORIZED "用户不存在或已停用")
          end, w1).
Proof.
  intros Hr Hu Hv.
  pose proof (fetch_one_run SQL.active_user_by_username [VStr name] w Hr) as Hfetch.
  cbn [meaning SQL.active_user_by_username] in Hfetch. unfold SQL.select_where in Hfetch.
  rewrite Hu in Hfetch. cbn [fetched] in Hfetch.
  change (List.filter _ (t_rows users)) with (active_matches name users) in Hfetch.
  destruct Hfetch as (w1 & Hrun & Hstore & Htrace & Hs).
  exists w1. split; [exact Hstore |]. split; [exact Hs |]. split; [exact Htrace |].
  unfold Auth.get_current_user, bind at 1, get. unfold bind at 1, lift.
  rewrite Hv. cbn [TokenData.username]. unfold bind. rewrite Hrun.
  destruct (head (active_matches name users)); reflexivity.
Qed.

(** What [verify_token] raises, [get_current_user] raises before the
    database is asked. *)
Lemma get_current_user_refused tok w e :
  verify_token auth_manager tok (clock w) = Raise e ->
  Auth.get_current_user tok w = (Raise e, w).
Proof.
  intros Hv. unfold Auth.get_current_user, bind at 1, get. unfold bind at 1, lift.
  rewrite Hv. reflexivity.
Qed.


Lemma keeps_clock_cursor_execute q params : keeps clock (cursor_execute q params).
Proof.
  intros w. unfold cursor_execute. destruct (meaning q params _); reflexivity.
Qed.

Lemma keeps_clock_ensure_pool : keeps clock _ensure_pool.
Proof.
  intros w. unfold _ensure_pool, bind, get, try_except, create_pool, modify, raise, ret.
  destruct (pool w); [reflexivity |]. destruct (server_up w); reflexivity.
Qed.

Lemma keeps_clock_get_connection {A} (body : M A) :
  keeps clock body -> keeps clock (get_connection body).
Proof.
  intros Hb. unfold get_connection.
  apply keeps_bind; [apply keeps_clock_ensure_pool |]. intros _.
  apply keeps_on_exit; [| reflexivity].
  apply keeps_bind; [apply keeps_modify; reflexivity |]. intros _.
  apply keeps_try_except; [exact Hb |]. intros e.
  apply keeps_bind; [apply keeps_modify; reflexivity | intros _; apply keeps_raise].
Qed.

Lemma keeps_clock_fetch_one q params : keeps clock (fetch_one q params).
Proof.
  unfold fetch_one. apply keeps_clock_get_connection.
  apply keeps_bind; [apply keeps_clock_cursor_execute | intros r; apply keeps_ret].
Qed.

Lemma keeps_clock_authenticate_user username password :
  keeps clock (UserService.authenticate_user username password).
Proof.
  unfold UserService.authenticate_user.
  apply keeps_bind; [apply keeps_clock_fetch_one |]. intros [u |]; [| apply keeps_ret].
  destruct (row_truthy (Some u)); [| apply keeps_ret].
  apply keeps_bind; [apply keeps_subscript |]. intros hashed.
  apply keeps_bind; [intros w; reflexivity |]. intros []; apply keeps_ret.
Qed.

(** What a login that succeeded returned. *)
Lemma login_token username password w users tok w1 :
  reachable w ->
  store w !! "users" = Some users ->
  UserApi.login_for_access_token username password w = (Return tok, w1) ->
  tok = {| Token.access_token :=
             create_access_token auth_manager [("sub", VStr username)] None (clock w);
           Token.token_type := "bearer" |}.
Proof.
  intros Hr Hu Hlogin.
  destruct (authenticate_user_run username password w users Hr Hu)
    as (wa & _ & _ & Hrun).
  pose proof (keeps_clock_authenticate_user username password w) as Hclock.
  unfold UserApi.login_for_access_token, bind at 1 in Hlogin.
  destruct (UserService.authenticate_user username password w) as [r wb] eqn:Hauth.
  cbn [snd] in Hclock.
  assert (Hrow : forall u, r = Return (Some u) -> head (active_matches username users) = Some u).
  { intros u ->. symmetry in Hrun.
    destruct (head (active_matches username users)) as [u0 |]; [| congruence].
    destruct (row_truthy (Some u0)); [| congruence].
    destruct (u0 !! "password_hash"); [| congruence].
    destruct (verify_password password v) as [[] |]; congruence. }
  destruct r as [[u |] | e]; try discriminate.
  specialize (Hrow u eq_refl).
  pose proof (active_match_username username users u Hrow) as Hname.
  rewrite (row_with_column_truthy u "username" _ Hname) in Hlogin.
  unfold bind at 1, subscript in Hlogin. rewrite Hname in Hlogin.
  unfold ret at 1, bind, get, ret in Hlogin. rewrite Hclock in Hlogin.
  congruence.
Qed.

(** X14: the token of a login opens the session of the user who logged in.
    A login that succeeds returns a bearer token; for 1800 seconds from
    then, [get_current_user] answers it with the first active row of the
    login's username as the table holds it at that time, or with the 401 when
    no such row is left, and writes nothing; after them it refuses the token
    and the database is not asked. *)
Theorem login_token_is_accepted username password w users tok w1 :
  reachable w ->
  store w !! "users" = Some users ->
  UserApi.login_for_access_token username password w = (Return tok, w1) ->
  Token.token_type tok = "bearer"
  /\ forall w2 users2,
       reachable w2 ->
       store w2 !! "users" = Some users2 ->
       (clock w2 <= clock w + 1800 ->
        exists w3,
          store w3 = store w2
          /\ Auth.get_current_user (Token.access_token tok) w2
             = (match head (active_matches username users2) with
                | Some u => Return u
                | None =>
                    Raise (HTTPException HTTP_401_UNAUTHORIZED "用户不存在或已停用")
                end, w3))
       /\ (clock w + 1800 < clock w2 ->
           Auth.get_current_user (Token.access_token tok) w2
           = (Raise unauthorized, w2)).
Proof.
  intros Hr Hu Hlogin.
  rewrite (login_token username password w users tok w1 Hr Hu Hlogin).
  cbn [Token.token_type Token.access_token]. split; [reflexivity |].
  intros w2 users2 Hr2 Hu2.
  pose proof (verify_created auth_manager [("sub", VStr username)] None (clock w)
                (clock w2) ltac:(repeat constructor)) as Hcreated.
  cbn [no_text dict_get is_str negb orb] in Hcreated.
  change (String.eqb "sub" "sub") with true in Hcreated.
  cbn [negb orb] in Hcreated. rewrite orb_false_r in Hcreated.
  split.
  - intros Hin.
    assert (Hv : verify_token auth_manager
                   (create_access_token auth_manager [("sub", VStr username)] None (clock w))
                   (clock w2)
                 = Return {| TokenData.username := VStr username |}).
    { rewrite Hcreated, (proj2 (Z.leb_le _ _)); [reflexivity |].
      unfold expire_at, minutes. cbn. lia. }
    destruct (get_current_user_run _ username w2 users2 Hr2 Hu2 Hv)
      as (w3 & Hstore & _ & _ & Hrun).
    exists w3. split; [exact Hstore | exact Hrun].
  - intros Hlate.
    assert (Hv : verify_token auth_manager
                   (create_access_token auth_manager [("sub", VStr username)] None (clock w))
                   (clock w2)
                 = Raise unauthorized).
    { rewrite Hcreated, (proj2 (Z.leb_gt _ _)); [reflexivity |].
      unfold expire_at, minutes. cbn. lia. }
    apply get_current_user_refused, Hv.
Qed.

(** X15: a suspended account passes no role check.  When the token's user
    is found active by [is_active] but its [status] is not 'active', every
    [require_role] dependency answers the 400, an admin's role
    notwithstanding, and writes nothing. *)
Theorem suspended_account_is_refused tok name w users (u : row) status :
  reachable w ->
  store w !! "users" = Some users ->
  verify_token auth_manager tok (clock w)
  = Return {| TokenData.username := VStr name |} ->
  head (active_matches name users) = Some u ->
  u !! "status" = Some status ->
  status <> VStr "active" ->
  forall required,
    exists w',
      Auth.require_role required tok w
      = (Raise (HTTPException 400 "用户账户已被停用"), w')
      /\ store w' = store w.
Proof.
  intros Hr Hu Hv Hhead Hstatus Hne required.
  destruct (get_current_user_run tok name w users Hr Hu Hv)
    as (w1 & Hstore & _ & _ & Hrun).
  rewrite Hhead in Hrun.
  exists w1. split; [| exact Hstore].
  unfold Auth.require_role, bind at 1. rewrite Hrun.
  unfold bind at 1, Auth.get_current_active_user, bind, subscript.
  rewrite Hstatus. unfold ret at 1, py_eq.
  rewrite bool_decide_eq_false_2 by exact Hne. reflexivity.
Qed.

End Sessions.

Section SessionsWitness.
Import AuthManager.


Lemma demo_login_run :
  @UserApi.login_for_access_token demo_primitives "bob" "secret123" (demo_world demo_db)
  = (Return demo_grant,
     (@UserApi.login_for_access_token demo_primitives "bob" "secret123"
        (demo_world demo_db)).2).
Proof. vm_compute. reflexivity. Qed.

Lemma login_token_is_accepted_witness :
  reachable (demo_world demo_db)
  /\ store (demo_world demo_db) !! "users" = Some demo_users_table
  /\ @UserApi.login_for_access_token demo_primitives "bob" "secret123" (demo_world demo_db)
     = (Return demo_grant,
        (@UserApi.login_for_access_token demo_primitives "bob" "secret123"
           (demo_world demo_db)).2)
  /\ Token.token_type demo_grant = "bearer".
Proof.
  assert (Hr : reachable (demo_world demo_db)) by (right; reflexivity).
  split; [exact Hr |]. split; [reflexivity |]. split; [exact demo_login_run |].
  exact (proj1 (@login_token_is_accepted demo_primitives "bob" "secret123"
                  (demo_world demo_db) demo_users_table demo_grant _
                  Hr eq_refl demo_login_run)).
Defined.

Lemma demo_eve_is_suspended : VStr "banned" <> VStr "active".
Proof. discriminate. Qed.

Lemma suspended_account_is_refused_witness :
  reachable (demo_world demo_staff)
  /\ head (active_matches "eve" demo_staff_table) = Some demo_eve
  /\ demo_eve !! "role" = Some (VStr "admin")
  /\ exists w',
       @Auth.require_role demo_primitives UserRole.USER demo_eve_token
         (demo_world demo_staff)
       = (Raise (HTTPException 400 "用户账户已被停用"), w')
       /\ store w' = demo_staff.
Proof.
  assert (Hr : reachable (demo_world demo_staff)) by (right; reflexivity).
  split; [exact Hr |]. split; [reflexivity |]. split; [reflexivity |].
  exact (@suspended_account_is_refused demo_primitives demo_eve_token "eve"
           (demo_world demo_staff) demo_staff_table demo_eve (VStr "banned")
           Hr eq_refl eq_refl eq_refl eq_refl demo_eve_is_suspended UserRole.USER).
Defined.

End SessionsWitness.

(** ** Whose record a user reads and updates *)

Section Accounts.
Context `{Primitives}.
Import AsyncMySQLHandler.

Lemma neither_self_nor_admin_other (current_user : row) user_id caller role w :
  current_user !! "id" = Some caller -> caller <> VInt user_id ->
  current_user !! "role" = Some role -> role <> VStr "admin" ->
  UserApi.neither_self_nor_admin current_user user_id w = (Return true, w).
Proof.
  intros Hid Hother Hrole Hplain.
  unfold UserApi.neither_self_nor_admin, bind at 1, subscript. rewrite Hid.
  unfold ret at 1, py_eq. rewrite bool_decide_eq_false_2 by exact Hother.
  cbn [negb]. unfold bind. rewrite Hrole. unfold ret, py_eq.
  rewrite bool_decide_eq_false_2 by exact Hplain. reflexivity.
Qed.

Lemma neither_self_nor_admin_self (current_user : row) user_id w :
  current_user !! "id" = Some (VInt user_id) ->
  UserApi.neither_self_nor_admin current_user user_id w = (Return false, w).
Proof.
  intros Hid.
  unfold UserApi.neither_self_nor_admin, bind at 1, subscript. rewrite Hid.
  unfold ret at 1, py_eq. rewrite bool_decide_eq_true_2 by reflexivity. reflexivity.
Qed.

(** X16: a user's record is read and updated by that user or an admin only.
    For a caller who is neither, [get_user] and [update_user] answer the 403
    before the database is asked: the world is as it was. *)
Theorem user_records_are_guarded user_id (current_user : row) caller role w :
  current_user !! "id" = Some caller -> caller <> VInt user_id ->
  current_user !! "role" = Some role -> role <> VStr "admin" ->
  UserApi.get_user user_id current_user w
  = (Raise (HTTPException HTTP_403_FORBIDDEN "无权限查看此用户信息"), w)
  /\ forall user_update,
       UserApi.update_user user_id user_update current_user w
       = (Raise (HTTPException HTTP_403_FORBIDDEN "无权限更新此用户信息"), w).
Proof.
  intros Hid Hother Hrole Hplain.
  pose proof (neither_self_nor_admin_other current_user user_id caller role w
                Hid Hother Hrole Hplain) as Hdenied.
  split; [| intros user_update].
  - unfold UserApi.get_user, bind at 1. rewrite Hdenied. reflexivity.
  - unfold UserApi.update_user, bind at 1. rewrite Hdenied. reflexivity.
Qed.

Lemma stripped_provides user_update c :
  UserService.provided (UserApi.without_role_and_status user_update) c
  = if String.eqb c "role" || String.eqb c "status" then None
    else UserService.provided user_update c.
Proof.
  unfold UserService.provided, UserApi.without_role_and_status. cbn.
  destruct (String.eqb_spec c "username") as [-> | _]; [reflexivity |].
  destruct (String.eqb_spec c "email") as [-> | _]; [reflexivity |].
  destruct (String.eqb_spec c "full_name") as [-> | _]; [reflexivity |].
  destruct (String.eqb c "role"); [reflexivity |].
  destruct (String.eqb c "status"); reflexivity.
Qed.

(** The world [update_user] leaves for a caller who updates the own record
    and is no admin: that of the service run on the model without role and
    status. *)
Lemma own_update_world user_id user_update (current_user : row) role w :
  current_user !! "id" = Some (VInt user_id) ->
  current_user !! "role" = Some role -> role <> VStr "admin" ->
  (UserApi.update_user user_id user_update current_user w).2
  = (UserService.update_user user_id
       (UserApi.without_role_and_status user_update) w).2.
Proof.
  intros Hid Hrole Hplain.
  unfold UserApi.update_user, bind at 1.
  rewrite (neither_self_nor_admin_self current_user user_id w Hid).
  unfold bind at 1, subscript at 1. rewrite Hrole. unfold ret at 1, py_eq.
  rewrite bool_decide_eq_false_2 by exact Hplain. cbn [negb].
  unfold bind at 1.
  destruct (UserService.update_user user_id _ w) as [[[u |] | e] w1]; cbn [snd];
    try reflexivity.
  destruct (row_truthy (Some u)); [| reflexivity].
  unfold bind, subscript. destruct (u !! "id"); reflexivity.
Qed.

(** X17: no user raises the own role or lifts the own suspension.  When a
    caller who is no admin updates the own record, whatever the request
    names, every row of the users table keeps its [role] and its [status],
    and the rows of other users are kept whole. *)
Theorem update_user_cannot_escalate user_id user_update (current_user : row)
    role w users :
  reachable w ->
  store w !! "users" = Some users ->
  current_user !! "id" = Some (VInt user_id) ->
  current_user !! "role" = Some role -> role <> VStr "admin" ->
  exists users',
    store (UserApi.update_user user_id user_update current_user w).2 !! "users"
    = Some users'
    /\ length (t_rows users') = length (t_rows users)
    /\ forall i (old : row),
         t_rows users !! i = Some old ->
         exists new : row,
           t_rows users' !! i = Some new
           /\ new !! "role" = old !! "role"
           /\ new !! "status" = old !! "status"
           /\ (has_id user_id old = false -> new = old).
Proof.
  intros Hr Hu Hid Hrole Hplain.
  rewrite (own_update_world user_id user_update current_user role w Hid Hrole Hplain).
  set (stripped := UserApi.without_role_and_status user_update).
  destruct (UserService.update_fields stripped) as [| kv fields] eqn:Hfields.
  - rewrite (update_user_empty user_id stripped w Hfields). cbn [snd].
    exists users. split; [exact Hu |]. split; [reflexivity |].
    intros i old Hi. exists old. repeat split; auto.
  - assert (Hsome : UserService.update_fields stripped <> []) by (rewrite Hfields; discriminate).
    destruct (update_user_run user_id stripped w users Hr Hu Hsome)
      as (result & w' & Hrun & Hstore).
    rewrite Hrun. cbn [snd]. rewrite Hstore, lookup_insert_eq.
    eexists. split; [reflexivity |]. split; [cbn; apply length_map |].
    intros i old Hi.
    destruct (updated_rows_frame
                (dict_set "updated_at" (VDatetime (clock w))
                   (UserService.update_fields stripped))
                SQL.id_equals [VInt user_id] users i old Hi)
      as (new & Hnew & Hmiss & Hhit).
    exists new. split; [exact Hnew |].
    assert (Hcol : forall c, (c = "role" \/ c = "status") -> new !! c = old !! c).
    { intros c Hc.
      destruct (holds SQL.id_equals [VInt user_id] old) eqn:Hh;
        [| rewrite (Hmiss eq_refl); reflexivity].
      rewrite (Hhit eq_refl c), dict_get_set_ne, user_fields_provided
        by (destruct Hc as [-> | ->]; discriminate).
      unfold stripped. rewrite stripped_provides.
      destruct Hc as [-> | ->]; reflexivity. }
    split; [apply Hcol; auto |]. split; [apply Hcol; auto |].
    intros Hother. apply Hmiss. exact Hother.
Qed.

End Accounts.

Section AccountsWitness.

Lemma demo_dave_is_not_bob : VInt 2 <> VInt 1.
Proof. discriminate. Qed.

Lemma demo_user_is_no_admin : VStr "user" <> VStr "admin".
Proof. discriminate. Qed.

Lemma user_records_are_guarded_witness :
  demo_dave !! "id" = Some (VInt 2)
  /\ demo_dave !! "role" = Some (VStr "user")
  /\ UserApi.get_user 1 demo_dave (demo_world demo_forum)
     = (Raise (HTTPException HTTP_403_FORBIDDEN "无权限查看此用户信息"),
        demo_world demo_forum).
Proof.
  split; [reflexivity |]. split; [reflexivity |].
  exact (proj1 (user_records_are_guarded 1%Z demo_dave (VInt 2)
                  (VStr "user") (demo_world demo_forum) eq_refl demo_dave_is_not_bob
                  eq_refl demo_user_is_no_admin)).
Defined.

Lemma update_user_cannot_escalate_witness :
  reachable (demo_world demo_db)
  /\ UserUpdate.role demo_promotion = Some UserRole.ADMIN
  /\ demo_bob !! "role" = Some (VStr "user")
  /\ exists users',
       store (UserApi.update_user 1 demo_promotion demo_bob
                (demo_world demo_db)).2 !! "users" = Some users'
       /\ exists new : row,
            t_rows users' !! 0%nat = Some new
            /\ new !! "role" = Some (VStr "user").
Proof.
  assert (Hr : reachable (demo_world demo_db)) by (right; reflexivity).
  split; [exact Hr |]. split; [reflexivity |]. split; [reflexivity |].
  destruct (update_user_cannot_escalate 1%Z demo_promotion demo_bob
              (VStr "user") (demo_world demo_db) demo_users_table Hr eq_refl eq_refl
              eq_refl demo_user_is_no_admin) as (users' & Hstore & _ & Hrows).
  exists users'. split; [exact Hstore |].
  destruct (Hrows 0%nat demo_bob eq_refl) as (new & Hnew & Hrole & _).
  exists new. split; [exact Hnew | exact Hrole].
Defined.

End AccountsWitness.

(** ** Reading an article *)

Section Views.
Import AsyncMySQLHandler.
Local Open Scope Z_scope.

(** What [get_article_by_id] returns for an article whose tags can be read:
    the article's columns, but for the tags and the author's name. *)
Lemma get_article_by_id_found article_id w (articles users : table) (a : row) rest :
  reachable w ->
  store w !! "articles" = Some articles ->
  store w !! "users" = Some users ->
  List.filter (has_id article_id) (t_rows articles) = a :: rest ->
  tags_readable a ->
  exists (result : row) w1,
    ArticleService.get_article_by_id article_id w = (Return (Some result), w1)
    /\ store w1 = store w /\ settled w w1
    /\ forall c, c <> "tags" -> c <> "author_name" -> result !! c = a !! c.
Proof.
  intros Hr Ha Hu Hfound Htags.
  destruct (get_article_by_id_run article_id w articles users Hr Ha Hu)
    as (w1 & Hstore & Hs & _ & Hrun).
  rewrite Hfound in Hrun. cbn [head] in Hrun. cbv zeta in Hrun.
  destruct (truthy (default VNone (a !! "tags"))) eqn:Ht.
  - destruct Htags as [Hf | [tags Hl]]; [congruence |]. rewrite Hl in Hrun.
    eexists _, w1. split; [exact Hrun |]. split; [exact Hstore |].
    split; [exact Hs |]. intros c Hc1 Hc2.
    rewrite !lookup_insert_ne by congruence. reflexivity.
  - eexists _, w1. split; [exact Hrun |]. split; [exact Hstore |].
    split; [exact Hs |]. intros c Hc1 Hc2.
    rewrite lookup_insert_ne by congruence. reflexivity.
Qed.

Lemma set_one_column c v (r : row) :
  set_columns (dict_keys [(c, v)]) (dict_values [(c, v)]) r = <[c := v]> r.
Proof.
  unfold set_columns. cbn. rewrite insert_empty, <- insert_union_singleton_l.
  reflexivity.
Qed.

(** X18: reading an article counts one view.  [get_article] returns the
    article as it was read, its count not yet raised, and writes the count
    read plus one into every row of the id; no other column and no other row
    changes.  When the stored count is NULL the sum fails with a
    [TypeError] and nothing is written. *)
Theorem article_view_is_counted article_id w (articles users : table) (a : row) rest :
  reachable w ->
  store w !! "articles" = Some articles ->
  store w !! "users" = Some users ->
  List.filter (has_id article_id) (t_rows articles) = a :: rest ->
  tags_readable a ->
  (forall n, a !! "view_count" = Some (VInt n) ->
     exists (result : row) w' articles',
       ArticleApi.get_article article_id w = (Return result, w')
       /\ result !! "view_count" = Some (VInt n)
       /\ store w' = <["articles" := articles']> (store w)
       /\ t_auto_increment articles' = t_auto_increment articles
       /\ t_rows articles'
          = map (fun r : row => if has_id article_id r
                                then <["view_count" := VInt (n + 1)]> r else r)
                (t_rows articles))
  /\ (a !! "view_count" = Some VNone ->
      exists w',
        ArticleApi.get_article article_id w = (Raise TypeError, w')
        /\ store w' = store w).
Proof.
  intros Hr Ha Hu Hfound Htags.
  destruct (get_article_by_id_found article_id w articles users a rest
              Hr Ha Hu Hfound Htags) as (result & w1 & Hrun & Hstore & Hs & Hcols).
  assert (Hviews : result !! "view_count" = a !! "view_count")
    by (apply Hcols; discriminate).
  split.
  - intros n Hn. rewrite Hn in Hviews.
    assert (Ha1 : store w1 !! "articles" = Some articles) by (rewrite Hstore; exact Ha).
    destruct (update_run "articles" [("view_count", VInt (n + 1))] SQL.id_equals
                [VInt article_id] w1 articles (settled_reachable _ _ Hs) Ha1)
      as (k & w2 & Hrun2 & Hstore2 & _).
    exists result, w2. eexists. split; [| split; [exact Hviews |]].
    + unfold ArticleApi.get_article, bind at 1. rewrite Hrun.
      rewrite (row_with_column_truthy result "view_count" _ Hviews).
      unfold bind at 1, subscript. rewrite Hviews. unfold ret at 1.
      unfold bind at 1, ArticleApi.plus_one, ret at 1.
      unfold bind. rewrite Hrun2. reflexivity.
    + split; [rewrite Hstore2, Hstore; reflexivity |]. split; [reflexivity |].
      unfold updated_rows. cbn [t_rows]. apply map_ext. intros r.
      change (holds SQL.id_equals [VInt article_id] r) with (has_id article_id r).
      destruct (has_id article_id r); [apply set_one_column | reflexivity].
  - intros Hnull. rewrite Hnull in Hviews. exists w1. split; [| exact Hstore].
    unfold ArticleApi.get_article, bind at 1. rewrite Hrun.
    rewrite (row_with_column_truthy result "view_count" _ Hviews).
    unfold bind at 1, subscript. rewrite Hviews. reflexivity.
Qed.

End Views.

Section ViewsWitness.

Lemma demo_read_article_is_readable : tags_readable demo_read_article.
Proof. right. exists (VList ["a"]). reflexivity. Qed.

Lemma article_view_is_counted_witness :
  reachable (demo_world demo_library)
  /\ List.filter (has_id 9) (t_rows demo_library_articles) = [demo_read_article]
  /\ exists (result : row) w',
       ArticleApi.get_article 9 (demo_world demo_library) = (Return result, w')
       /\ result !! "view_count" = Some (VInt 41)
       /\ t_rows <$> (store w' !! "articles")
          = Some [demo_article; <["view_count" := VInt 42]> demo_read_article].
Proof.
  assert (Hr : reachable (demo_world demo_library)) by (right; reflexivity).
  split; [exact Hr |]. split; [reflexivity |].
  destruct (proj1 (article_view_is_counted 9%Z (demo_world demo_library)
                     demo_library_articles demo_forum_users demo_read_article []
                     Hr eq_refl eq_refl eq_refl demo_read_article_is_readable)
              41%Z eq_refl)
    as (result & w' & articles' & Hrun & Hviews & Hstore & _ & Hrows).
  exists result, w'. split; [exact Hrun |]. split; [exact Hviews |].
  rewrite Hstore, lookup_insert_eq. cbn [fmap option_fmap option_map].
  rewrite Hrows. reflexivity.
Defined.

End ViewsWitness.

(** ** Closing the handler; updates that leave the tags out *)

Section Closing.
Import AsyncMySQLHandler.

Lemma set_pool_same w : set_pool (pool w) (pools_created w) w = w.
Proof. destruct w; reflexivity. Qed.

(** X19: closing and opening again.  [close_pool] unsets the pool and leaves
    the data alone, and closing twice is closing once.  A handler that was
    closed opens a new pool when it is entered again, one the server had not
    given before, but its thread pool stays shut down; with the server out
    of reach entering fails and no pool is set. *)
Theorem closed_handler_opens_again h :
  let w := the_world h in
  close_pool (close_pool h) = close_pool h
  /\ close_pool h
     = {| the_world := set_pool None (pools_created w) w;
          thread_pool_shutdown := true |}
  /\ (server_up w = true ->
      __aenter__ (__aexit__ h)
      = (Return tt,
         {| the_world := set_pool (Some (S (pools_created w))) (S (pools_created w)) w;
            thread_pool_shutdown := true |}))
  /\ (server_up w = false ->
      __aenter__ (__aexit__ h) = (Raise OperationalError, close_pool h)).
Proof.
  cbv zeta.
  assert (Hclosed : close_pool h
                    = {| the_world := set_pool None (pools_created (the_world h)) (the_world h);
                         thread_pool_shutdown := true |}).
  { unfold close_pool. destruct (pool (the_world h)) eqn:Hp; [reflexivity |].
    rewrite <- Hp, set_pool_same. reflexivity. }
  split; [| split; [exact Hclosed |]].
  - rewrite Hclosed. reflexivity.
  - split; intros Hup; unfold __aexit__; rewrite Hclosed;
      unfold __aenter__, _ensure_pool, bind, get, try_except, create_pool, modify,
        raise, ret; cbn; rewrite Hup; reflexivity.
Qed.

End Closing.

Section ClosingWitness.
Import AsyncMySQLHandler.

Lemma closed_handler_opens_again_witness :
  pool (ensured (demo_world demo_db)) = Some 1%nat
  /\ __aenter__ (__aexit__ {| the_world := ensured (demo_world demo_db);
                              thread_pool_shutdown := false |})
     = (Return tt,
        {| the_world := set_pool (Some 2%nat) 2 (ensured (demo_world demo_db));
           thread_pool_shutdown := true |}).
Proof.
  split; [reflexivity |].
  exact (proj1 (proj2 (proj2 (closed_handler_opens_again
                                {| the_world := ensured (demo_world demo_db);
                                   thread_pool_shutdown := false |}))) eq_refl).
Defined.

End ClosingWitness.

Section Tags.
Import AsyncMySQLHandler.

Lemma filter_map_commute (p : row -> bool) (g : row -> row) (rows : list row) :
  (forall r, p (g r) = p r) ->
  List.filter p (map g rows) = map g (List.filter p rows).
Proof.
  intros Hp. induction rows as [| r rows IH]; cbn; [reflexivity |].
  rewrite Hp. destruct (p r); cbn; rewrite IH; reflexivity.
Qed.

Lemma body_without_tags_provides (body : row) :
  body !! "tags" = None ->
  ArticleService.provided (ArticleUpdate.of_body body) "tags" = Some (VJson [])
  /\ ArticleService.provided (ArticleUpdate.of_body body) "id" = None.
Proof.
  intros Hb. unfold ArticleService.provided, ArticleUpdate.of_body. cbn.
  rewrite Hb. split; reflexivity.
Qed.

(** X1: an update that does not name the tags clears them.  The model of a
    request body without [tags] provides the empty list (the default of
    [ArticleUpdate.tags]), so for a caller who may edit the article
    [update_article] never answers the 400 of an empty update: it writes the
    JSON text of the empty list over the stored tags of every row of the id,
    and returns the article with no tags. *)
Theorem update_without_tags_clears_them article_id (body : row) user_id w
    (articles users : table) (a : row) rest :
  reachable w ->
  store w !! "articles" = Some articles ->
  store w !! "users" = Some users ->
  List.filter (has_id article_id) (t_rows articles) = a :: rest ->
  may_edit users a user_id ->
  body !! "tags" = None ->
  exists (result : row) w' articles',
    ArticleService.update_article article_id (ArticleUpdate.of_body body) user_id w
    = (Return (Some result), w')
    /\ result !! "tags" = Some (VList [])
    /\ store w' !! "articles" = Some articles'
    /\ forall i (r : row),
         t_rows articles !! i = Some r -> has_id article_id r = true ->
         exists r' : row,
           t_rows articles' !! i = Some r' /\ r' !! "tags" = Some (VJson []).
Proof.
  intros Hr Ha Hu Hfound Hmay Hbody.
  destruct (body_without_tags_provides body Hbody) as [Htags Hid].
  destruct (update_article_checks article_id (ArticleUpdate.of_body body) user_id w
              articles users a rest Hr Ha Hu Hfound Hmay)
    as (w2 & Hstore2 & Hclock2 & Hr2 & Hrun).
  rewrite <- article_fields_provided in Htags, Hid.
  destruct (ArticleService.update_fields (ArticleUpdate.of_body body))
    as [| kv fields] eqn:Hfields; [discriminate |].
  set (written := dict_set "updated_at" (VDatetime (clock w2)) (kv :: fields)) in *.
  assert (Ha2 : store w2 !! "articles" = Some articles) by (rewrite Hstore2; exact Ha).
  destruct (update_run "articles" written SQL.id_equals [VInt article_id] w2 articles
              Hr2 Ha2) as (n & w3 & Hrun3 & Hstore3 & _ & Hs3).
  set (articles' := updated_rows written SQL.id_equals [VInt article_id] articles) in *.
  assert (Ha3 : store w3 !! "articles" = Some articles')
    by (rewrite Hstore3; apply lookup_insert_eq).
  assert (Hu3 : store w3 !! "users" = Some users)
    by (rewrite Hstore3, lookup_insert_ne, Hstore2 by discriminate; exact Hu).
  destruct (get_article_by_id_run article_id w3 articles' users
              (settled_reachable _ _ Hs3) Ha3 Hu3) as (w4 & Hstore4 & _ & _ & Hrun4).
  assert (Hwritten : forall c, c <> "updated_at" -> dict_get c written = dict_get c (kv :: fields)).
  { intros c Hc. unfold written. apply dict_get_set_ne. congruence. }
  set (g := fun r : row => if holds SQL.id_equals [VInt article_id] r
                           then set_columns (dict_keys written) (dict_values written) r
                           else r).
  assert (Hkey : forall r, has_id article_id (g r) = has_id article_id r).
  { intros r. unfold g.
    destruct (holds SQL.id_equals [VInt article_id] r); [| reflexivity].
    unfold has_id. rewrite set_columns_lookup, Hwritten, Hid by discriminate.
    reflexivity. }
  assert (Hcleared : forall r, has_id article_id r = true ->
                               g r !! "tags" = Some (VJson [])).
  { intros r Hhit. unfold g.
    change (holds SQL.id_equals [VInt article_id] r) with (has_id article_id r).
    rewrite Hhit, set_columns_lookup, Hwritten, Htags by discriminate. reflexivity. }
  assert (Hhit : has_id article_id a = true).
  { assert (Hin : In a (List.filter (has_id article_id) (t_rows articles)))
      by (rewrite Hfound; left; reflexivity).
    apply List.filter_In in Hin. apply Hin. }
  assert (Hfirst : head (List.filter (has_id article_id) (t_rows articles'))
                   = Some (g a)).
  { unfold articles', updated_rows. cbn [t_rows]. fold g.
    rewrite (filter_map_commute _ g _ Hkey), Hfound. reflexivity. }
  rewrite Hfirst in Hrun4. cbv zeta in Hrun4.
  rewrite (Hcleared a Hhit) in Hrun4. cbn in Hrun4.
  eexists _, w4, articles'. split; [| split; [| split]].
  - rewrite Hrun. unfold bind at 1. fold written. rewrite Hrun3. exact Hrun4.
  - apply lookup_insert_eq.
  - rewrite Hstore4. exact Ha3.
  - intros i r Hi Hr'. exists (g r). split; [| apply Hcleared, Hr'].
    unfold articles', updated_rows. cbn [t_rows]. fold g.
    rewrite list_lookup_fmap, Hi. reflexivity.
Qed.

End Tags.

Section TagsWitness.

Lemma demo_bob_may_edit : may_edit demo_forum_users demo_article 1.
Proof. left. reflexivity. Qed.

Lemma demo_retitle_names_no_tags : demo_retitle !! "tags" = None.
Proof. vm_compute. reflexivity. Qed.

Lemma update_without_tags_clears_them_witness :
  reachable (demo_world demo_forum)
  /\ demo_article !! "tags" = Some (VJson ["a"; "b"])
  /\ exists (result : row) w',
       ArticleService.update_article 7 (ArticleUpdate.of_body demo_retitle)
         1 (demo_world demo_forum)
       = (Return (Some result), w')
       /\ result !! "tags" = Some (VList []).
Proof.
  assert (Hr : reachable (demo_world demo_forum)) by (right; reflexivity).
  split; [exact Hr |]. split; [reflexivity |].
  destruct (update_without_tags_clears_them 7%Z demo_retitle 1%Z
              (demo_world demo_forum) demo_articles demo_forum_users demo_article []
              Hr eq_refl eq_refl eq_refl demo_bob_may_edit demo_retitle_names_no_tags)
    as (result & w' & _ & Hrun & Htags & _).
  exists result, w'. split; [exact Hrun | exact Htags].
Defined.

End TagsWitness.

(** ** Deleting an article *)

Section Deleting.
Import AsyncMySQLHandler.

(** X20: the author and an admin delete an article, and only it.  For a
    caller who may edit the article, [delete_article] returns [True] and
    removes the rows of the id from the articles; afterwards the article is
    not found, every other article is found as before, and the users are
    untouched. *)
Theorem delete_article_removes_it article_id user_id w
    (articles users : table) (a : row) rest :
  reachable w ->
  store w !! "articles" = Some articles ->
  store w !! "users" = Some users ->
  List.filter (has_id article_id) (t_rows articles) = a :: rest ->
  may_edit users a user_id ->
  exists w',
    ArticleService.delete_article article_id user_id w = (Return true, w')
    /\ store w' = <["articles" := without_rows (has_id article_id) articles]> (store w)
    /\ (ArticleService.get_article_by_id article_id w').1 = Return None
    /\ (forall other, other <> article_id ->
          (ArticleService.get_article_by_id other w').1
          = (ArticleService.get_article_by_id other w).1).
Proof.
  intros Hr Ha Hu Hfound Hmay.
  destruct (author_lookup_run article_id w articles Hr Ha) as (w1 & Hrun1 & Hstore1 & Hs1).
  rewrite Hfound in Hrun1. cbn [map head] in Hrun1.
  assert (Hauthor : is_Some (a !! "author_id")) by (destruct Hmay as [-> | [? _]]; eauto).
  destruct Hauthor as [author Hauthor]. rewrite Hauthor in Hrun1.
  assert (Hu1 : store w1 !! "users" = Some users) by (rewrite Hstore1; exact Hu).
  destruct (role_lookup_run user_id w1 users (settled_reachable _ _ Hs1) Hu1)
    as (w2 & Hrun2 & Hstore2 & Hs2).
  assert (Ha2 : store w2 !! "articles" = Some articles)
    by (rewrite Hstore2, Hstore1; exact Ha).
  destruct (delete_run "articles" SQL.id_equals [VInt article_id] w2 articles
              (settled_reachable _ _ Hs2) Ha2) as (w3 & Hrun3 & Hstore3 & _ & Hs3).
  change (holds SQL.id_equals [VInt article_id]) with (has_id article_id) in *.
  assert (Hstore : store w3
                   = <["articles" := without_rows (has_id article_id) articles]> (store w))
    by (rewrite Hstore3, Hstore2, Hstore1; reflexivity).
  exists w3. split; [| split; [exact Hstore |]].
  - unfold ArticleService.delete_article, bind at 1. rewrite Hrun1.
    rewrite (row_with_column_truthy {[ "author_id" := author ]} "author_id" author
               (lookup_singleton_eq _ _)).
    unfold bind at 1. rewrite Hrun2.
    unfold bind at 1, subscript at 1. rewrite lookup_singleton_eq. unfold ret at 1.
    assert (Hallowed :
      (if negb (py_eq author (VInt user_id))
       then match head (map (fun u : row =>
                               match u !! "role" with
                               | Some i => ({[ "role" := i ]} : row)
                               | None => ∅
                               end)
                            (List.filter (has_id user_id) (t_rows users))) with
            | Some u => let* role := subscript u "role" in
                        ret (negb (py_eq role (VStr "admin")))
            | None => raise TypeError
            end
       else ret false) w2 = (Return false, w2)).
    { destruct Hmay as [Hown | (_ & u & rest' & Hu' & Hrole)].
      - assert (author = VInt user_id) as -> by congruence.
        unfold py_eq. rewrite bool_decide_eq_true_2 by reflexivity. reflexivity.
      - destruct (negb (py_eq author (VInt user_id))); [| reflexivity].
        rewrite Hu'. cbn [map head]. rewrite Hrole.
        unfold bind, subscript. rewrite lookup_singleton_eq. reflexivity. }
    unfold bind at 1. rewrite Hallowed.
    unfold bind. rewrite Hrun3. unfold ret. rewrite Hfound. reflexivity.
  - assert (Ha3 : store w3 !! "articles" = Some (without_rows (has_id article_id) articles))
      by (rewrite Hstore; apply lookup_insert_eq).
    assert (Hu3 : store w3 !! "users" = Some users)
      by (rewrite Hstore, lookup_insert_ne by discriminate; exact Hu).
    split.
    + destruct (get_article_by_id_run article_id w3 _ users
                  (settled_reachable _ _ Hs3) Ha3 Hu3) as (w4 & _ & _ & _ & Hrun4).
      rewrite Hrun4. cbn [without_rows t_rows]. rewrite filter_own_gone. reflexivity.
    + intros other Hne.
      destruct (get_article_by_id_run other w3 _ users
                  (settled_reachable _ _ Hs3) Ha3 Hu3) as (w4 & _ & _ & _ & Hrun4).
      destruct (get_article_by_id_run other w articles users Hr Ha Hu)
        as (w5 & _ & _ & _ & Hrun5).
      rewrite Hrun4, Hrun5. cbn [without_rows t_rows].
      rewrite filter_others_kept by exact Hne.
      destruct (head (List.filter (has_id other) (t_rows articles))) as [b |];
        [| reflexivity].
      cbv zeta. destruct (truthy _); [| reflexivity]. destruct (json_loads _); reflexivity.
Qed.

End Deleting.

Section DeletingWitness.

Lemma delete_article_removes_it_witness :
  reachable (demo_world demo_library)
  /\ List.filter (has_id 7) (t_rows demo_library_articles) = [demo_article]
  /\ exists w',
       ArticleService.delete_article 7 1 (demo_world demo_library) = (Return true, w')
       /\ t_rows <$> (store w' !! "articles") = Some [demo_read_article].
Proof.
  assert (Hr : reachable (demo_world demo_library)) by (right; reflexivity).
  split; [exact Hr |]. split; [reflexivity |].
  destruct (delete_article_removes_it 7%Z 1%Z (demo_world demo_library)
              demo_library_articles demo_forum_users demo_article []
              Hr eq_refl eq_refl eq_refl demo_bob_may_edit)
    as (w' & Hrun & Hstore & _).
  exists w'. split; [exact Hrun |]. rewrite Hstore, lookup_insert_eq. reflexivity.
Defined.

End DeletingWitness.
